(** * drivers/s390/cio/device.c: the ccw bus driver

    A shallow embedding of the binding, relocation, event evaluation and
    recovery code of the s390 channel subsystem device driver, and the
    properties of it that the specification states.

    C objects live in a store keyed by their address ([dev_ptr], [sch_ptr]);
    every function of the driver is a computation in the monad [M], which
    threads the store and fails ([None]) where the C code would dereference
    an address that holds no object.  The driver runs under locks
    ([sch->lock], [recovery_lock]); the embedding is sequential, one call at
    a time, so the lock operations leave no trace in the store. *)

From Stdlib Require Import ZArith Lia Bool.
From stdpp Require Import base option list gmap strings.

Open Scope Z_scope.

(** ** Constants of headers that are not part of this file *)

(** linux/errno.h *)
Definition ENOMEM : Z := 12.
Definition EAGAIN : Z := 11.
Definition ENODEV : Z := 19.
Definition EINVAL : Z := 22.

(** [unsigned long] arithmetic (64-bit s390x). *)
Definition BITS_PER_LONG : Z := 64.
Definition ulong (z : Z) : Z := z mod 2 ^ BITS_PER_LONG.

(** ** Data model *)

Definition dev_ptr := positive.
Definition sch_ptr := positive.

(** [enum dev_state] of device.h. *)
Inductive dev_state :=
| DEV_STATE_NOT_OPER
| DEV_STATE_SENSE_PGID
| DEV_STATE_SENSE_ID
| DEV_STATE_OFFLINE
| DEV_STATE_VERIFY
| DEV_STATE_ONLINE
| DEV_STATE_W4SENSE
| DEV_STATE_DISBAND_PGID
| DEV_STATE_BOXED
| DEV_STATE_CLEAR_VERIFY
| DEV_STATE_TIMEOUT_KILL
| DEV_STATE_QUIESCE
| DEV_STATE_DISCONNECTED
| DEV_STATE_DISCONNECTED_SENSE_ID
| DEV_STATE_CMFCHANGE
| DEV_STATE_CMFUPDATE.

#[global] Instance dev_state_eq_dec : EqDecision dev_state.
Proof. solve_decision. Defined.

(** [enum dev_event] of device.h. *)
Inductive dev_event :=
| DEV_EVENT_NOTOPER
| DEV_EVENT_INTERRUPT
| DEV_EVENT_TIMEOUT
| DEV_EVENT_VERIFY.

(** [struct ccw_dev_id]: the identity of a device. *)
Record ccw_dev_id := mk_dev_id { ssid : Z; devno : Z }.

(** [struct subchannel_id], reduced to the fields this file reads. *)
Record subchannel_id := mk_schid { sch_ssid : Z; sch_no : Z }.

(** The callbacks of [struct ccw_driver] that this file calls.  A callback
    that is [NULL] is [None]; one that is present yields its return code. *)
Record ccw_driver := mk_drv {
  drv_set_online : option (dev_ptr -> Z);
  drv_set_offline : option (dev_ptr -> Z);
  drv_owner : positive
}.

(** The work functions this file hands to [PREPARE_WORK]. *)
Inductive work_func :=
| W_ccw_device_remove_orphan_cb
| W_ccw_device_call_sch_unregister
| W_ccw_device_move_to_sch
| W_io_subchannel_register.

(** [struct ccw_device] with its [struct ccw_device_private]. *)
Record ccw_device := mk_cdev {
  online : bool;                 (* cdev->online *)
  drv : option ccw_driver;       (* cdev->drv *)
  parent : option sch_ptr;       (* cdev->dev.parent *)
  kref : Z;                      (* reference count of cdev->dev *)
  ccwlock : option sch_ptr;      (* cdev->ccwlock, the lock of a subchannel *)
  cu_type : Z;                   (* cdev->id.cu_type *)
  state : dev_state;             (* private->state *)
  dev_id : ccw_dev_id;           (* private->dev_id *)
  schid : subchannel_id;         (* private->schid *)
  onoff : Z;                     (* private->onoff *)
  fake_irb : bool;               (* private->flags.fake_irb *)
  recog_done : bool;             (* private->flags.recog_done *)
  timer : bool;                  (* private->timer is pending *)
  kick_work : option work_func;  (* private->kick_work *)
  priv_sch : option sch_ptr      (* private->sch *)
}.

(** The fields of [struct pmcw] (inside [struct schib]) this file reads. *)
Record pmcw := mk_pmcw {
  dev : Z;                       (* pmcw.dev, the device number *)
  dnv : bool                     (* pmcw.dnv, device number valid *)
}.

(** [struct subchannel] with the device pointer of its
    [struct io_subchannel_private]. *)
Record subchannel := mk_sch {
  sch_schid : subchannel_id;     (* sch->schid *)
  schib_pmcw : pmcw;             (* sch->schib.pmcw *)
  lpm : Z;                       (* sch->lpm *)
  sch_cdev : option dev_ptr;     (* sch_get_cdev(sch) *)
  sch_kref : Z;                  (* reference count of sch->dev *)
  sch_registered : bool;         (* device_is_registered(&sch->dev) *)
  intparm : Z;                   (* sch->config.intparm *)
  children : list dev_ptr        (* the children of sch->dev, in list order *)
}.

(** The subchannel conditions of css.h. *)
Inductive cio_event := CIO_GONE | CIO_NO_PATH | CIO_OPER | CIO_REVALIDATE.

(** [struct timer_list]. *)
Record timer_list := mk_timer { pending : bool; expires : Z }.

(** Calls into collaborators whose effect lies outside this file. *)
Inductive event :=
| E_device_move (cdev : dev_ptr) (new_parent : sch_ptr) (rc : Z)
| E_kzalloc_cdev (ok : bool)
| E_css_sch_device_unregister (sch : sch_ptr)
| E_css_probe_device (id : subchannel_id)
| E_css_update_ssd_info (sch : sch_ptr)
| E_cio_commit_config (sch : sch_ptr)
| E_cio_disable_subchannel (sch : sch_ptr)
| E_dev_fsm_event (cdev : dev_ptr) (ev : dev_event)
| E_ccw_device_trigger_reprobe (cdev : dev_ptr)
| E_ccw_device_recognition (cdev : dev_ptr) (rc : Z)
| E_queue_work (cdev : dev_ptr) (fn : work_func).

(** The store: the objects, the lists the driver core keeps, and the
    globals of this file. *)
Record world := mk_world {
  devs : gmap dev_ptr ccw_device;
  schs : gmap sch_ptr subchannel;
  ccw_bus : list dev_ptr;         (* the devices of ccw_bus_type, list order *)
  pseudo_subchannel : sch_ptr;    (* css->pseudo_subchannel *)
  recovery_timer : timer_list;
  recovery_phase : Z;
  jiffies : Z;
  next_dev : dev_ptr;             (* the address the next allocation returns *)
  trace : list event
}.

(** ** Field updates *)

Definition set_online (v : bool) (c : ccw_device) : ccw_device :=
  mk_cdev v (drv c) (parent c) (kref c) (ccwlock c) (cu_type c) (state c)
    (dev_id c) (schid c) (onoff c) (fake_irb c) (recog_done c) (timer c)
    (kick_work c) (priv_sch c).
Definition set_parent (v : option sch_ptr) (c : ccw_device) : ccw_device :=
  mk_cdev (online c) (drv c) v (kref c) (ccwlock c) (cu_type c) (state c)
    (dev_id c) (schid c) (onoff c) (fake_irb c) (recog_done c) (timer c)
    (kick_work c) (priv_sch c).
Definition set_kref (v : Z) (c : ccw_device) : ccw_device :=
  mk_cdev (online c) (drv c) (parent c) v (ccwlock c) (cu_type c) (state c)
    (dev_id c) (schid c) (onoff c) (fake_irb c) (recog_done c) (timer c)
    (kick_work c) (priv_sch c).
Definition set_ccwlock (v : option sch_ptr) (c : ccw_device) : ccw_device :=
  mk_cdev (online c) (drv c) (parent c) (kref c) v (cu_type c) (state c)
    (dev_id c) (schid c) (onoff c) (fake_irb c) (recog_done c) (timer c)
    (kick_work c) (priv_sch c).
Definition set_state (v : dev_state) (c : ccw_device) : ccw_device :=
  mk_cdev (online c) (drv c) (parent c) (kref c) (ccwlock c) (cu_type c) v
    (dev_id c) (schid c) (onoff c) (fake_irb c) (recog_done c) (timer c)
    (kick_work c) (priv_sch c).
Definition set_dev_id (v : ccw_dev_id) (c : ccw_device) : ccw_device :=
  mk_cdev (online c) (drv c) (parent c) (kref c) (ccwlock c) (cu_type c)
    (state c) v (schid c) (onoff c) (fake_irb c) (recog_done c) (timer c)
    (kick_work c) (priv_sch c).
Definition set_schid (v : subchannel_id) (c : ccw_device) : ccw_device :=
  mk_cdev (online c) (drv c) (parent c) (kref c) (ccwlock c) (cu_type c)
    (state c) (dev_id c) v (onoff c) (fake_irb c) (recog_done c) (timer c)
    (kick_work c) (priv_sch c).
Definition set_onoff (v : Z) (c : ccw_device) : ccw_device :=
  mk_cdev (online c) (drv c) (parent c) (kref c) (ccwlock c) (cu_type c)
    (state c) (dev_id c) (schid c) v (fake_irb c) (recog_done c) (timer c)
    (kick_work c) (priv_sch c).
Definition set_fake_irb (v : bool) (c : ccw_device) : ccw_device :=
  mk_cdev (online c) (drv c) (parent c) (kref c) (ccwlock c) (cu_type c)
    (state c) (dev_id c) (schid c) (onoff c) v (recog_done c) (timer c)
    (kick_work c) (priv_sch c).
Definition set_timer (v : bool) (c : ccw_device) : ccw_device :=
  mk_cdev (online c) (drv c) (parent c) (kref c) (ccwlock c) (cu_type c)
    (state c) (dev_id c) (schid c) (onoff c) (fake_irb c) (recog_done c) v
    (kick_work c) (priv_sch c).
Definition set_cu_type (v : Z) (c : ccw_device) : ccw_device :=
  mk_cdev (online c) (drv c) (parent c) (kref c) (ccwlock c) v (state c)
    (dev_id c) (schid c) (onoff c) (fake_irb c) (recog_done c) (timer c)
    (kick_work c) (priv_sch c).
Definition set_recog_done (v : bool) (c : ccw_device) : ccw_device :=
  mk_cdev (online c) (drv c) (parent c) (kref c) (ccwlock c) (cu_type c)
    (state c) (dev_id c) (schid c) (onoff c) (fake_irb c) v (timer c)
    (kick_work c) (priv_sch c).
Definition set_kick_work (v : option work_func) (c : ccw_device) : ccw_device :=
  mk_cdev (online c) (drv c) (parent c) (kref c) (ccwlock c) (cu_type c)
    (state c) (dev_id c) (schid c) (onoff c) (fake_irb c) (recog_done c)
    (timer c) v (priv_sch c).

Definition set_sch_cdev (v : option dev_ptr) (s : subchannel) : subchannel :=
  mk_sch (sch_schid s) (schib_pmcw s) (lpm s) v (sch_kref s)
    (sch_registered s) (intparm s) (children s).
Definition set_sch_kref (v : Z) (s : subchannel) : subchannel :=
  mk_sch (sch_schid s) (schib_pmcw s) (lpm s) (sch_cdev s) v
    (sch_registered s) (intparm s) (children s).
Definition set_sch_registered (v : bool) (s : subchannel) : subchannel :=
  mk_sch (sch_schid s) (schib_pmcw s) (lpm s) (sch_cdev s) (sch_kref s) v
    (intparm s) (children s).
Definition set_intparm (v : Z) (s : subchannel) : subchannel :=
  mk_sch (sch_schid s) (schib_pmcw s) (lpm s) (sch_cdev s) (sch_kref s)
    (sch_registered s) v (children s).
Definition set_children (v : list dev_ptr) (s : subchannel) : subchannel :=
  mk_sch (sch_schid s) (schib_pmcw s) (lpm s) (sch_cdev s) (sch_kref s)
    (sch_registered s) (intparm s) v.

Definition set_devs (v : gmap dev_ptr ccw_device) (w : world) : world :=
  mk_world v (schs w) (ccw_bus w) (pseudo_subchannel w) (recovery_timer w)
    (recovery_phase w) (jiffies w) (next_dev w) (trace w).
Definition set_schs (v : gmap sch_ptr subchannel) (w : world) : world :=
  mk_world (devs w) v (ccw_bus w) (pseudo_subchannel w) (recovery_timer w)
    (recovery_phase w) (jiffies w) (next_dev w) (trace w).
Definition set_recovery_timer (v : timer_list) (w : world) : world :=
  mk_world (devs w) (schs w) (ccw_bus w) (pseudo_subchannel w) v
    (recovery_phase w) (jiffies w) (next_dev w) (trace w).
Definition set_recovery_phase (v : Z) (w : world) : world :=
  mk_world (devs w) (schs w) (ccw_bus w) (pseudo_subchannel w)
    (recovery_timer w) v (jiffies w) (next_dev w) (trace w).
Definition set_next_dev (v : dev_ptr) (w : world) : world :=
  mk_world (devs w) (schs w) (ccw_bus w) (pseudo_subchannel w)
    (recovery_timer w) (recovery_phase w) (jiffies w) v (trace w).
Definition set_trace (v : list event) (w : world) : world :=
  mk_world (devs w) (schs w) (ccw_bus w) (pseudo_subchannel w)
    (recovery_timer w) (recovery_phase w) (jiffies w) (next_dev w) v.

(** ** The store monad *)

Definition M (A : Type) : Type := world -> option (A * world).

Definition ret {A} (a : A) : M A := fun w => Some (a, w).
Definition bind {A B} (m : M A) (f : A -> M B) : M B :=
  fun w => match m w with Some (a, w') => f a w' | None => None end.
Definition fail {A} : M A := fun _ => None.
Definition get_world : M world := fun w => Some (w, w).
Definition modify (f : world -> world) : M unit := fun w => Some (tt, f w).
Definition lift_opt {A} (o : option A) : M A :=
  fun w => match o with Some a => Some (a, w) | None => None end.

Notation "'let*' x ':=' c1 'in' c2" := (bind c1 (fun x => c2))
  (at level 10, x name, c1 at level 100, c2 at level 200).
Notation "'let*' ' pat ':=' c1 'in' c2" :=
  (bind c1 (fun x => match x with pat => c2 end))
  (at level 10, pat pattern, c1 at level 100, c2 at level 200).
Notation "c1 >> c2" := (bind c1 (fun _ => c2))
  (at level 100, c2 at level 200, right associativity).

(** [*cdev] and [*sch]: reading fails where no object lives. *)
Definition cdev_get (p : dev_ptr) : M ccw_device :=
  let* w := get_world in lift_opt (devs w !! p).
Definition cdev_upd (p : dev_ptr) (f : ccw_device -> ccw_device) : M unit :=
  let* d := cdev_get p in modify (fun w => set_devs (<[p := f d]> (devs w)) w).
Definition sch_get (p : sch_ptr) : M subchannel :=
  let* w := get_world in lift_opt (schs w !! p).
Definition sch_upd (p : sch_ptr) (f : subchannel -> subchannel) : M unit :=
  let* s := sch_get p in modify (fun w => set_schs (<[p := f s]> (schs w)) w).

Definition log (e : event) : M unit :=
  modify (fun w => set_trace (trace w ++ [e]) w).

(** ** Collaborators

    The channel I/O layer (cio.c), the device state machine (device_fsm.c)
    and the driver core are called by this file but are not part of it.
    What they answer is an input of the embedding: a [collab] gives, for
    every such call, the answer in the store the call is made in.  The
    state machine owns [private->state]: a call into it yields the state
    it leaves the device in. *)
Record collab := mk_collab {
  HZ : Z;                                               (* asm/param.h *)
  o_stsch : subchannel_id -> world -> option pmcw;      (* None: cc != 0 *)
  o_css_probe_device : subchannel_id -> world -> Z;
  o_ccw_device_notify : dev_ptr -> cio_event -> world -> Z;
  o_ccw_device_online : dev_ptr -> world -> Z * dev_state;
  o_ccw_device_offline : dev_ptr -> world -> Z * dev_state;
  o_ccw_device_recognition : dev_ptr -> world -> Z * dev_state;
  o_ccw_device_stlck : dev_ptr -> world -> Z * dev_state;
  o_dev_fsm_event : dev_ptr -> dev_event -> world -> dev_state;
  o_ccw_device_trigger_reprobe : dev_ptr -> world -> dev_state;
  o_final_state : dev_ptr -> world -> dev_state;        (* after wait_event *)
  o_recog_done : dev_ptr -> world -> dev_state * Z;     (* state, id.cu_type *)
  o_device_move : dev_ptr -> sch_ptr -> world -> Z;
  o_kzalloc : world -> bool;
  o_try_module_get : positive -> world -> bool;
  o_strict_strtoul : string -> Z -> world -> Z * Z      (* (ret, value) *)
}.

(** [&cdev->dev] and [&sch->dev]: the [struct device] embedded in an
    object. *)
Inductive device :=
| cdev_dev (cdev : dev_ptr)
| sch_dev (sch : sch_ptr).

(** Modelled from the spec: the reference-counted object store of the
    driver core (linux/device.h).  [get_device] adds a reference and
    returns its argument, which is not [NULL] for the address of an
    object, hence [true]; [put_device] drops a reference.  The store
    keeps the counts.  When the count of an object reaches zero the driver
    core calls the release function of the object; for a device that is
    [ccw_device_release] below, and [put_device_release] is the call that
    runs it.  It stands where the driver gives up the initial reference of
    a device it has just created, which no one else holds. *)
Definition get_device (d : device) : M bool :=
  match d with
  | cdev_dev p => cdev_upd p (fun c => set_kref (kref c + 1) c) >> ret true
  | sch_dev p => sch_upd p (fun s => set_sch_kref (sch_kref s + 1) s) >> ret true
  end.

Definition put_device (d : device) : M unit :=
  match d with
  | cdev_dev p => cdev_upd p (fun c => set_kref (kref c - 1) c)
  | sch_dev p => sch_upd p (fun s => set_sch_kref (sch_kref s - 1) s)
  end.

(** Modelled from the spec: [timer_pending] and [mod_timer] of
    linux/timer.h, the single pending timer of the recovery state. *)
Definition timer_pending (t : timer_list) : bool := pending t.
Definition mod_timer (t : timer_list) (e : Z) : timer_list := mk_timer true e.

(** Modelled from the spec: [bus_for_each_dev] of the driver core walks the
    devices of the bus in list order and stops at the first callback that
    returns nonzero; [data] is the cell the callback writes to. *)
Fixpoint bus_for_each_dev {A} (l : list dev_ptr) (data : A)
    (fn : dev_ptr -> A -> M (Z * A)) : M (Z * A) :=
  match l with
  | [] => ret (0, data)
  | d :: l' =>
      let* '(error, data') := fn d data in
      if error =? 0 then bus_for_each_dev l' data' fn else ret (error, data')
  end.

(** [dev_fsm_event] of device.h: the state machine takes the event. *)
Definition dev_fsm_event (E : collab) (cdev : dev_ptr) (ev : dev_event) : M unit :=
  let* w := get_world in
  cdev_upd cdev (set_state (o_dev_fsm_event E cdev ev w)) >>
  log (E_dev_fsm_event cdev ev).

(** ** Recovery scheduler *)

Definition recovery_delay : list Z := [3; 30; 300].

Definition ARRAY_SIZE {A} (l : list A) : Z := Z.of_nat (length l).

(** [recovery_delay[i]]: reading outside the table is undefined. *)
Definition recovery_delay_at (i : Z) : M Z :=
  if i <? 0 then fail else lift_opt (recovery_delay !! Z.to_nat i).

Definition recovery_check (E : collab) (cdev : dev_ptr) (redo : Z) : M (Z * Z) :=
  let* c := cdev_get cdev in
  match state c with
  | DEV_STATE_DISCONNECTED =>
      dev_fsm_event E cdev DEV_EVENT_VERIFY >>
      ret (0, 1)
  | DEV_STATE_DISCONNECTED_SENSE_ID =>
      ret (0, 1)
  | _ => ret (0, redo)
  end.

Definition recovery_work_func (E : collab) : M unit :=
  let* w := get_world in
  let* '(_, redo) := bus_for_each_dev (ccw_bus w) 0 (recovery_check E) in
  if negb (redo =? 0) then
    let* w := get_world in
    if negb (timer_pending (recovery_timer w)) then
      (if ulong (recovery_phase w) <? ulong (ARRAY_SIZE recovery_delay - 1)
       then modify (fun w => set_recovery_phase (recovery_phase w + 1) w)
       else ret tt) >>
      let* w := get_world in
      let* delay := recovery_delay_at (recovery_phase w) in
      modify (set_recovery_timer
                (mod_timer (recovery_timer w) (ulong (jiffies w + delay * HZ E))))
    else ret tt
  else ret tt.

(** [recovery_func] hands [recovery_work] to the work queue; the work
    function runs from there. *)
Definition recovery_func (E : collab) : M unit := recovery_work_func E.

Definition ccw_device_schedule_recovery (E : collab) : M unit :=
  let* w := get_world in
  if negb (timer_pending (recovery_timer w)) || negb (recovery_phase w =? 0) then
    modify (set_recovery_phase 0) >>
    let* w := get_world in
    let* delay := recovery_delay_at 0 in
    modify (set_recovery_timer
              (mod_timer (recovery_timer w) (ulong (jiffies w + delay * HZ E))))
  else ret tt.

(** ** Calls into the device state machine

    [ccw_device_online], [ccw_device_offline], [ccw_device_recognition] and
    [ccw_device_stlck] start a transition and return its code;
    [wait_event] on [dev_fsm_final_state] returns once the state machine
    has settled, and on [flags.recog_done] once sensing has filled in the
    identification. *)
Definition ccw_device_online (E : collab) (cdev : dev_ptr) : M Z :=
  let* w := get_world in
  let '(rc, st) := o_ccw_device_online E cdev w in
  cdev_upd cdev (set_state st) >> ret rc.

Definition ccw_device_offline (E : collab) (cdev : dev_ptr) : M Z :=
  let* w := get_world in
  let '(rc, st) := o_ccw_device_offline E cdev w in
  cdev_upd cdev (set_state st) >> ret rc.

Definition ccw_device_recognition (E : collab) (cdev : dev_ptr) : M Z :=
  let* w := get_world in
  let '(rc, st) := o_ccw_device_recognition E cdev w in
  cdev_upd cdev (set_state st) >>
  log (E_ccw_device_recognition cdev rc) >> ret rc.

Definition ccw_device_stlck (E : collab) (cdev : dev_ptr) : M Z :=
  let* w := get_world in
  let '(rc, st) := o_ccw_device_stlck E cdev w in
  cdev_upd cdev (set_state st) >> ret rc.

(** Modelled from the spec: [dev_fsm_final_state] of device.h, true once
    the state machine has settled: the device is not operational, offline,
    online or boxed. *)
Definition dev_fsm_final_state (c : ccw_device) : bool :=
  match state c with
  | DEV_STATE_NOT_OPER | DEV_STATE_OFFLINE | DEV_STATE_ONLINE
  | DEV_STATE_BOXED => true
  | _ => false
  end.

(** [wait_event(cdev->private->wait_q, dev_fsm_final_state(cdev))]: the
    condition is tested first, so a device that has settled already is not
    waited for; otherwise the caller sleeps until the state machine has
    brought the device to the state [o_final_state] tells. *)
Definition wait_event_final_state (E : collab) (cdev : dev_ptr) : M unit :=
  let* c := cdev_get cdev in
  if dev_fsm_final_state c then ret tt else
  let* w := get_world in
  cdev_upd cdev (set_state (o_final_state E cdev w)).

(** The state in which [wait_event_final_state] leaves device [c] of the
    store [w]. *)
Definition settled (E : collab) (p : dev_ptr) (w : world) (c : ccw_device)
    : dev_state :=
  if dev_fsm_final_state c then state c else o_final_state E p w.

Definition wait_event_recog_done (E : collab) (cdev : dev_ptr) : M unit :=
  let* w := get_world in
  let '(st, cu) := o_recog_done E cdev w in
  cdev_upd cdev (fun c => set_recog_done true (set_cu_type cu (set_state st c))).

(** Modelled from the spec: [ccw_device_set_timeout(cdev, 0)] of
    device_fsm.c cancels the pending timeout of the device. *)
Definition ccw_device_set_timeout_0 (cdev : dev_ptr) : M unit :=
  cdev_upd cdev (set_timer false).

(** [PREPARE_WORK] followed by [queue_work]: the work runs later, on the
    work queue; the store records that it was queued. *)
Definition PREPARE_WORK (cdev : dev_ptr) (fn : work_func) : M unit :=
  cdev_upd cdev (set_kick_work (Some fn)).
Definition queue_work (cdev : dev_ptr) : M unit :=
  let* c := cdev_get cdev in
  let* fn := lift_opt (kick_work c) in
  log (E_queue_work cdev fn).

(** ** Device handling: online and offline *)

(** Modelled from the spec: [sch_is_pseudo_sch] of css.h tells the orphan
    pseudo-subchannel, of which there is one. *)
Definition sch_is_pseudo_sch (sch : sch_ptr) : M bool :=
  let* w := get_world in ret (bool_decide (sch = pseudo_subchannel w)).

Definition ccw_device_is_orphan (cdev : dev_ptr) : M bool :=
  let* c := cdev_get cdev in
  let* sch := lift_opt (parent c) in
  sch_is_pseudo_sch sch.

Definition ccw_device_remove_disconnected (cdev : dev_ptr) : M unit :=
  let* got := get_device (cdev_dev cdev) in
  if negb got then ret tt else
  let* orphan := ccw_device_is_orphan cdev in
  (if orphan then
     cdev_upd cdev (set_state DEV_STATE_NOT_OPER) >>
     PREPARE_WORK cdev W_ccw_device_remove_orphan_cb
   else
     PREPARE_WORK cdev W_ccw_device_call_sch_unregister) >>
  queue_work cdev.

Definition ccw_device_set_offline (E : collab) (cdev : option dev_ptr) : M Z :=
  match cdev with
  | None => ret (- ENODEV)
  | Some cdev =>
      let* c := cdev_get cdev in
      match online c, drv c with
      | true, Some d =>
          let* ret0 :=
            match drv_set_offline d with
            | Some set_offline => ret (set_offline cdev)
            | None => ret 0
            end in
          if negb (ret0 =? 0) then ret ret0 else
          cdev_upd cdev (set_online false) >>
          let* rc := ccw_device_offline E cdev in
          if rc =? - ENODEV then
            let* c := cdev_get cdev in
            (if negb (bool_decide (state c = DEV_STATE_NOT_OPER)) then
               cdev_upd cdev (set_state DEV_STATE_OFFLINE) >>
               dev_fsm_event E cdev DEV_EVENT_NOTOPER
             else ret tt) >>
            (* Give up reference from ccw_device_set_online(). *)
            put_device (cdev_dev cdev) >>
            ret rc
          else if rc =? 0 then
            wait_event_final_state E cdev >>
            (* Give up reference from ccw_device_set_online(). *)
            put_device (cdev_dev cdev) >>
            ret rc
          else
            cdev_upd cdev (set_online true) >>
            ret rc
      | _, _ => ret (- EINVAL)
      end
  end.

Definition ccw_device_set_online (E : collab) (cdev : option dev_ptr) : M Z :=
  match cdev with
  | None => ret (- ENODEV)
  | Some cdev =>
      let* c := cdev_get cdev in
      match online c, drv c with
      | false, Some _ =>
          (* Hold on to an extra reference while device is online. *)
          let* got := get_device (cdev_dev cdev) in
          if negb got then ret (- ENODEV) else
          let* rc := ccw_device_online E cdev in
          if negb (rc =? 0) then
            (* Give up online reference since onlining failed. *)
            put_device (cdev_dev cdev) >>
            ret rc
          else
          wait_event_final_state E cdev >>
          let* c := cdev_get cdev in
          if negb (bool_decide (state c = DEV_STATE_ONLINE)) then
            (* Give up online reference since onlining failed. *)
            put_device (cdev_dev cdev) >>
            ret (- ENODEV)
          else
          let* d := lift_opt (drv c) in
          if match drv_set_online d with
             | None => true
             | Some set_online => set_online cdev =? 0
             end
          then
            cdev_upd cdev (set_online true) >>
            ret 0
          else
          let* rc := ccw_device_offline E cdev in
          (if rc =? 0 then wait_event_final_state E cdev else ret tt) >>
          (* Give up online reference since onlining failed. *)
          put_device (cdev_dev cdev) >>
          ret (if rc =? 0 then - ENODEV else rc)
      | _, _ => ret (- EINVAL)
      end
  end.

Definition online_store_handle_offline (E : collab) (cdev : dev_ptr) : M unit :=
  let* c := cdev_get cdev in
  if bool_decide (state c = DEV_STATE_DISCONNECTED) then
    ccw_device_remove_disconnected cdev
  else
    match drv c with
    | Some d =>
        if bool_decide (is_Some (drv_set_offline d)) then
          ccw_device_set_offline E (Some cdev) >> ret tt
        else ret tt
    | None => ret tt
    end.

Definition online_store_recog_and_online (E : collab) (cdev : dev_ptr) : M Z :=
  let* c := cdev_get cdev in
  let* ret0 :=
    (* Do device recognition, if needed. *)
    if cu_type c =? 0 then
      let* rc := ccw_device_recognition E cdev in
      if negb (rc =? 0) then ret rc
      else wait_event_recog_done E cdev >> ret 0
    else ret 0 in
  if negb (ret0 =? 0) then ret ret0 else
  let* c := cdev_get cdev in
  match drv c with
  | Some d =>
      if bool_decide (is_Some (drv_set_online d)) then
        ccw_device_set_online E (Some cdev) >> ret 0
      else ret 0
  | None => ret 0
  end.

Definition online_store_handle_online (E : collab) (cdev : dev_ptr) (force : Z)
    : M Z :=
  let* rc := online_store_recog_and_online E cdev in
  if negb (rc =? 0) then ret rc else
  let* c := cdev_get cdev in
  if negb (force =? 0) && bool_decide (state c = DEV_STATE_BOXED) then
    let* rc := ccw_device_stlck E cdev in
    if negb (rc =? 0) then ret rc else
    let* c := cdev_get cdev in
    (if cu_type c =? 0 then cdev_upd cdev (set_state DEV_STATE_NOT_OPER)
     else ret tt) >>
    online_store_recog_and_online E cdev >>
    ret 0
  else ret 0.

(** [strncmp] of linux/string.h on NUL-terminated buffers: compares at most
    [n] characters; the result is zero exactly when they agree. *)
Fixpoint strncmp (s1 s2 : string) (n : nat) : Z :=
  match n with
  | O => 0
  | S n' =>
      match s1, s2 with
      | EmptyString, EmptyString => 0
      | EmptyString, String b _ => - Z.of_nat (Ascii.nat_of_ascii b)
      | String a _, EmptyString => Z.of_nat (Ascii.nat_of_ascii a)
      | String a s1', String b s2' =>
          if Ascii.eqb a b then strncmp s1' s2' n'
          else Z.of_nat (Ascii.nat_of_ascii a) - Z.of_nat (Ascii.nat_of_ascii b)
      end
  end.

Definition force_nl : string := String.append "force" (String (Ascii.ascii_of_nat 10) EmptyString).

(** [module_put] gives back what [try_module_get] took; module counts are
    not part of the store. *)
Definition module_put (owner : positive) : M unit := ret tt.

(** [int ret; ... ret = count;]: [count] is a [size_t], and the assignment
    converts it to the 32-bit [int], keeping the low 32 bits as a signed
    number. *)
Definition to_int (z : Z) : Z := (z + 2 ^ 31) mod 2 ^ 32 - 2 ^ 31.

Definition online_store (E : collab) (cdev : dev_ptr) (buf : string) (count : Z)
    : M Z :=
  let* c := cdev_get cdev in
  (* atomic_cmpxchg(&cdev->private->onoff, 0, 1) != 0 *)
  if negb (onoff c =? 0) then ret (- EAGAIN) else
  cdev_upd cdev (set_onoff 1) >>
  let* w := get_world in
  if match drv c with
     | Some d => negb (o_try_module_get E (drv_owner d) w)
     | None => false
     end
  then
    cdev_upd cdev (set_onoff 0) >>
    ret (- EINVAL)
  else
  let '(force, rc, i) :=
    if strncmp buf force_nl (Z.to_nat count) =? 0 then (1, 0, 1)
    else let '(rc, i) := o_strict_strtoul E buf 16 w in (0, rc, i) in
  let* rc :=
    if negb (rc =? 0) then ret rc
    else if i =? 0 then
      online_store_handle_offline E cdev >> ret (to_int count)
    else if i =? 1 then
      let* rc := online_store_handle_online E cdev force in
      if rc =? 0 then ret (to_int count) else ret rc
    else ret (- EINVAL) in
  let* c := cdev_get cdev in
  match drv c with Some d => module_put (drv_owner d) | None => ret tt end >>
  cdev_upd cdev (set_onoff 0) >>
  ret rc.

(** ** Searching for a replacement device *)

(** Modelled from the spec: [ccw_dev_id_is_equal] of cio.h, exact equality
    of subsystem-id and device-number. *)
Definition ccw_dev_id_is_equal (a b : ccw_dev_id) : bool :=
  (ssid a =? ssid b) && (devno a =? devno b).

Record match_data := mk_match_data {
  md_dev_id : ccw_dev_id;
  sibling : option dev_ptr
}.

Definition match_devno (cdev : dev_ptr) (d : match_data) : M Z :=
  let* c := cdev_get cdev in
  if bool_decide (state c = DEV_STATE_DISCONNECTED) then
    let* orphan := ccw_device_is_orphan cdev in
    if negb orphan &&
       ccw_dev_id_is_equal (dev_id c) (md_dev_id d) &&
       negb (bool_decide (Some cdev = sibling d))
    then ret 1
    else ret 0
  else ret 0.

(** Modelled from the spec: [bus_find_device] and [device_find_child] of
    the driver core return the first device, in list order, that the
    callback accepts, with a reference taken on it. *)
Fixpoint find_device {A} (l : list dev_ptr) (data : A)
    (mtch : dev_ptr -> A -> M Z) : M (option dev_ptr) :=
  match l with
  | [] => ret None
  | d :: l' =>
      let* m := mtch d data in
      if negb (m =? 0) then get_device (cdev_dev d) >> ret (Some d)
      else find_device l' data mtch
  end.

Definition bus_find_device {A} (data : A) (mtch : dev_ptr -> A -> M Z)
    : M (option dev_ptr) :=
  let* w := get_world in find_device (ccw_bus w) data mtch.

Definition device_find_child {A} (parent : sch_ptr) (data : A)
    (mtch : dev_ptr -> A -> M Z) : M (option dev_ptr) :=
  let* s := sch_get parent in find_device (children s) data mtch.

Definition get_disc_ccwdev_by_dev_id (dev_id : ccw_dev_id)
    (sibling : option dev_ptr) : M (option dev_ptr) :=
  bus_find_device (mk_match_data dev_id sibling) match_devno.

Definition match_orphan (cdev : dev_ptr) (dev_id0 : ccw_dev_id) : M Z :=
  let* c := cdev_get cdev in
  ret (if ccw_dev_id_is_equal (dev_id c) dev_id0 then 1 else 0).

Definition get_orphaned_ccwdev_by_dev_id (dev_id : ccw_dev_id)
    : M (option dev_ptr) :=
  let* w := get_world in
  device_find_child (pseudo_subchannel w) dev_id match_orphan.

(** ** Collaborators of the relocation protocol *)

(** Modelled from the spec: [device_move] of the driver core reparents the
    device, or fails and leaves it where it was.  On success the device
    leaves the child list of its former parent and joins the end of the
    list of the new one. *)
Definition device_move (E : collab) (cdev : dev_ptr) (new_parent : sch_ptr)
    : M Z :=
  let* w := get_world in
  let rc := o_device_move E cdev new_parent w in
  log (E_device_move cdev new_parent rc) >>
  if negb (rc =? 0) then ret rc else
  let* c := cdev_get cdev in
  match parent c with
  | Some old =>
      sch_upd old (fun s => set_children (filter (fun x => x ≠ cdev) (children s)) s)
  | None => ret tt
  end >>
  sch_upd new_parent (fun s => set_children (children s ++ [cdev]) s) >>
  cdev_upd cdev (set_parent (Some new_parent)) >>
  ret 0.

(** Modelled from the spec: [css_sch_device_unregister] of css.c removes a
    registered subchannel from external visibility.  The driver core then
    calls the remove function of the subchannel driver,
    [io_subchannel_remove], which returns at once for a subchannel without
    device; what it does to a device that is still bound is not part of
    this definition. *)
Definition css_sch_device_unregister (sch : sch_ptr) : M unit :=
  let* s := sch_get sch in
  (if sch_registered s then sch_upd sch (set_sch_registered false) else ret tt) >>
  log (E_css_sch_device_unregister sch).

(** Modelled from the spec: [sch_set_cdev] of io_sch.h, the binding table
    entry of the subchannel. *)
Definition sch_set_cdev (sch : sch_ptr) (cdev : option dev_ptr) : M unit :=
  sch_upd sch (set_sch_cdev cdev).

Definition sch_get_cdev (sch : sch_ptr) : M (option dev_ptr) :=
  let* s := sch_get sch in ret (sch_cdev s).

Definition css_update_ssd_info (sch : sch_ptr) : M unit :=
  sch_get sch >> log (E_css_update_ssd_info sch).

Definition cio_commit_config (sch : sch_ptr) : M unit :=
  sch_get sch >> log (E_cio_commit_config sch).

Definition cio_disable_subchannel (sch : sch_ptr) : M unit :=
  sch_get sch >> log (E_cio_disable_subchannel sch).

Definition ccw_device_trigger_reprobe (E : collab) (cdev : dev_ptr) : M unit :=
  let* w := get_world in
  cdev_upd cdev (set_state (o_ccw_device_trigger_reprobe E cdev w)) >>
  log (E_ccw_device_trigger_reprobe cdev).

(** [kzalloc]: whether memory is left is the allocator's answer. *)
Definition kzalloc (E : collab) : M bool :=
  let* w := get_world in
  let ok := o_kzalloc E w in
  log (E_kzalloc_cdev ok) >> ret ok.

(** A zeroed [struct ccw_device] with a zeroed private part. *)
Definition zeroed_cdev : ccw_device :=
  mk_cdev false None None 0 None 0 DEV_STATE_NOT_OPER (mk_dev_id 0 0)
    (mk_schid 0 0) 0 false false false None None.

(** ** Device relocation protocol *)

Definition io_subchannel_allocate_dev (E : collab) (sch : sch_ptr)
    : M (Z + dev_ptr) :=
  let* ok := kzalloc E in
  if ok then
    let* ok_private := kzalloc E in
    if ok_private then
      let* w := get_world in
      let cdev := next_dev w in
      modify (fun w => set_next_dev (Pos.succ cdev)
                         (set_devs (<[cdev := zeroed_cdev]> (devs w)) w)) >>
      ret (inr cdev)
    else ret (inl (- ENOMEM))
  else ret (inl (- ENOMEM)).

Definition io_subchannel_initialize_dev (sch : sch_ptr) (cdev : dev_ptr)
    : M Z :=
  cdev_upd cdev (set_onoff 0) >>
  cdev_upd cdev (set_parent (Some sch)) >>
  (* INIT_WORK(&cdev->private->kick_work, NULL) *)
  cdev_upd cdev (set_kick_work None) >>
  (* Do first half of device_register. *)
  cdev_upd cdev (set_kref 1) >>
  let* got := get_device (sch_dev sch) in
  if negb got then
    (* Release reference from device_initialize(). *)
    put_device (cdev_dev cdev) >>
    ret (- ENODEV)
  else ret 0.

(** [kfree]: the object leaves the store. *)
Definition kfree_cdev (cdev : dev_ptr) : M unit :=
  modify (fun w => set_devs (delete cdev (devs w)) w).

(** The release function [io_subchannel_initialize_dev] installs in the
    device ([cdev->dev.release]); the driver core calls it when the last
    reference of the device has been given up. *)
Definition ccw_device_release (cdev : dev_ptr) : M unit :=
  let* c := cdev_get cdev in
  (* Release reference of parent subchannel. *)
  match parent c with
  | Some sch => put_device (sch_dev sch)
  | None => ret tt
  end >>
  kfree_cdev cdev.

(** [put_device(&cdev->dev)] with what the driver core does at the last
    reference: when the count has reached zero the release function of the
    device runs. *)
Definition put_device_release (cdev : dev_ptr) : M unit :=
  put_device (cdev_dev cdev) >>
  let* c := cdev_get cdev in
  if kref c =? 0 then ccw_device_release cdev else ret tt.

Definition io_subchannel_create_ccwdev (E : collab) (sch : sch_ptr)
    : M (Z + dev_ptr) :=
  let* r := io_subchannel_allocate_dev E sch in
  match r with
  | inr cdev =>
      let* rc := io_subchannel_initialize_dev sch cdev in
      if negb (rc =? 0) then kfree_cdev cdev >> ret (inl rc)
      else ret (inr cdev)
  | inl e => ret (inl e)
  end.

(** The device name and the counter of devices in recognition
    ([ccw_device_init_count]) are not part of the store. *)
Definition io_subchannel_recog (E : collab) (cdev : dev_ptr) (sch : sch_ptr)
    : M Z :=
  sch_set_cdev sch (Some cdev) >>
  cdev_upd cdev (set_ccwlock (Some sch)) >>
  (* Init private data. *)
  let* s := sch_get sch in
  cdev_upd cdev (set_dev_id (mk_dev_id (sch_ssid (sch_schid s)) (dev (schib_pmcw s)))) >>
  cdev_upd cdev (set_schid (sch_schid s)) >>
  cdev_upd cdev (set_state DEV_STATE_NOT_OPER) >>
  cdev_upd cdev (set_timer false) >>
  (* Start async. device sensing. *)
  ccw_device_recognition E cdev.

Definition sch_attach_device (E : collab) (sch : sch_ptr) (cdev : dev_ptr)
    : M unit :=
  css_update_ssd_info sch >>
  sch_set_cdev sch (Some cdev) >>
  let* s := sch_get sch in
  cdev_upd cdev (set_schid (sch_schid s)) >>
  cdev_upd cdev (set_ccwlock (Some sch)) >>
  ccw_device_trigger_reprobe E cdev.

Definition sch_attach_disconnected_device (E : collab) (sch : sch_ptr)
    (cdev : dev_ptr) : M unit :=
  (* Get reference for new parent. *)
  let* got := get_device (sch_dev sch) in
  if negb got then ret tt else
  let* c := cdev_get cdev in
  let* other_sch := lift_opt (parent c) in
  (* Note: device_move() changes cdev->dev.parent *)
  let* rc := device_move E cdev sch in
  if negb (rc =? 0) then
    (* Put reference for new parent. *)
    put_device (sch_dev sch)
  else
  sch_set_cdev other_sch None >>
  (* No need to keep a subchannel without ccw device around. *)
  css_sch_device_unregister other_sch >>
  sch_attach_device E sch cdev >>
  (* Put reference for old parent. *)
  put_device (sch_dev other_sch).

Definition sch_attach_orphaned_device (E : collab) (sch : sch_ptr)
    (cdev : dev_ptr) : M unit :=
  (* Get reference for new parent. *)
  let* got := get_device (sch_dev sch) in
  if negb got then ret tt else
  let* c := cdev_get cdev in
  let* pseudo_sch := lift_opt (parent c) in
  let* rc := device_move E cdev sch in
  if negb (rc =? 0) then
    (* Put reference for new parent. *)
    put_device (sch_dev sch)
  else
  sch_attach_device E sch cdev >>
  (* Put reference on pseudo subchannel. *)
  put_device (sch_dev pseudo_sch).

Definition sch_create_and_recog_new_device (E : collab) (sch : sch_ptr)
    : M unit :=
  (* Need to allocate a new ccw device. *)
  let* r := io_subchannel_create_ccwdev E sch in
  match r with
  | inl _ =>
      (* OK, we did everything we could... *)
      css_sch_device_unregister sch
  | inr cdev =>
      sch_set_cdev sch (Some cdev) >>
      (* Start recognition for the new ccw device. *)
      let* rc := io_subchannel_recog E cdev sch in
      if negb (rc =? 0) then
        sch_set_cdev sch None >>
        css_sch_device_unregister sch >>
        (* Put reference from io_subchannel_create_ccwdev(). *)
        put_device (sch_dev sch) >>
        (* Give up initial reference. *)
        put_device_release cdev
      else ret tt
  end.

Definition ccw_device_move_to_orphanage (E : collab) (cdev : dev_ptr)
    : M unit :=
  let* c := cdev_get cdev in
  let* sch := lift_opt (parent c) in
  let* s := sch_get sch in
  let* w := get_world in
  let pseudo := pseudo_subchannel w in
  let dev_id := mk_dev_id (sch_ssid (sch_schid s)) (dev (schib_pmcw s)) in
  (* Increase refcount for pseudo subchannel. *)
  get_device (sch_dev pseudo) >>
  let* rc := device_move E cdev pseudo in
  if negb (rc =? 0) then
    (* Decrease refcount for pseudo subchannel again. *)
    put_device (sch_dev pseudo)
  else
  cdev_upd cdev (set_ccwlock (Some pseudo)) >>
  let* replacing_cdev := get_disc_ccwdev_by_dev_id dev_id (Some cdev) in
  match replacing_cdev with
  | Some replacing_cdev =>
      sch_attach_disconnected_device E sch replacing_cdev >>
      (* Release reference from get_disc_ccwdev_by_dev_id() *)
      put_device (cdev_dev replacing_cdev) >>
      (* Release reference of subchannel from old cdev. *)
      put_device (sch_dev sch)
  | None =>
      let* replacing_cdev := get_orphaned_ccwdev_by_dev_id dev_id in
      match replacing_cdev with
      | Some replacing_cdev =>
          sch_attach_orphaned_device E sch replacing_cdev >>
          (* Release reference from get_orphaned_ccwdev_by_dev_id() *)
          put_device (cdev_dev replacing_cdev) >>
          (* Release reference of subchannel from old cdev. *)
          put_device (sch_dev sch)
      | None =>
          sch_create_and_recog_new_device E sch >>
          (* Release reference of subchannel from old cdev. *)
          put_device (sch_dev sch)
      end
  end.


(** ** Subchannel event evaluator *)

Definition io_subchannel_notify (E : collab) (sch : sch_ptr) (event : cio_event)
    : M Z :=
  let* cdev := sch_get_cdev sch in
  match cdev with
  | None => ret 0
  | Some cdev =>
      let* w := get_world in ret (o_ccw_device_notify E cdev event w)
  end.

(** [stsch] of ioasm.h stores the current subchannel information block,
    or reports a nonzero condition code. *)
Definition stsch (E : collab) (id : subchannel_id) : M (option pmcw) :=
  let* w := get_world in ret (o_stsch E id w).

Definition io_subchannel_get_status (E : collab) (sch : sch_ptr) : M cio_event :=
  let* s := sch_get sch in
  let* schib := stsch E (sch_schid s) in
  match schib with
  | None => ret CIO_GONE
  | Some schib =>
      if negb (dnv schib) then ret CIO_GONE
      else if dnv (schib_pmcw s) && negb (dev schib =? dev (schib_pmcw s))
      then ret CIO_REVALIDATE
      else if lpm s =? 0 then ret CIO_NO_PATH
      else ret CIO_OPER
  end.

Definition device_is_disconnected (cdev : option dev_ptr) : M bool :=
  match cdev with
  | None => ret false
  | Some cdev =>
      let* c := cdev_get cdev in
      ret (bool_decide (state c = DEV_STATE_DISCONNECTED) ||
           bool_decide (state c = DEV_STATE_DISCONNECTED_SENSE_ID))
  end.

Definition device_set_disconnected (E : collab) (cdev : option dev_ptr) : M unit :=
  match cdev with
  | None => ret tt
  | Some cdev =>
      ccw_device_set_timeout_0 cdev >>
      cdev_upd cdev (set_fake_irb false) >>
      cdev_upd cdev (set_state DEV_STATE_DISCONNECTED) >>
      let* c := cdev_get cdev in
      if online c then ccw_device_schedule_recovery E else ret tt
  end.

(** [cdev] is dereferenced: a [NULL] device is undefined behaviour. *)
Definition ccw_device_set_notoper (cdev : option dev_ptr) : M unit :=
  let* cdev := lift_opt cdev in
  let* c := cdev_get cdev in
  let* sch := lift_opt (parent c) in
  ccw_device_set_timeout_0 cdev >>
  cio_disable_subchannel sch >>
  cdev_upd cdev (set_state DEV_STATE_NOT_OPER).

(** The local [enum] of [io_subchannel_sch_event]. *)
Inductive action := NONE | UNREGISTER | UNREGISTER_PROBE | REPROBE | DISC.

#[global] Instance action_eq_dec : EqDecision action.
Proof. solve_decision. Defined.

(** The first [switch] of [io_subchannel_sch_event]: analyze subchannel
    status.  [CIO_NO_PATH] without a disconnected device falls through to
    [CIO_GONE]. *)
Definition sch_event_analyze (E : collab) (sch : sch_ptr) (event : cio_event)
    (disc : bool) : M action :=
  let ask_driver :=
    (* Ask driver what to do with device. *)
    let* keep := io_subchannel_notify E sch event in
    if negb (keep =? 0) then ret DISC else ret UNREGISTER in
  match event with
  | CIO_NO_PATH =>
      if disc then
        (* Check if paths have become available. *)
        ret REPROBE
      else ask_driver
  | CIO_GONE => ask_driver
  | CIO_REVALIDATE =>
      (* Device will be removed, so no notify necessary. *)
      if disc then
        (* Reprobe because immediate unregister might block. *)
        ret REPROBE
      else ret UNREGISTER_PROBE
  | CIO_OPER =>
      if disc then
        (* Get device operational again. *)
        ret REPROBE
      else ret NONE
  end.

(** The second [switch] of [io_subchannel_sch_event]: perform action. *)
Definition sch_event_perform (E : collab) (sch : sch_ptr)
    (cdev : option dev_ptr) (a : action) : M unit :=
  match a with
  | UNREGISTER | UNREGISTER_PROBE =>
      ccw_device_set_notoper cdev >>
      (* Unregister device (will use subchannel lock). *)
      css_sch_device_unregister sch >>
      (* Reset intparm to zeroes. *)
      sch_upd sch (set_intparm 0) >>
      cio_commit_config sch
  | REPROBE =>
      let* cdev := lift_opt cdev in
      ccw_device_trigger_reprobe E cdev
  | DISC => device_set_disconnected E cdev
  | NONE => ret tt
  end.

Definition css_probe_device (E : collab) (id : subchannel_id) : M Z :=
  let* w := get_world in
  log (E_css_probe_device id) >> ret (o_css_probe_device E id w).

Definition io_subchannel_sch_event (E : collab) (sch : sch_ptr) (slow : Z)
    : M Z :=
  let* cdev := sch_get_cdev sch in
  let* disc := device_is_disconnected cdev in
  if disc && negb (slow =? 0) then
    (* Disconnected devices are evaluated directly only. *)
    ret 0
  else
  (* No interrupt after machine check - kill pending timers. *)
  match cdev with
  | Some cdev => ccw_device_set_timeout_0 cdev
  | None => ret tt
  end >>
  if negb disc && (slow =? 0) then
    (* Non-disconnected devices are evaluated on the slow path. *)
    ret (- EAGAIN)
  else
  let* event := io_subchannel_get_status E sch in
  let* a := sch_event_analyze E sch event disc in
  sch_event_perform E sch cdev a >>
  (* Probe if necessary. *)
  if bool_decide (a = UNREGISTER_PROBE) then
    let* s := sch_get sch in
    css_probe_device E (sch_schid s)
  else ret 0.

(** * Predicates of the specification *)

(** ** Recovery scheduler *)

(** A device the periodic check counts as still needing retry. *)
Definition needs_retry (c : ccw_device) : bool :=
  bool_decide (state c = DEV_STATE_DISCONNECTED) ||
  bool_decide (state c = DEV_STATE_DISCONNECTED_SENSE_ID).

(** Some device of the bus still needs retry. *)
Definition some_needs_retry (l : list dev_ptr) (w : world) : Prop :=
  ∃ p c, p ∈ l ∧ devs w !! p = Some c ∧ needs_retry c = true.

(** Every address on the bus list holds a device. *)
Definition bus_valid (l : list dev_ptr) (w : world) : Prop :=
  ∀ p, p ∈ l → is_Some (devs w !! p).

(** The phase the backoff moves to from phase [p]. *)
Definition next_phase (p : Z) : Z := Z.min (p + 1) 2.

(** The recovery state and the clock of two stores agree. *)
Definition same_recovery (w w' : world) : Prop :=
  recovery_timer w' = recovery_timer w ∧
  recovery_phase w' = recovery_phase w ∧
  jiffies w' = jiffies w.

(** The delay, in seconds, of backoff phase [p]. *)
Definition delay_of (p : Z) : Z := nth (Z.to_nat p) recovery_delay 0.

(** Modelled from the spec: a firing of the recovery timer.  The timer that
    fires is no longer pending, and its function runs. *)
Definition recovery_timer_fires (E : collab) : M unit :=
  modify (fun w => set_recovery_timer
                     (mk_timer false (expires (recovery_timer w))) w) >>
  recovery_func E.

(** [n] consecutive firings that each still find a device to retry.  Between
    two firings the rest of the system may move (devices change state, the
    clock advances), but nobody calls [ccw_device_schedule_recovery]: timer
    and phase stay as the last firing left them. *)
Inductive nonresolving_firings (E : collab) : nat → world → world → Prop :=
| firings_none w :
    nonresolving_firings E 0 w w
| firings_between n w0 w w' :
    nonresolving_firings E n w0 w →
    recovery_timer w' = recovery_timer w →
    recovery_phase w' = recovery_phase w →
    nonresolving_firings E n w0 w'
| firings_more n w0 w w' :
    nonresolving_firings E n w0 w →
    bus_valid (ccw_bus w) w →
    some_needs_retry (ccw_bus w) w →
    recovery_timer_fires E w = Some (tt, w') →
    nonresolving_firings E (S n) w0 w'.

(** The timer is armed to expire [delay_of p] seconds after some instant. *)
Definition armed_at (E : collab) (p : Z) (t : timer_list) : Prop :=
  ∃ now, t = mk_timer true (ulong (now + delay_of p * HZ E)).

(** * Sample stores

    A collaborator that accepts every request, and small stores the
    statements below are run on. *)

Definition E0 : collab :=
  mk_collab 100
    (fun _ _ => Some (mk_pmcw 0 true))
    (fun _ _ => 0)
    (fun _ _ _ => 0)
    (fun _ _ => (0, DEV_STATE_ONLINE))
    (fun _ _ => (0, DEV_STATE_OFFLINE))
    (fun _ _ => (0, DEV_STATE_SENSE_ID))
    (fun _ _ => (0, DEV_STATE_OFFLINE))
    (fun _ _ _ => DEV_STATE_DISCONNECTED_SENSE_ID)
    (fun _ _ => DEV_STATE_DISCONNECTED_SENSE_ID)
    (fun _ _ => DEV_STATE_ONLINE)
    (fun _ _ => (DEV_STATE_OFFLINE, 0x3990))
    (fun _ _ _ => 0)
    (fun _ => true)
    (fun _ _ => true)
    (fun _ _ _ => (0, 1)).

(** A driver with both callbacks, which accept. *)
Definition drv0 : ccw_driver :=
  mk_drv (Some (fun _ => 0)) (Some (fun _ => 0)) 1%positive.

(** A device in state [st] below subchannel [sch], with identity
    [0.0.devno], one reference, and [tm] telling whether its timeout is
    pending. *)
Definition sample_cdev (st : dev_state) (sch : sch_ptr) (devno : Z) (tm : bool)
    : ccw_device :=
  mk_cdev false (Some drv0) (Some sch) 1 (Some sch) 0x3990 st (mk_dev_id 0 devno)
    (mk_schid 0 (Z.pos sch)) 0 false true tm None None.

(** A registered subchannel reporting device number [devno], with one
    usable path, bound to [cdev]. *)
Definition sample_sch (no : Z) (devno : Z) (cdev : option dev_ptr)
    (kids : list dev_ptr) : subchannel :=
  mk_sch (mk_schid 0 no) (mk_pmcw devno true) 0x80 cdev 2 true 0 kids.

(** One disconnected device 1 on subchannel 10; 99 is the orphanage. *)
Definition w_disc : world :=
  mk_world
    {[ 1%positive := sample_cdev DEV_STATE_DISCONNECTED 10%positive 0x1234 true ]}
    {[ 10%positive := sample_sch 10 0x1234 (Some 1%positive) [1%positive];
       99%positive := sample_sch 99 0 None [] ]}
    [1%positive] 99%positive (mk_timer false 0) 0 1000 2%positive [].

(** The store a computation leaves behind when run in [w]. *)
Definition store_after {A} (m : M A) (w : world) : world :=
  match m w with Some (_, w') => w' | None => w end.

(** [w_disc] after the recovery timer has fired once, and twice. *)
Definition w_disc1 : world := store_after (recovery_timer_fires E0) w_disc.
Definition w_disc2 : world := store_after (recovery_timer_fires E0) w_disc1.

(** A collaborator like [E0] whose offline request finds the device gone. *)
Definition E_gone : collab :=
  mk_collab (HZ E0) (o_stsch E0) (o_css_probe_device E0) (o_ccw_device_notify E0)
    (o_ccw_device_online E0)
    (fun _ _ => (- ENODEV, DEV_STATE_NOT_OPER))
    (o_ccw_device_recognition E0) (o_ccw_device_stlck E0) (o_dev_fsm_event E0)
    (o_ccw_device_trigger_reprobe E0) (o_final_state E0) (o_recog_done E0)
    (o_device_move E0) (o_kzalloc E0) (o_try_module_get E0)
    (o_strict_strtoul E0).

(** A driver whose [set_online] rejects with [-EIO]. *)
Definition drv_rej : ccw_driver :=
  mk_drv (Some (fun _ => -5)) (Some (fun _ => 0)) 1%positive.

(** Device 1 on subchannel 10: online with two references, and offline
    with a driver that rejects. *)
Definition w_on : world :=
  mk_world
    {[ 1%positive := set_kref 2 (set_online true
                       (sample_cdev DEV_STATE_ONLINE 10%positive 0x1234 false)) ]}
    {[ 10%positive := sample_sch 10 0x1234 (Some 1%positive) [1%positive];
       99%positive := sample_sch 99 0 None [] ]}
    [1%positive] 99%positive (mk_timer false 0) 0 1000 2%positive [].

Definition w_off_rej : world :=
  mk_world
    {[ 1%positive :=
         mk_cdev false (Some drv_rej) (Some 10%positive) 1 (Some 10%positive)
           0x3990 DEV_STATE_OFFLINE (mk_dev_id 0 0x1234) (mk_schid 0 10) 0
           false true false None None ]}
    {[ 10%positive := sample_sch 10 0x1234 (Some 1%positive) [1%positive];
       99%positive := sample_sch 99 0 None [] ]}
    [1%positive] 99%positive (mk_timer false 0) 0 1000 2%positive [].

(** Device 1 of [w_on] while an online/offline request is in flight. *)
Definition w_busy : world :=
  set_devs (<[1%positive := set_onoff 1
                (sample_cdev DEV_STATE_OFFLINE 10%positive 0x1234 false)]>
              (devs w_on)) w_on.

(** ** Replacement search *)

(** What [match_devno] asks of device [p], whose fields are [c], when it
    looks for identity [id] on behalf of [sibling]. *)
Definition disc_candidate (w : world) (id : ccw_dev_id) (sibling : option dev_ptr)
    (p : dev_ptr) (c : ccw_device) : Prop :=
  state c = DEV_STATE_DISCONNECTED ∧
  parent c ≠ Some (pseudo_subchannel w) ∧
  (ssid (dev_id c) = ssid id ∧ devno (dev_id c) = devno id) ∧
  Some p ≠ sibling.

(** Every address on the list holds a device that has a parent. *)
Definition devs_wf (l : list dev_ptr) (w : world) : Prop :=
  ∀ p, p ∈ l → ∃ c, devs w !! p = Some c ∧ is_Some (parent c).

(** [r] is the first device of [l] that satisfies [P]. *)
Definition first_with (P : dev_ptr → Prop) (l : list dev_ptr) (r : dev_ptr) : Prop :=
  ∃ l1 l2, l = l1 ++ r :: l2 ∧ P r ∧ ∀ q, q ∈ l1 → ¬ P q.

(** The candidate test at a device of the store. *)
Definition disc_candidate_at (w : world) (id : ccw_dev_id)
    (sibling : option dev_ptr) (p : dev_ptr) : Prop :=
  ∃ c, devs w !! p = Some c ∧ disc_candidate w id sibling p c.

(** ** Online and offline *)

(** The store [w] with device [p] replaced by [c]. *)
Definition with_dev (w : world) (p : dev_ptr) (c : ccw_device) : world :=
  set_devs (<[p := c]> (devs w)) w.

(** ** Subchannel event evaluator *)

(** The action table of the specification: hardware status, whether the
    bound device is disconnected, and whether the driver wants to keep the
    device. *)
Definition spec_action (status : cio_event) (disconnected keep : bool) : action :=
  match status, disconnected with
  | CIO_NO_PATH, true => REPROBE
  | CIO_NO_PATH, false => if keep then DISC else UNREGISTER
  | CIO_GONE, _ => if keep then DISC else UNREGISTER
  | CIO_REVALIDATE, true => REPROBE
  | CIO_REVALIDATE, false => UNREGISTER_PROBE
  | CIO_OPER, true => REPROBE
  | CIO_OPER, false => NONE
  end.

(** The device bound to a subchannel, if any, is in the store. *)
Definition bound_valid (w : world) (s : subchannel) : Prop :=
  ∀ p, sch_cdev s = Some p → is_Some (devs w !! p).

(** The bound device is in a [DISCONNECTED*] state. *)
Definition is_disconnected (w : world) (cdev : option dev_ptr) : bool :=
  match cdev with
  | Some p =>
      match devs w !! p with Some c => needs_retry c | None => false end
  | None => false
  end.

(** The store with the pending timeout of the bound device cancelled. *)
Definition timers_killed (w : world) (cdev : option dev_ptr) : world :=
  match cdev with
  | Some p =>
      match devs w !! p with
      | Some c => set_devs (<[p := set_timer false c]> (devs w)) w
      | None => w
      end
  | None => w
  end.

(** ** Relocation *)

(** A collaborator like [E0] under which no device can be moved below
    subchannel 10. *)
Definition E_nomove : collab :=
  mk_collab (HZ E0) (o_stsch E0) (o_css_probe_device E0) (o_ccw_device_notify E0)
    (o_ccw_device_online E0) (o_ccw_device_offline E0)
    (o_ccw_device_recognition E0) (o_ccw_device_stlck E0) (o_dev_fsm_event E0)
    (o_ccw_device_trigger_reprobe E0) (o_final_state E0) (o_recog_done E0)
    (fun _ new_parent _ => if bool_decide (new_parent = 10%positive) then - ENOMEM else 0)
    (o_kzalloc E0) (o_try_module_get E0) (o_strict_strtoul E0).

(** Subchannel 10 now reports device number 0x5678, while its device 1
    still has identity 0x1234 and is about to leave for the orphanage 99.
    Device 2, disconnected on subchannel 20, has identity 0x5678; so has
    device 3, which waits in the orphanage. *)
Definition w_reloc : world :=
  mk_world
    {[ 1%positive := sample_cdev DEV_STATE_DISCONNECTED 10%positive 0x1234 false;
       2%positive := sample_cdev DEV_STATE_DISCONNECTED 20%positive 0x5678 false;
       3%positive := sample_cdev DEV_STATE_OFFLINE 99%positive 0x5678 false ]}
    {[ 10%positive := sample_sch 10 0x5678 (Some 1%positive) [1%positive];
       20%positive := sample_sch 20 0x5678 (Some 2%positive) [2%positive];
       99%positive := sample_sch 99 0 None [3%positive] ]}
    [1%positive; 2%positive; 3%positive] 99%positive (mk_timer false 0) 0 1000
    4%positive [].

(** A collaborator like [E0] under which recognition cannot be started:
    the subchannel cannot be enabled. *)
Definition E_norecog : collab :=
  mk_collab (HZ E0) (o_stsch E0) (o_css_probe_device E0) (o_ccw_device_notify E0)
    (o_ccw_device_online E0) (o_ccw_device_offline E0)
    (fun _ _ => (- ENODEV, DEV_STATE_NOT_OPER))
    (o_ccw_device_stlck E0) (o_dev_fsm_event E0)
    (o_ccw_device_trigger_reprobe E0) (o_final_state E0) (o_recog_done E0)
    (o_device_move E0) (o_kzalloc E0) (o_try_module_get E0) (o_strict_strtoul E0).

(** [w_reloc] without the devices 2 and 3: subchannel 10 now reports device
    number 0x5678, its device 1 still has identity 0x1234, and no other
    device is known. *)
Definition w_renumbered : world :=
  mk_world
    {[ 1%positive := sample_cdev DEV_STATE_DISCONNECTED 10%positive 0x1234 false ]}
    {[ 10%positive := sample_sch 10 0x5678 (Some 1%positive) [1%positive];
       99%positive := sample_sch 99 0 None [] ]}
    [1%positive] 99%positive (mk_timer false 0) 0 1000 2%positive [].

(** What a subchannel of the store tells. *)
Definition sch_field {A} (f : subchannel → A) (w : world) (sch : sch_ptr)
    : option A :=
  f <$> schs w !! sch.

(** What a device of the store tells. *)
Definition cdev_field {A} (f : ccw_device → A) (w : world) (cdev : dev_ptr)
    : option A :=
  f <$> devs w !! cdev.

(** What [match_orphan] asks of a child of the orphanage. *)
Definition orphan_candidate_at (w : world) (id : ccw_dev_id) (p : dev_ptr) : Prop :=
  ∃ c, devs w !! p = Some c ∧
       ssid (dev_id c) = ssid id ∧ devno (dev_id c) = devno id.


(** * More of the driver

    The functions of device.c around the ones above: the purge of
    blacklisted devices, driver bind and unbind, the end of recognition,
    the console device, and the attribute methods. *)

(** linux/errno.h *)
Definition EINTR : Z := 4.

Definition set_drv (v : option ccw_driver) (c : ccw_device) : ccw_device :=
  mk_cdev (online c) v (parent c) (kref c) (ccwlock c) (cu_type c) (state c)
    (dev_id c) (schid c) (onoff c) (fake_irb c) (recog_done c) (timer c)
    (kick_work c) (priv_sch c).

(** ** Purging blacklisted devices *)

(** What the purge asks of its surroundings: the blacklist (blacklist.h)
    and whether the calling task has a signal pending. *)
Record purge_env := mk_purge_env {
  o_is_blacklisted : Z -> Z -> bool;
  o_signal_pending : world -> bool
}.

Definition purge_fn (B : purge_env) (cdev : dev_ptr) (data : unit)
    : M (Z * unit) :=
  let* c := cdev_get cdev in
  let unreg :=
    o_is_blacklisted B (ssid (dev_id c)) (devno (dev_id c)) &&
    bool_decide (state c = DEV_STATE_OFFLINE) in
  (if unreg then
     let* got := get_device (cdev_dev cdev) in
     if negb got then ret tt else
     PREPARE_WORK cdev W_ccw_device_call_sch_unregister >>
     queue_work cdev
   else ret tt) >>
  (* Abort loop in case of pending signal. *)
  let* w := get_world in
  if o_signal_pending B w then ret (- EINTR, tt) else ret (0, tt).

Definition ccw_purge_blacklisted (B : purge_env) : M Z :=
  let* w := get_world in
  bus_for_each_dev (ccw_bus w) tt (purge_fn B) >>
  ret 0.

(** * More predicates *)

(** The purge takes a device that is blacklisted and offline. *)
Definition purge_match (B : purge_env) (c : ccw_device) : bool :=
  o_is_blacklisted B (ssid (dev_id c)) (devno (dev_id c)) &&
  bool_decide (state c = DEV_STATE_OFFLINE).

(** A device the purge has taken: one more reference, and the work that
    unregisters its subchannel prepared. *)
Definition purged (c : ccw_device) : ccw_device :=
  set_kick_work (Some W_ccw_device_call_sch_unregister) (set_kref (kref c + 1) c).

(** The work the purge queues for the devices of [l], in list order. *)
Definition purge_events (B : purge_env) (w : world) (l : list dev_ptr)
    : list event :=
  omap (fun p => match devs w !! p with
                 | Some c =>
                     if purge_match B c
                     then Some (E_queue_work p W_ccw_device_call_sch_unregister)
                     else None
                 | None => None
                 end) l.

(** A blacklist that holds device number [0x5678] of subsystem 0, and a
    caller without pending signal, or with one. *)
Definition B_black : purge_env :=
  mk_purge_env (fun ssid devno => (ssid =? 0) && (devno =? 0x5678)) (fun _ => false).

Definition B_black_sig : purge_env :=
  mk_purge_env (o_is_blacklisted B_black) (fun _ => true).

(** ** The online attribute *)

(** The store in which [online_store] asks for the module and parses its
    input: the request flag of the device is taken. *)
Definition onoff_taken (w : world) (cdev : dev_ptr) (c : ccw_device) : world :=
  set_devs (<[cdev := set_onoff 1 c]> (devs w)) w.

(** The store with the request flag of the device given back. *)
Definition onoff_released (w : world) (cdev : dev_ptr) (c : ccw_device) : world :=
  set_devs (<[cdev := set_onoff 0 c]> (devs w)) w.

(** The driver module of the device, if it has one, can be pinned. *)
Definition module_available (E : collab) (c : ccw_device) (w : world) : Prop :=
  ∀ d, drv c = Some d → o_try_module_get E (drv_owner d) w = true.

(** A collaborator like [E0] whose number parser answers [(rc, i)]. *)
Definition E_parse (rc i : Z) : collab :=
  mk_collab (HZ E0) (o_stsch E0) (o_css_probe_device E0) (o_ccw_device_notify E0)
    (o_ccw_device_online E0) (o_ccw_device_offline E0)
    (o_ccw_device_recognition E0) (o_ccw_device_stlck E0) (o_dev_fsm_event E0)
    (o_ccw_device_trigger_reprobe E0) (o_final_state E0) (o_recog_done E0)
    (o_device_move E0) (o_kzalloc E0) (o_try_module_get E0)
    (fun _ _ _ => (rc, i)).

(** A driver that refuses to go offline with [-EBUSY], and device 1 of
    [w_on] bound to it. *)
Definition drv_stay : ccw_driver :=
  mk_drv (Some (fun _ => 0)) (Some (fun _ => -16)) 1%positive.

Definition w_stay : world :=
  set_devs (<[1%positive := set_drv (Some drv_stay)
                (set_kref 2 (set_online true
                   (sample_cdev DEV_STATE_ONLINE 10%positive 0x1234 false)))]>
              (devs w_on)) w_on.

(** The work [ccw_device_remove_disconnected] queues for a device below
    [sch], and the device as it leaves it: one more reference, the work
    prepared, and an orphan marked not operational. *)
Definition removal_work (w : world) (sch : sch_ptr) : work_func :=
  if bool_decide (sch = pseudo_subchannel w)
  then W_ccw_device_remove_orphan_cb
  else W_ccw_device_call_sch_unregister.

Definition thrown_away (w : world) (sch : sch_ptr) (c : ccw_device) : ccw_device :=
  set_kick_work (Some (removal_work w sch))
    ((if bool_decide (sch = pseudo_subchannel w)
      then set_state DEV_STATE_NOT_OPER else id)
       (set_kref (kref c + 1) c)).

(** Device 1 of [w_disc], online when it lost its subchannel. *)
Definition w_disc_on : world :=
  set_devs (<[1%positive := set_kref 2 (set_online true
                (sample_cdev DEV_STATE_DISCONNECTED 10%positive 0x1234 true))]>
              (devs w_disc)) w_disc.

(** ** What a request on one device leaves alone *)

(** The binding of a device: its driver, its place in the device tree and
    its identity. *)
Definition binding_kept (c c' : ccw_device) : Prop :=
  drv c' = drv c ∧ parent c' = parent c ∧ ccwlock c' = ccwlock c ∧
  dev_id c' = dev_id c ∧ schid c' = schid c ∧ priv_sch c' = priv_sch c.

(** Store [w] differs from [w0] at most in device [p], which is still
    there and bound as [c0] was, and in the trace. *)
Definition only_dev (p : dev_ptr) (c0 : ccw_device) (w0 w : world) : Prop :=
  schs w = schs w0 ∧
  ccw_bus w = ccw_bus w0 ∧
  pseudo_subchannel w = pseudo_subchannel w0 ∧
  same_recovery w0 w ∧
  next_dev w = next_dev w0 ∧
  (∀ q, q ≠ p → devs w !! q = devs w0 !! q) ∧
  ∃ c, devs w !! p = Some c ∧ binding_kept c0 c.

(** From every store in [J] the computation returns, in a store in [J]. *)
Definition inv_step {A} (J : world → Prop) (m : M A) : Prop :=
  ∀ w, J w → ∃ a w', m w = Some (a, w') ∧ J w'.

(** ** Driver binding *)

(** [ccw_device_probe] and [ccw_device_remove], the bus methods the driver
    core calls when it binds a driver to a device and when it unbinds it.
    [cdrv] is the driver being bound; [probe] and [remove] are its callbacks
    of these names.  Both act on the store: [probe] runs with the driver
    already entered in the device, so that it can call
    [ccw_device_set_online], and answers with a code; [remove] returns
    nothing. *)
Definition ccw_device_probe (cdrv : ccw_driver)
    (probe : option (dev_ptr -> M Z)) (cdev : dev_ptr) : M Z :=
  (* to let the driver call _set_online *)
  cdev_upd cdev (set_drv (Some cdrv)) >>
  let* ret0 := match probe with Some f => f cdev | None => ret (- ENODEV) end in
  if negb (ret0 =? 0) then
    cdev_upd cdev (set_drv None) >>
    ret ret0
  else ret 0.

(** [cdev->drv] is dereferenced: a device without driver is undefined
    behaviour. *)
Definition ccw_device_remove (E : collab) (remove : option (dev_ptr -> M unit))
    (cdev : dev_ptr) : M Z :=
  let* c := cdev_get cdev in
  let* cdrv := lift_opt (drv c) in
  match remove with Some f => f cdev | None => ret tt end >>
  let* c := cdev_get cdev in
  (if online c then
     cdev_upd cdev (set_online false) >>
     let* rc := ccw_device_offline E cdev in
     (if rc =? 0 then wait_event_final_state E cdev
      else
        (* FIXME: we can't fail! *)
        ret tt) >>
     (* Give up reference obtained in ccw_device_set_online(). *)
     put_device (cdev_dev cdev)
   else ret tt) >>
  ccw_device_set_timeout_0 cdev >>
  cdev_upd cdev (set_drv None) >>
  ret 0.

(** A collaborator like [E0] whose offline request fails with [-EBUSY]
    and leaves the device online. *)
Definition E_busy : collab :=
  mk_collab (HZ E0) (o_stsch E0) (o_css_probe_device E0) (o_ccw_device_notify E0)
    (o_ccw_device_online E0)
    (fun _ _ => (-16, DEV_STATE_ONLINE))
    (o_ccw_device_recognition E0) (o_ccw_device_stlck E0) (o_dev_fsm_event E0)
    (o_ccw_device_trigger_reprobe E0) (o_final_state E0) (o_recog_done E0)
    (o_device_move E0) (o_kzalloc E0) (o_try_module_get E0)
    (o_strict_strtoul E0).

(** Device 1 of [w_on], offline and without driver. *)
Definition c_unbound : ccw_device :=
  set_drv None (sample_cdev DEV_STATE_OFFLINE 10%positive 0x1234 false).

Definition w_unbound : world :=
  set_devs (<[1%positive := c_unbound]> (devs w_on)) w_on.

(** A collaborator like [E0] whose [device_move] cannot move anything to
    the orphanage 99. *)
Definition E_noorphan : collab :=
  mk_collab (HZ E0) (o_stsch E0) (o_css_probe_device E0) (o_ccw_device_notify E0)
    (o_ccw_device_online E0) (o_ccw_device_offline E0)
    (o_ccw_device_recognition E0) (o_ccw_device_stlck E0) (o_dev_fsm_event E0)
    (o_ccw_device_trigger_reprobe E0) (o_final_state E0) (o_recog_done E0)
    (fun _ new_parent _ => if bool_decide (new_parent = 99%positive) then - ENOMEM else 0)
    (o_kzalloc E0) (o_try_module_get E0) (o_strict_strtoul E0).



(** ** What the subchannel event evaluator leaves behind *)

(** The store after the pending timeout of device [p] was cancelled. *)
Definition timer_killed (w : world) (p : dev_ptr) (c : ccw_device) : world :=
  set_devs (<[p := set_timer false c]> (devs w)) w.

(** The store after device [p] was set not operational: its timeout is
    cancelled and its subchannel [sch] disabled. *)
Definition not_operational (w : world) (sch : sch_ptr) (p : dev_ptr)
    (c : ccw_device) : world :=
  set_trace (trace w ++ [E_cio_disable_subchannel sch])
    (set_devs (<[p := set_state DEV_STATE_NOT_OPER (set_timer false c)]>
                 (devs w)) w).

(** The store after a reprobe of device [p] was triggered. *)
Definition reprobed (E : collab) (w : world) (p : dev_ptr) (c : ccw_device)
    : world :=
  set_trace (trace w ++ [E_ccw_device_trigger_reprobe p])
    (set_devs (<[p := set_state (o_ccw_device_trigger_reprobe E p
                                   (timer_killed w p c))
                         (set_timer false c)]> (devs w)) w).

(** The store after device [p] was set disconnected, before recovery is
    scheduled. *)
Definition disconnected (w : world) (p : dev_ptr) (c : ccw_device) : world :=
  set_devs (<[p := set_state DEV_STATE_DISCONNECTED
                     (set_fake_irb false (set_timer false c))]> (devs w)) w.

(** A collaborator like [E0] that finds every subchannel gone, with a
    driver that wants to keep its device. *)
Definition E_lost : collab :=
  mk_collab (HZ E0) (fun _ _ => None) (o_css_probe_device E0)
    (fun _ _ _ => 1)
    (o_ccw_device_online E0) (o_ccw_device_offline E0)
    (o_ccw_device_recognition E0) (o_ccw_device_stlck E0) (o_dev_fsm_event E0)
    (o_ccw_device_trigger_reprobe E0) (o_final_state E0) (o_recog_done E0)
    (o_device_move E0) (o_kzalloc E0) (o_try_module_get E0)
    (o_strict_strtoul E0).

(** [w_on] with the binding of subchannel 10 cleared. *)
Definition w_unbound_sch : world :=
  set_schs (<[10%positive := sample_sch 10 0x1234 None [1%positive]]> (schs w_on))
    w_on.

(** ** End of recognition *)

(** [css_init_done] is the flag of css.c that tells whether the channel
    subsystem has finished its start-up.  The counter of devices in
    recognition ([ccw_device_init_count]) is not part of the store. *)
Definition io_subchannel_recog_done (css_init_done : Z) (cdev : dev_ptr)
    : M unit :=
  if css_init_done =? 0 then
    cdev_upd cdev (set_recog_done true)
  else
  let* c := cdev_get cdev in
  match state c with
  | DEV_STATE_NOT_OPER =>
      cdev_upd cdev (set_recog_done true) >>
      (* Remove device found not operational. *)
      let* got := get_device (cdev_dev cdev) in
      if negb got then ret tt else
      PREPARE_WORK cdev W_ccw_device_call_sch_unregister >>
      queue_work cdev
  | DEV_STATE_BOXED
      (* Device did not respond in time. *)
  | DEV_STATE_OFFLINE =>
      (* We can't register the device in interrupt context so
         we schedule a work item. *)
      let* got := get_device (cdev_dev cdev) in
      if negb got then ret tt else
      PREPARE_WORK cdev W_io_subchannel_register >>
      queue_work cdev
  | _ => ret tt
  end.

(** The work the end of recognition queues for a device in state [st]. *)
Definition recog_work (st : dev_state) : option work_func :=
  match st with
  | DEV_STATE_NOT_OPER => Some W_ccw_device_call_sch_unregister
  | DEV_STATE_BOXED | DEV_STATE_OFFLINE => Some W_io_subchannel_register
  | _ => None
  end.

(** Device 1 of [w_on], found not operational by recognition. *)
Definition w_notoper : world :=
  set_devs (<[1%positive := set_recog_done false
                (sample_cdev DEV_STATE_NOT_OPER 10%positive 0x1234 false)]>
              (devs w_on)) w_on.

(** ** Subchannel configuration *)

(** The fields of [struct schib_config] that [io_subchannel_init_config]
    sets. *)
Record schib_config := mk_config {
  cfg_csense : Z;
  cfg_mp : Z;
  cfg_intparm : Z
}.

(** [pim] is [sch->schib.pmcw.pim], the eight-bit mask of installed
    paths. *)
Definition io_subchannel_init_config (pim : Z) : schib_config :=
  (* memset(&sch->config, 0, sizeof(sch->config)) *)
  let config := mk_config 0 0 0 in
  let config := mk_config 1 (cfg_mp config) (cfg_intparm config) in
  (* Use subchannel mp mode when there is more than 1 installed CHPID. *)
  if negb (Z.land pim (pim - 1) =? 0)
  then mk_config (cfg_csense config) 1 (cfg_intparm config)
  else config.

(** The number of paths a mask installs. *)
Definition installed_paths (pim : Z) : nat :=
  length (List.filter (Z.testbit pim) (seqZ 0 8)).

(** ** The console device *)










(** ** Attribute output *)

Definition chars (s : string) : list Ascii.ascii := String.list_ascii_of_string s.

(** The characters ['0'] and ['\n']. *)
Definition char_0 : Ascii.ascii := Ascii.ascii_of_nat 48.
Definition newline : list Ascii.ascii := [Ascii.ascii_of_nat 10].

Definition hex_digit (upper : bool) (d : Z) : Ascii.ascii :=
  Ascii.ascii_of_nat
    (Z.to_nat (if d <? 10 then 48 + d else (if upper then 55 else 87) + d)).

Fixpoint hex_digits (upper : bool) (fuel : nat) (v : Z) (acc : list Ascii.ascii)
    : list Ascii.ascii :=
  match fuel with
  | O => acc
  | S fuel' =>
      let acc' := hex_digit upper (v mod 16) :: acc in
      if v / 16 =? 0 then acc' else hex_digits upper fuel' (v / 16) acc'
  end.

(** Modelled from the spec: the [printf] conversions [%0<width>X]
    ([upper]) and [%0<width>x] of lib/vsprintf.c print an unsigned value
    with at least [width] hexadecimal digits, padded with zeros. *)
Definition fmt_hex (upper : bool) (width : nat) (v : Z) : list Ascii.ascii :=
  let s := hex_digits upper 16 v [] in
  replicate (width - length s)%nat char_0 ++ s.

(** Modelled from the spec: [snprintf] of lib/vsprintf.c writes at most
    [size - 1] characters and the terminating NUL, nothing for size 0, and
    returns the length of the whole output.  The first component is what
    the buffer holds in front of the NUL. *)
Definition snprintf (size : Z) (s : list Ascii.ascii) : list Ascii.ascii * Z :=
  (take (Z.to_nat (size - 1)) s, Z.of_nat (length s)).

(** [struct ccw_device_id] of ccwdev.h: [cu_type] and [dev_type] are
    [__u16], [cu_model] and [dev_model] are [__u8]. *)
Record ccw_device_id := mk_ccw_id {
  id_cu_type : Z;
  id_cu_model : Z;
  id_dev_type : Z;
  id_dev_model : Z
}.

Definition snprint_alias (size : Z) (id : ccw_device_id) (suffix : list Ascii.ascii)
    : list Ascii.ascii * Z :=
  let '(buf, len) :=
    snprintf size (chars "ccw:t" ++ fmt_hex true 4 (id_cu_type id) ++
                   chars "m" ++ fmt_hex true 2 (id_cu_model id)) in
  if len >? size then (buf, len) else
  (* buf += len; size -= len; *)
  let size := size - len in
  let '(buf', len') :=
    if negb (id_dev_type id =? 0) then
      snprintf size (chars "dt" ++ fmt_hex true 4 (id_dev_type id) ++
                     chars "dm" ++ fmt_hex true 2 (id_dev_model id) ++ suffix)
    else
      snprintf size (chars "dtdm" ++ suffix) in
  (buf ++ buf', len + len').

Definition PAGE_SIZE : Z := 4096.

Definition modalias_show (id : ccw_device_id) : list Ascii.ascii * Z :=
  let '(buf, len) := snprint_alias PAGE_SIZE id newline in
  (buf, if len >? PAGE_SIZE then PAGE_SIZE else len).

(** Modelled from the spec: [add_uevent_var] of lib/kobject_uevent.c
    appends a variable to the environment, or fails with a nonzero code when
    the environment is full.  Whether it is full is [full]'s answer. *)
Definition add_uevent_var (full : list (list Ascii.ascii) -> list Ascii.ascii -> Z)
    (env : list (list Ascii.ascii)) (var : list Ascii.ascii) : Z * list (list Ascii.ascii) :=
  let rc := full env var in
  if rc =? 0 then (0, env ++ [var]) else (rc, env).

Definition ccw_uevent (full : list (list Ascii.ascii) -> list Ascii.ascii -> Z)
    (id : ccw_device_id) (env : list (list Ascii.ascii)) : Z * list (list Ascii.ascii) :=
  (* CU_TYPE= *)
  let '(ret, env) :=
    add_uevent_var full env (chars "CU_TYPE=" ++ fmt_hex true 4 (id_cu_type id)) in
  if negb (ret =? 0) then (ret, env) else
  (* CU_MODEL= *)
  let '(ret, env) :=
    add_uevent_var full env (chars "CU_MODEL=" ++ fmt_hex true 2 (id_cu_model id)) in
  if negb (ret =? 0) then (ret, env) else
  (* The next two can be zero, that's ok for us *)
  (* DEV_TYPE= *)
  let '(ret, env) :=
    add_uevent_var full env (chars "DEV_TYPE=" ++ fmt_hex true 4 (id_dev_type id)) in
  if negb (ret =? 0) then (ret, env) else
  (* DEV_MODEL= *)
  let '(ret, env) :=
    add_uevent_var full env (chars "DEV_MODEL=" ++ fmt_hex true 2 (id_dev_model id)) in
  if negb (ret =? 0) then (ret, env) else
  (* MODALIAS= *)
  let '(modalias_buf, _) := snprint_alias 30 id [] in
  add_uevent_var full env (chars "MODALIAS=" ++ modalias_buf).

(** The fields of [struct chsc_ssd_info] that [chpids_show] reads:
    [chpid] holds the [id] of each of the eight [chpid[]] entries. *)
Record chsc_ssd_info := mk_ssd {
  path_mask : Z;
  chpid : list Z
}.

(** The body of the loop of [chpids_show] for the indices of [chps]:
    [sprintf] appends to the buffer and its length adds to [ret]. *)
Fixpoint chpids_loop (ssd : chsc_ssd_info) (chps : list Z)
    (buf : list Ascii.ascii) (ret0 : Z) : option (list Ascii.ascii * Z) :=
  match chps with
  | [] => Some (buf, ret0)
  | chp :: chps' =>
      let mask := Z.shiftr 0x80 chp in
      if negb (Z.land (path_mask ssd) mask =? 0) then
        id ← chpid ssd !! Z.to_nat chp;
        let out := fmt_hex false 2 id ++ chars " " in
        chpids_loop ssd chps' (buf ++ out) (ret0 + Z.of_nat (length out))
      else
        let out := chars "00 " in
        chpids_loop ssd chps' (buf ++ out) (ret0 + Z.of_nat (length out))
  end.

Definition chpids_show (ssd : chsc_ssd_info) : option (list Ascii.ascii * Z) :=
  '(buf, ret0) ← chpids_loop ssd (seqZ 0 8) [] 0;
  let out := newline in
  let ret0 := ret0 + Z.of_nat (length out) in
  Some (buf ++ out, Z.min PAGE_SIZE ret0).

(** The alias of a device identity: the whole string [snprint_alias]
    prints, and its first part. *)
Definition alias_prefix (id : ccw_device_id) : list Ascii.ascii :=
  chars "ccw:t" ++ fmt_hex true 4 (id_cu_type id) ++
  chars "m" ++ fmt_hex true 2 (id_cu_model id).

Definition alias (id : ccw_device_id) (suffix : list Ascii.ascii) : list Ascii.ascii :=
  alias_prefix id ++
  (if id_dev_type id =? 0 then chars "dtdm"
   else chars "dt" ++ fmt_hex true 4 (id_dev_type id) ++
        chars "dm" ++ fmt_hex true 2 (id_dev_model id)) ++ suffix.

(** The field ranges of [struct ccw_device_id]. *)
Definition ccw_id_valid (id : ccw_device_id) : Prop :=
  0 ≤ id_cu_type id < 65536 ∧ 0 ≤ id_cu_model id < 256 ∧
  0 ≤ id_dev_type id < 65536 ∧ 0 ≤ id_dev_model id < 256.

(** What [chpids_show] prints for entry [chp]. *)
Definition chpid_column (ssd : chsc_ssd_info) (chp : Z) : list Ascii.ascii :=
  if Z.testbit (path_mask ssd) (7 - chp)
  then fmt_hex false 2 (default 0 (chpid ssd !! Z.to_nat chp)) ++ chars " "
  else chars "00 ".

(** The variables [ccw_uevent] sets, in its order. *)
Definition uevent_vars (id : ccw_device_id) : list (list Ascii.ascii) :=
  [chars "CU_TYPE=" ++ fmt_hex true 4 (id_cu_type id);
   chars "CU_MODEL=" ++ fmt_hex true 2 (id_cu_model id);
   chars "DEV_TYPE=" ++ fmt_hex true 4 (id_dev_type id);
   chars "DEV_MODEL=" ++ fmt_hex true 2 (id_dev_model id);
   chars "MODALIAS=" ++ alias id []].

(** Adding variables one after the other, up to the first the environment
    refuses. *)
Fixpoint add_uevent_vars (full : list (list Ascii.ascii) -> list Ascii.ascii -> Z)
    (env : list (list Ascii.ascii)) (vars : list (list Ascii.ascii))
    : Z * list (list Ascii.ascii) :=
  match vars with
  | [] => (0, env)
  | var :: vars' =>
      let '(ret, env') := add_uevent_var full env var in
      if negb (ret =? 0) then (ret, env') else add_uevent_vars full env' vars'
  end.

(** A subchannel description with paths 0 and 2 installed. *)
Definition ssd0 : chsc_ssd_info :=
  mk_ssd 0xA0 [0x1A; 0; 0x2B; 0; 0; 0; 0; 0].

(** ** The recovery scan *)

(** The devices of [l] the recovery scan triggers: those in state
    [DISCONNECTED], in list order. *)
Definition verify_events (w : world) (l : list dev_ptr) : list event :=
  omap (fun p => match devs w !! p with
                 | Some c =>
                     if bool_decide (state c = DEV_STATE_DISCONNECTED)
                     then Some (E_dev_fsm_event p DEV_EVENT_VERIFY)
                     else None
                 | None => None
                 end) l.

(** [w_reloc] with device 3 in the middle of sensing after a
    disconnect. *)
Definition w_sensing : world :=
  set_devs (<[3%positive := sample_cdev DEV_STATE_DISCONNECTED_SENSE_ID
                              99%positive 0x5678 false]> (devs w_reloc)) w_reloc.
(** * Properties *)

(** ** Running computations of the store monad *)

Lemma bind_Some {A B} (m : M A) (f : A -> M B) w a w' :
  m w = Some (a, w') → bind m f w = f a w'.
Proof. intros H. unfold bind. by rewrite H. Qed.

Lemma bind_assoc {A B C} (m : M A) (f : A -> M B) (g : B -> M C) w :
  bind (bind m f) g w = bind m (fun a => bind (f a) g) w.
Proof. unfold bind. by destruct (m w) as [[a w']|]. Qed.

Lemma bind_ret {A B} (a : A) (f : A -> M B) w : bind (ret a) f w = f a w.
Proof. done. Qed.

Lemma bind_get_world {B} (f : world -> M B) w : bind get_world f w = f w w.
Proof. done. Qed.

Lemma bind_modify {B} g (f : unit -> M B) w : bind (modify g) f w = f tt (g w).
Proof. done. Qed.

Lemma bind_log {B} e (f : unit -> M B) w :
  bind (log e) f w = f tt (set_trace (trace w ++ [e]) w).
Proof. done. Qed.

Lemma bind_lift_opt {A B} (a : A) (f : A -> M B) w :
  bind (lift_opt (Some a)) f w = f a w.
Proof. done. Qed.

Lemma cdev_get_run p w c : devs w !! p = Some c → cdev_get p w = Some (c, w).
Proof. intros H. unfold cdev_get, bind, get_world, lift_opt. by rewrite H. Qed.

Lemma cdev_upd_run p f w c :
  devs w !! p = Some c →
  cdev_upd p f w = Some (tt, set_devs (<[p := f c]> (devs w)) w).
Proof. intros H. unfold cdev_upd. by rewrite (bind_Some _ _ _ _ _ (cdev_get_run _ _ _ H)). Qed.

Lemma sch_get_run p w s : schs w !! p = Some s → sch_get p w = Some (s, w).
Proof. intros H. unfold sch_get, bind, get_world, lift_opt. by rewrite H. Qed.

Lemma sch_upd_run p f w s :
  schs w !! p = Some s →
  sch_upd p f w = Some (tt, set_schs (<[p := f s]> (schs w)) w).
Proof. intros H. unfold sch_upd. by rewrite (bind_Some _ _ _ _ _ (sch_get_run _ _ _ H)). Qed.

Lemma bind_cdev_get {B} p (f : ccw_device -> M B) w c :
  devs w !! p = Some c → bind (cdev_get p) f w = f c w.
Proof. intros H. by rewrite (bind_Some _ _ _ _ _ (cdev_get_run _ _ _ H)). Qed.

Lemma bind_cdev_upd {B} p g (f : unit -> M B) w c :
  devs w !! p = Some c →
  bind (cdev_upd p g) f w = f tt (set_devs (<[p := g c]> (devs w)) w).
Proof. intros H. by rewrite (bind_Some _ _ _ _ _ (cdev_upd_run _ _ _ _ H)). Qed.

Lemma bind_sch_get {B} p (f : subchannel -> M B) w s :
  schs w !! p = Some s → bind (sch_get p) f w = f s w.
Proof. intros H. by rewrite (bind_Some _ _ _ _ _ (sch_get_run _ _ _ H)). Qed.

Lemma bind_sch_upd {B} p g (f : unit -> M B) w s :
  schs w !! p = Some s →
  bind (sch_upd p g) f w = f tt (set_schs (<[p := g s]> (schs w)) w).
Proof. intros H. by rewrite (bind_Some _ _ _ _ _ (sch_upd_run _ _ _ _ H)). Qed.

(** Reading the store after updates. *)
Ltac store_simpl :=
  cbn [devs schs ccw_bus pseudo_subchannel recovery_timer recovery_phase
       jiffies next_dev trace
       set_devs set_schs set_recovery_timer set_recovery_phase set_next_dev
       set_trace] in *.

Ltac solve_lookup :=
  store_simpl;
  first [ eassumption
        | rewrite lookup_insert_eq; reflexivity
        | rewrite lookup_insert_ne by (first [assumption | congruence | done]);
          solve_lookup ].

(** One step of a computation whose first statement is a primitive. *)
Ltac mstep :=
  rewrite ?bind_assoc;
  first [ rewrite bind_ret
        | rewrite bind_get_world
        | rewrite bind_modify
        | rewrite bind_log
        | rewrite bind_lift_opt
        | erewrite bind_cdev_get by solve_lookup
        | erewrite bind_cdev_upd by solve_lookup
        | erewrite bind_sch_get by solve_lookup
        | erewrite bind_sch_upd by solve_lookup
        | erewrite cdev_get_run by solve_lookup
        | erewrite cdev_upd_run by solve_lookup
        | erewrite sch_get_run by solve_lookup
        | erewrite sch_upd_run by solve_lookup ];
  store_simpl.

(** The same, with the store kept flat. *)
Ltac store_norm :=
  unfold set_devs, set_schs, set_trace, set_next_dev, set_recovery_timer,
    set_recovery_phase;
  cbn [devs schs ccw_bus pseudo_subchannel recovery_timer recovery_phase
       jiffies next_dev trace];
  rewrite ?insert_insert_eq.

Ltac mstep' := mstep; store_norm.

Lemma set_state_same c : set_state (state c) c = c.
Proof. by destruct c. Qed.

Lemma set_devs_same w : set_devs (devs w) w = w.
Proof. by destruct w. Qed.

(** The wait for the state machine returns, with the device in the state
    [settled] tells. *)
Lemma wait_event_final_state_run E p w c :
  devs w !! p = Some c →
  wait_event_final_state E p w =
    Some (tt, set_devs (<[p := set_state (settled E p w c) c]> (devs w)) w).
Proof.
  intros Hc. unfold wait_event_final_state, settled. mstep.
  destruct (dev_fsm_final_state c).
  - by rewrite set_state_same, insert_id, set_devs_same.
  - by repeat mstep.
Qed.

Lemma bind_wait_event_final_state {B} E p (f : unit → M B) w c :
  devs w !! p = Some c →
  bind (wait_event_final_state E p) f w =
    f tt (set_devs (<[p := set_state (settled E p w c) c]> (devs w)) w).
Proof. intros H. by rewrite (bind_Some _ _ _ _ _ (wait_event_final_state_run _ _ _ _ H)). Qed.

Ltac mwait :=
  rewrite ?bind_assoc;
  first [ erewrite bind_wait_event_final_state by solve_lookup
        | erewrite wait_event_final_state_run by solve_lookup ];
  store_simpl.

Lemma dev_fsm_event_run E p ev w c :
  devs w !! p = Some c →
  dev_fsm_event E p ev w =
    Some (tt, set_trace (trace w ++ [E_dev_fsm_event p ev])
                (set_devs (<[p := set_state (o_dev_fsm_event E p ev w) c]> (devs w)) w)).
Proof.
  intros H. unfold dev_fsm_event.
  rewrite (bind_Some _ _ w w w) by done.
  by rewrite (bind_Some _ _ _ _ _ (cdev_upd_run _ _ _ _ H)).
Qed.

(** ** Recovery scheduler *)

Lemma recovery_check_idle E p redo w c :
  devs w !! p = Some c → needs_retry c = false →
  recovery_check E p redo w = Some ((0, redo), w).
Proof.
  intros H Hn. unfold recovery_check.
  rewrite (bind_Some _ _ _ _ _ (cdev_get_run _ _ _ H)).
  unfold needs_retry in Hn. destruct (state c); try done.
Qed.

Lemma recovery_check_retry E p redo w c :
  devs w !! p = Some c → needs_retry c = true →
  ∃ w', recovery_check E p redo w = Some ((0, 1), w') ∧
        same_recovery w w' ∧ (∀ l, bus_valid l w → bus_valid l w').
Proof.
  intros H Hn. unfold recovery_check.
  rewrite (bind_Some _ _ _ _ _ (cdev_get_run _ _ _ H)).
  unfold needs_retry in Hn. destruct (state c) eqn:Hs; try done.
  - rewrite (bind_Some _ _ _ _ _ (dev_fsm_event_run E _ DEV_EVENT_VERIFY _ _ H)).
    eexists. split; [reflexivity|]. split; [done|].
    intros l Hl q Hq. simpl. destruct (decide (p = q)) as [->|Hne].
    + rewrite lookup_insert_eq. eauto.
    + rewrite lookup_insert_ne by done. by apply Hl.
  - eexists. split; [reflexivity|]. split; [done|]. auto.
Qed.

Lemma recovery_scan_redo E l : ∀ w,
  bus_valid l w →
  ∃ w', bus_for_each_dev l 1 (recovery_check E) w = Some ((0, 1), w') ∧
        same_recovery w w'.
Proof.
  induction l as [|p l IH]; intros w Hv.
  - exists w. by split.
  - destruct (Hv p) as [c Hc]; [by left|].
    assert (Hl : bus_valid l w) by (intros q Hq; apply Hv; by right).
    simpl. destruct (needs_retry c) eqn:Hn.
    + destruct (recovery_check_retry E p 1 w c Hc Hn) as (w1 & Hr & Hs & Hk).
      rewrite (bind_Some _ _ _ _ _ Hr). simpl.
      destruct (IH w1 (Hk _ Hl)) as (w' & Hr' & Hs').
      exists w'. split; [done|].
      destruct Hs as (? & ? & ?), Hs' as (? & ? & ?). repeat split; congruence.
    + rewrite (bind_Some _ _ _ _ _ (recovery_check_idle E p 1 w c Hc Hn)). simpl.
      by apply IH.
Qed.

Lemma recovery_scan E l : ∀ w,
  bus_valid l w →
  (some_needs_retry l w ∧
   ∃ w', bus_for_each_dev l 0 (recovery_check E) w = Some ((0, 1), w') ∧
         same_recovery w w') ∨
  (¬ some_needs_retry l w ∧
   bus_for_each_dev l 0 (recovery_check E) w = Some ((0, 0), w)).
Proof.
  induction l as [|p l IH]; intros w Hv.
  - right. split; [|done]. intros (p & c & Hp & _). by apply elem_of_nil in Hp.
  - destruct (Hv p) as [c Hc]; [by left|].
    assert (Hl : bus_valid l w) by (intros q Hq; apply Hv; by right).
    simpl. destruct (needs_retry c) eqn:Hn.
    + left. split; [exists p, c; split; [by left|done]|].
      destruct (recovery_check_retry E p 0 w c Hc Hn) as (w1 & Hr & Hs & Hk).
      rewrite (bind_Some _ _ _ _ _ Hr). simpl.
      destruct (recovery_scan_redo E l w1 (Hk _ Hl)) as (w' & Hr' & Hs').
      exists w'. split; [done|].
      destruct Hs as (? & ? & ?), Hs' as (? & ? & ?). repeat split; congruence.
    + rewrite (bind_Some _ _ _ _ _ (recovery_check_idle E p 0 w c Hc Hn)). simpl.
      destruct (IH w Hl) as [[Hs Hr]|[Hs Hr]].
      * left. split; [|done]. destruct Hs as (q & cq & Hq & Hcq & Hnq).
        exists q, cq. split; [by right|done].
      * right. split; [|done]. intros (q & cq & Hq & Hcq & Hnq).
        apply elem_of_cons in Hq as [->|Hq].
        -- congruence.
        -- apply Hs. by exists q, cq.
Qed.

Lemma ulong_small z : 0 ≤ z ≤ 2 → ulong z = z.
Proof. intros H. unfold ulong, BITS_PER_LONG. apply Z.mod_small. lia. Qed.

Lemma recovery_delay_at_run p w :
  0 ≤ p ≤ 2 → recovery_delay_at p w = Some (delay_of p, w).
Proof.
  intros H. assert (p = 0 ∨ p = 1 ∨ p = 2) as [-> | [-> | ->]] by lia; reflexivity.
Qed.

Lemma delay_of_next_phase p :
  0 ≤ p ≤ 2 →
  0 ≤ next_phase p ≤ 2 ∧
  delay_of p ≤ delay_of (next_phase p) ≤ 300 ∧
  (1 ≤ p → delay_of (next_phase p) = 300).
Proof.
  intros H. assert (p = 0 ∨ p = 1 ∨ p = 2) as [-> | [-> | ->]] by lia;
    vm_compute; repeat split; intros; congruence.
Qed.

Lemma recovery_work_func_run E w :
  bus_valid (ccw_bus w) w →
  0 ≤ recovery_phase w ≤ 2 →
  ∃ w', recovery_work_func E w = Some (tt, w') ∧
    (some_needs_retry (ccw_bus w) w →
     timer_pending (recovery_timer w) = false →
     recovery_phase w' = next_phase (recovery_phase w) ∧
     recovery_timer w' =
       mk_timer true (ulong (jiffies w + delay_of (recovery_phase w') * HZ E))) ∧
    (timer_pending (recovery_timer w) = true →
     recovery_phase w' = recovery_phase w ∧
     recovery_timer w' = recovery_timer w) ∧
    (¬ some_needs_retry (ccw_bus w) w → w' = w).
Proof.
  intros Hv Hp. unfold recovery_work_func.
  rewrite (bind_Some _ _ w w w) by done.
  destruct (recovery_scan E (ccw_bus w) w Hv) as [[Hs (w1 & Hr & Ht & Hph & Hj)]|[Hs Hr]].
  - rewrite (bind_Some _ _ _ _ _ Hr). cbn [negb Z.eqb].
    rewrite (bind_Some _ _ w1 w1 w1) by done. rewrite Ht.
    destruct (timer_pending (recovery_timer w)) eqn:Hpend; cbn [negb].
    + exists w1. split; [done|]. split; [done|]. split; [by rewrite Ht, Hph|done].
    + rewrite Hph, (ulong_small _ Hp).
      change (ulong (ARRAY_SIZE recovery_delay - 1)) with 2.
      destruct (Z.ltb_spec (recovery_phase w) 2) as [Hlt|Hge].
      * rewrite (bind_Some _ _ w1 tt (set_recovery_phase (recovery_phase w1 + 1) w1)) by done.
        set (w2 := set_recovery_phase (recovery_phase w1 + 1) w1).
        rewrite (bind_Some _ _ w2 w2 w2) by done.
        assert (Hn : recovery_phase w2 = next_phase (recovery_phase w))
          by (unfold next_phase; simpl; lia).
        rewrite (bind_Some _ _ w2 (delay_of (recovery_phase w2)) w2)
          by (apply recovery_delay_at_run; simpl; lia).
        eexists. split; [reflexivity|]. simpl. rewrite Hj, Hph.
        replace (recovery_phase w + 1) with (next_phase (recovery_phase w))
          by (unfold next_phase; lia).
        split; [done|]. split; [done|]. done.
      * rewrite (bind_Some _ _ w1 tt w1) by done.
        rewrite (bind_Some _ _ w1 w1 w1) by done.
        rewrite (bind_Some _ _ w1 (delay_of (recovery_phase w1)) w1)
          by (apply recovery_delay_at_run; lia).
        eexists. split; [reflexivity|]. simpl. rewrite Hj, Hph.
        replace (next_phase (recovery_phase w)) with (recovery_phase w)
          by (unfold next_phase; lia).
        split; [done|]. split; [done|]. done.
  - rewrite (bind_Some _ _ _ _ _ Hr). cbn.
    exists w. split; [done|]. split; [done|]. split; [done|]. done.
Qed.

Lemma nonresolving_firings_inv E n w0 w :
  nonresolving_firings E n w0 w →
  0 ≤ recovery_phase w0 ≤ 2 →
  recovery_phase w = Nat.iter n next_phase (recovery_phase w0) ∧
  0 ≤ recovery_phase w ≤ 2 ∧
  delay_of (recovery_phase w0) ≤ delay_of (recovery_phase w) ≤ 300 ∧
  ((1 ≤ n)%nat → 1 ≤ recovery_phase w ∧
                 armed_at E (recovery_phase w) (recovery_timer w)) ∧
  ((2 ≤ n)%nat → delay_of (recovery_phase w) = 300).
Proof.
  intros Hf H0. induction Hf as [w|n w0 w w' Hf IH Ht Hp|n w0 w w' Hf IH Hv Hs Hrun].
  - split; [done|]. split; [done|].
    split; [destruct (delay_of_next_phase _ H0) as (_ & ? & _); lia|].
    split; intros; lia.
  - rewrite Ht, Hp. by apply IH.
  - destruct (IH H0) as (Hit & Hb & Hd & H1 & H2).
    unfold recovery_timer_fires, recovery_func in Hrun.
    set (wx := set_recovery_timer (mk_timer false (expires (recovery_timer w))) w) in *.
    rewrite (bind_Some _ _ w tt wx) in Hrun by done.
    destruct (recovery_work_func_run E wx Hv Hb) as (w2 & Hrun2 & Hgo & _).
    rewrite Hrun2 in Hrun. injection Hrun as <-.
    destruct (Hgo Hs eq_refl) as (Hph & Htm). simpl in Hph.
    destruct (delay_of_next_phase _ Hb) as (Hb' & Hd' & Hcap).
    split; [simpl; congruence|]. rewrite Hph.
    split; [done|]. split; [lia|]. split.
    + intros _. split; [unfold next_phase; lia|].
      exists (jiffies wx). by rewrite <- Hph.
    + intros Hn. apply Hcap. apply H1. lia.
Qed.

(** C5. Backoff of the recovery work function.  After [n] consecutive
    firings that each still found a device in [DISCONNECTED] or
    [DISCONNECTED_SENSE_ID], the phase is the start phase advanced [n] times
    by one, saturating at the last index of the table [3; 30; 300]; the
    delay never decreased, is at most 300 seconds, and is 300 seconds from
    the second firing on.  The next run of the work function returns; if it
    still finds such a device and no timer pending, it advances the phase
    by one (saturating) and arms the timer at [delay[phase]]; if no device
    needs retry it changes nothing, so the timer is not re-armed. *)
Theorem recovery_backoff E n w0 w :
  nonresolving_firings E n w0 w →
  0 ≤ recovery_phase w0 ≤ 2 →
  bus_valid (ccw_bus w) w →
  (recovery_phase w = Nat.iter n next_phase (recovery_phase w0) ∧
   delay_of (recovery_phase w0) ≤ delay_of (recovery_phase w) ≤ 300 ∧
   ((1 ≤ n)%nat → armed_at E (recovery_phase w) (recovery_timer w)) ∧
   ((2 ≤ n)%nat → delay_of (recovery_phase w) = 300)) ∧
  ∃ w', recovery_work_func E w = Some (tt, w') ∧
    (some_needs_retry (ccw_bus w) w →
     timer_pending (recovery_timer w) = false →
     recovery_phase w' = Z.min (recovery_phase w + 1) (ARRAY_SIZE recovery_delay - 1) ∧
     recovery_timer w' =
       mk_timer true (ulong (jiffies w + delay_of (recovery_phase w') * HZ E)) ∧
     delay_of (recovery_phase w) ≤ delay_of (recovery_phase w') ≤ 300) ∧
    (¬ some_needs_retry (ccw_bus w) w → w' = w).
Proof.
  intros Hf H0 Hv.
  destruct (nonresolving_firings_inv E n w0 w Hf H0) as (Hit & Hb & Hd & H1 & H2).
  split.
  - split; [done|]. split; [done|]. split; [|done]. intros Hn. by apply H1.
  - destruct (recovery_work_func_run E w Hv Hb) as (w' & Hrun & Hgo & _ & Hidle).
    exists w'. split; [done|]. split; [|done].
    intros Hs Hpend. destruct (Hgo Hs Hpend) as (Hph & Htm).
    split; [done|]. split; [done|]. rewrite Hph.
    by destruct (delay_of_next_phase _ Hb) as (_ & ? & _).
Qed.

(** C6. [ccw_device_schedule_recovery] always returns.  While the timer is
    pending and the phase is 0 it changes nothing; in every other state it
    sets the phase to 0 and arms the timer at [delay[0]], three seconds
    from now, and touches nothing else.  Either way a second call right
    after changes nothing. *)
Theorem schedule_recovery_idempotent E w :
  ∃ w', ccw_device_schedule_recovery E w = Some (tt, w') ∧
    (timer_pending (recovery_timer w) = true ∧ recovery_phase w = 0 → w' = w) ∧
    (¬ (timer_pending (recovery_timer w) = true ∧ recovery_phase w = 0) →
     w' = set_recovery_timer (mk_timer true (ulong (jiffies w + 3 * HZ E)))
            (set_recovery_phase 0 w)) ∧
    ccw_device_schedule_recovery E w' = Some (tt, w').
Proof.
  unfold ccw_device_schedule_recovery.
  rewrite (bind_Some _ _ w w w) by done.
  destruct (timer_pending (recovery_timer w)) eqn:Hp; cbn [negb orb].
  - destruct (Z.eqb_spec (recovery_phase w) 0) as [H0|H0]; cbn [negb].
    + exists w. split; [done|]. split; [done|]. split; [tauto|].
      rewrite (bind_Some _ _ w w w) by done. by rewrite Hp, H0.
    + eexists. split; [reflexivity|]. split; [tauto|]. split; [done|]. reflexivity.
  - eexists. split; [reflexivity|]. split; [intros [? _]; done|]. split; [done|].
    reflexivity.
Qed.

Lemma bus_valid_singleton p c w :
  devs w !! p = Some c → bus_valid [p] w.
Proof. intros H q Hq. apply list_elem_of_singleton in Hq as ->. eauto. Qed.

Lemma recovery_backoff_witness :
  nonresolving_firings E0 2 w_disc w_disc2 ∧
  (recovery_phase w_disc2 = Nat.iter 2 next_phase (recovery_phase w_disc) ∧
   delay_of (recovery_phase w_disc) ≤ delay_of (recovery_phase w_disc2) ≤ 300 ∧
   ((1 ≤ 2)%nat → armed_at E0 (recovery_phase w_disc2) (recovery_timer w_disc2)) ∧
   ((2 ≤ 2)%nat → delay_of (recovery_phase w_disc2) = 300)) ∧
  ∃ w', recovery_work_func E0 w_disc2 = Some (tt, w') ∧
    (some_needs_retry (ccw_bus w_disc2) w_disc2 →
     timer_pending (recovery_timer w_disc2) = false →
     recovery_phase w' =
       Z.min (recovery_phase w_disc2 + 1) (ARRAY_SIZE recovery_delay - 1) ∧
     recovery_timer w' =
       mk_timer true (ulong (jiffies w_disc2 + delay_of (recovery_phase w') * HZ E0)) ∧
     delay_of (recovery_phase w_disc2) ≤ delay_of (recovery_phase w') ≤ 300) ∧
    (¬ some_needs_retry (ccw_bus w_disc2) w_disc2 → w' = w_disc2).
Proof.
  assert (Hf : nonresolving_firings E0 2 w_disc w_disc2).
  { apply (firings_more E0 1 w_disc w_disc1 w_disc2).
    - apply (firings_more E0 0 w_disc w_disc w_disc1).
      + apply firings_none.
      + eapply bus_valid_singleton. reflexivity.
      + eexists 1%positive, _. split; [left|]. split; reflexivity.
      + reflexivity.
    - eapply bus_valid_singleton. reflexivity.
    - eexists 1%positive, _. split; [left|]. split; reflexivity.
    - reflexivity. }
  split; [exact Hf|].
  apply (recovery_backoff E0 2 w_disc w_disc2 Hf).
  - vm_compute. split; discriminate.
  - eapply bus_valid_singleton. reflexivity.
Defined.

(** ** Device handling: online and offline *)

Lemma set_online_run E p w c d :
  devs w !! p = Some c → drv c = Some d → online c = false →
  let held := set_kref (kref c + 1) c in
  let on := o_ccw_device_online E p (with_dev w p held) in
  let c1 := set_state on.2 held in
  let c2 := set_state (settled E p (with_dev w p c1) c1) c1 in
  let off := o_ccw_device_offline E p (with_dev w p c2) in
  ∃ rc w' c',
    ccw_device_set_online E (Some p) w = Some (rc, w') ∧
    devs w' !! p = Some c' ∧
    (rc ≠ 0 → online c' = false ∧ kref c' = kref c) ∧
    (rc = 0 → online c' = true ∧ kref c' = kref c + 1) ∧
    (on.1 ≠ 0 → rc = on.1) ∧
    (on.1 = 0 → state c2 ≠ DEV_STATE_ONLINE → rc = - ENODEV) ∧
    (on.1 = 0 → state c2 = DEV_STATE_ONLINE →
     (drv_set_online d = None → rc = 0) ∧
     (∀ f, drv_set_online d = Some f → f p = 0 → rc = 0) ∧
     (∀ f, drv_set_online d = Some f → f p ≠ 0 →
        rc = if off.1 =? 0 then - ENODEV else off.1)).
Proof.
  intros Hc Hd Hon held on c1 c2 off.
  unfold ccw_device_set_online.
  mstep. rewrite Hon, Hd.
  unfold get_device. repeat mstep. cbn [negb].
  unfold ccw_device_online at 1. mstep.
  destruct (o_ccw_device_online E p _) as [r1 st1] eqn:Ho1.
  repeat mstep'. subst on. cbn [fst snd] in *.
  destruct (Z.eqb_spec r1 0) as [->|Hr1]; cbn [negb].
  - mwait. store_norm. mstep. cbn [state set_state].
    match goal with |- context [settled E p ?W ?C] =>
      change (settled E p W C) with (state c2) end.
    destruct (decide (state c2 = DEV_STATE_ONLINE)) as [Hst|Hst].
    + rewrite bool_decide_eq_true_2 by done. cbn [negb drv set_state set_kref].
      rewrite Hd. mstep.
      destruct (drv_set_online d) as [f|] eqn:Hf.
      * destruct (Z.eqb_spec (f p) 0) as [Hfp|Hfp].
        -- repeat mstep.
           eexists _, _, _. split; [reflexivity|]. split; [solve_lookup|].
           cbn. repeat split; try done. intros; congruence.
        -- unfold ccw_device_offline at 1. mstep. store_norm.
           destruct (o_ccw_device_offline E p _) as [r2 st3] eqn:Ho2.
           subst off. cbn [fst snd] in *.
           repeat mstep'.
           destruct (Z.eqb_spec r2 0) as [->|Hr2].
           ++ mwait. unfold put_device. repeat mstep'.
              eexists _, _, _. split; [reflexivity|]. split; [solve_lookup|].
              cbn. repeat split; try done; try lia.
              intros f' [= <-] ?. done.
           ++ repeat mstep. unfold put_device. repeat mstep'.
              eexists _, _, _. split; [reflexivity|]. split; [solve_lookup|].
              cbn. repeat split; try done; try lia.
              intros f' [= <-] ?. done.
      * repeat mstep.
        eexists _, _, _. split; [reflexivity|]. split; [solve_lookup|].
        cbn. repeat split; try done.
    + rewrite bool_decide_eq_false_2 by done. cbn [negb].
      unfold put_device. repeat mstep'.
      eexists _, _, _. split; [reflexivity|]. split; [solve_lookup|].
      cbn. repeat split; try done; try lia.
  - unfold put_device. repeat mstep'.
    eexists _, _, _. split; [reflexivity|]. split; [solve_lookup|].
    cbn. repeat split; try done; try lia.
Qed.

(** The part of [ccw_device_set_offline] that follows the driver's
    callback. *)
Lemma set_offline_request_run E p w c :
  devs w !! p = Some c →
  ∃ rc w' c',
    (cdev_upd p (set_online false) >>
     let* rc0 := ccw_device_offline E p in
     if rc0 =? - ENODEV
     then let* c0 := cdev_get p in
          (if negb (bool_decide (state c0 = DEV_STATE_NOT_OPER))
           then cdev_upd p (set_state DEV_STATE_OFFLINE) >>
                dev_fsm_event E p DEV_EVENT_NOTOPER
           else ret ()) >> put_device (cdev_dev p) >> ret rc0
     else if rc0 =? 0
          then wait_event_final_state E p >> put_device (cdev_dev p) >> ret rc0
          else cdev_upd p (set_online true) >> ret rc0) w = Some (rc, w') ∧
    devs w' !! p = Some c' ∧
    let r := (o_ccw_device_offline E p
                (set_devs (<[p := set_online false c]> (devs w)) w)).1 in
    rc = r ∧
    (r = - ENODEV → online c' = false ∧ kref c' = kref c - 1) ∧
    (r = 0 → online c' = false ∧ kref c' = kref c - 1) ∧
    (r ≠ 0 → r ≠ - ENODEV → online c' = true ∧ kref c' = kref c).
Proof.
  intros Hc.
  mstep. unfold ccw_device_offline at 1. mstep.
  destruct (o_ccw_device_offline E p _) as [r st1] eqn:Ho.
  repeat mstep. cbn [fst].
  destruct (Z.eqb_spec r (- ENODEV)) as [->|Hr].
  - mstep. cbn [state set_state].
    destruct (bool_decide (st1 = DEV_STATE_NOT_OPER)); cbn [negb].
    + unfold put_device. repeat mstep.
      eexists _, _, _. split; [reflexivity|]. split; [solve_lookup|].
      cbn. repeat split; try done.
    + mstep. unfold dev_fsm_event, put_device. repeat mstep.
      eexists _, _, _. split; [reflexivity|]. split; [solve_lookup|].
      cbn. repeat split; try done.
  - destruct (Z.eqb_spec r 0) as [->|Hr0].
    + mwait. unfold put_device. repeat mstep.
      eexists _, _, _. split; [reflexivity|]. split; [solve_lookup|].
      cbn. repeat split; try done.
    + repeat mstep.
      eexists _, _, _. split; [reflexivity|]. split; [solve_lookup|].
      cbn. repeat split; try done.
Qed.

Lemma set_offline_run E p w c d :
  devs w !! p = Some c → drv c = Some d → online c = true →
  ∃ rc w' c',
    ccw_device_set_offline E (Some p) w = Some (rc, w') ∧
    devs w' !! p = Some c' ∧
    (∀ f, drv_set_offline d = Some f → f p ≠ 0 → rc = f p ∧ w' = w) ∧
    (drv_set_offline d = None ∨ (∃ f, drv_set_offline d = Some f ∧ f p = 0) →
     let r := (o_ccw_device_offline E p
                 (set_devs (<[p := set_online false c]> (devs w)) w)).1 in
     rc = r ∧
     (r = - ENODEV → online c' = false ∧ kref c' = kref c - 1) ∧
     (r = 0 → online c' = false ∧ kref c' = kref c - 1) ∧
     (r ≠ 0 → r ≠ - ENODEV → online c' = true ∧ kref c' = kref c)).
Proof.
  intros Hc Hd Hon.
  destruct (set_offline_request_run E p w c Hc) as (rc & w' & c' & Hrun & Hl & Hrest).
  unfold ccw_device_set_offline.
  mstep. rewrite Hon, Hd.
  destruct (drv_set_offline d) as [f|] eqn:Hf.
  - mstep. destruct (Z.eqb_spec (f p) 0) as [Hfp|Hfp]; cbn [negb].
    + exists rc, w', c'. split; [exact Hrun|]. split; [done|].
      split; [intros ? [= <-] ?; done|]. intros _. exact Hrest.
    + eexists _, _, _. split; [reflexivity|]. split; [eassumption|].
      split; [by intros ? [= <-] ?|]. intros [?|(? & [= <-] & ?)]; done.
  - mstep. cbn [Z.eqb negb].
    exists rc, w', c'. split; [exact Hrun|]. split; [done|].
    split; [done|]. intros _. exact Hrest.
Qed.

Lemma set_online_einval E p w c :
  devs w !! p = Some c → online c = true ∨ drv c = None →
  ccw_device_set_online E (Some p) w = Some (- EINVAL, w).
Proof.
  intros Hc H. unfold ccw_device_set_online. mstep.
  destruct H as [->| ->]; [by destruct (drv c)|by destruct (online c)].
Qed.

Lemma set_offline_einval E p w c :
  devs w !! p = Some c → online c = false ∨ drv c = None →
  ccw_device_set_offline E (Some p) w = Some (- EINVAL, w).
Proof.
  intros Hc H. unfold ccw_device_set_offline. mstep.
  destruct H as [->| ->]; [by destruct (drv c)|by destruct (online c)].
Qed.

(** C7, as stated, fails.  When [ccw_device_offline] reports [-ENODEV],
    [ccw_device_set_offline] fails and leaves the online flag cleared, not
    at its pre-call value; and when the driver's [set_online] rejects with
    [-EIO], [ccw_device_set_online] returns [-ENODEV], the code it also
    returns for a device that vanished, not the driver's code. *)
Lemma transition_failure_counterexample :
  (∃ w' c c',
     devs w_on !! 1%positive = Some c ∧
     ccw_device_set_offline E_gone (Some 1%positive) w_on = Some (- ENODEV, w') ∧
     devs w' !! 1%positive = Some c' ∧
     online c = true ∧ online c' = false) ∧
  (∃ w' d f,
     drv <$> devs w_off_rej !! 1%positive = Some (Some d) ∧
     drv_set_online d = Some f ∧ f 1%positive = -5 ∧
     ccw_device_set_online E0 (Some 1%positive) w_off_rej = Some (- ENODEV, w')).
Proof.
  split.
  - eexists _, _, _. split; [reflexivity|]. split; [reflexivity|].
    split; [reflexivity|]. split; reflexivity.
  - eexists _, _, _. split; [reflexivity|]. split; [reflexivity|].
    split; reflexivity.
Qed.

(** C7, amended.  Both functions return.  A failing [ccw_device_set_online]
    leaves the online flag and the reference count as they were: it returns
    [-EINVAL] for a device that is online or has no driver, the code of
    [ccw_device_online] when that request fails, [-ENODEV] when the device
    does not settle in [ONLINE], and, when the driver's [set_online]
    rejects, [-ENODEV] or else the nonzero code of the compensating
    [ccw_device_offline], not the driver's own code.  A failing
    [ccw_device_set_offline] returns [-EINVAL] or the driver's
    [set_offline] code with the store untouched; after the driver accepted
    it returns the code of [ccw_device_offline]: for [-ENODEV] the flag
    stays cleared and the online reference is given up, for any other
    failure the flag is set again and the count is as before.

    The answers of the state machine are read at the stores the calls are
    made in: [on] is the answer of [ccw_device_online] for the device
    holding the extra reference, [c2] the device once it has settled, and
    [off] the answer of the compensating [ccw_device_offline]. *)
Theorem transition_failure E p w c :
  devs w !! p = Some c →
  (∃ rc w' c',
     ccw_device_set_online E (Some p) w = Some (rc, w') ∧
     devs w' !! p = Some c' ∧
     (rc ≠ 0 → online c' = online c ∧ kref c' = kref c) ∧
     (online c = true ∨ drv c = None → rc = - EINVAL ∧ w' = w) ∧
     (∀ d, online c = false → drv c = Some d →
        let held := set_kref (kref c + 1) c in
        let on := o_ccw_device_online E p (with_dev w p held) in
        let c1 := set_state on.2 held in
        let c2 := set_state (settled E p (with_dev w p c1) c1) c1 in
        let off := o_ccw_device_offline E p (with_dev w p c2) in
        (on.1 ≠ 0 → rc = on.1) ∧
        (on.1 = 0 → state c2 ≠ DEV_STATE_ONLINE → rc = - ENODEV) ∧
        (on.1 = 0 → state c2 = DEV_STATE_ONLINE →
         ∀ f, drv_set_online d = Some f → f p ≠ 0 →
           rc ≠ 0 ∧ rc = if off.1 =? 0 then - ENODEV else off.1))) ∧
  (∃ rc w' c',
     ccw_device_set_offline E (Some p) w = Some (rc, w') ∧
     devs w' !! p = Some c' ∧
     (online c = false ∨ drv c = None → rc = - EINVAL ∧ w' = w) ∧
     (∀ d, online c = true → drv c = Some d →
        (∀ f, drv_set_offline d = Some f → f p ≠ 0 → rc = f p ∧ w' = w) ∧
        (drv_set_offline d = None ∨ (∃ f, drv_set_offline d = Some f ∧ f p = 0) →
         let r := (o_ccw_device_offline E p
                     (set_devs (<[p := set_online false c]> (devs w)) w)).1 in
         rc = r ∧
         (r = - ENODEV → online c' = false ∧ kref c' = kref c - 1) ∧
         (r ≠ 0 → r ≠ - ENODEV → online c' = true ∧ kref c' = kref c)))).
Proof.
  intros Hc. split.
  - destruct (online c) eqn:Hon; [|destruct (drv c) as [d|] eqn:Hd].
    + exists (- EINVAL), w, c. rewrite (set_online_einval E p w c Hc) by auto.
      repeat split; try done.
    + destruct (set_online_run E p w c d Hc Hd Hon)
        as (rc & w' & c' & Hrun & Hl & Hfail & _ & Hreq & Hgone & Hrej).
      exists rc, w', c'. split; [done|]. split; [done|].
      split; [done|]. split; [by intros [?|?]|].
      intros d' _ [= <-]. cbv zeta. split; [done|]. split; [done|].
      intros H1 H2 f Hf Hfp. destruct (Hrej H1 H2) as (_ & _ & Hcode).
      rewrite (Hcode f Hf Hfp). split; [|done].
      match goal with |- context [?x =? 0] => destruct (Z.eqb_spec x 0) end;
        [by unfold ENODEV|done].
    + exists (- EINVAL), w, c. rewrite (set_online_einval E p w c Hc) by auto.
      repeat split; try done.
  - destruct (online c) eqn:Hon; [destruct (drv c) as [d|] eqn:Hd|].
    + destruct (set_offline_run E p w c d Hc Hd Hon)
        as (rc & w' & c' & Hrun & Hl & Hdrv & Hacc).
      exists rc, w', c'. split; [done|]. split; [done|].
      split; [by intros [?|?]|].
      intros d' _ [= <-]. split; [done|].
      intros Ha. destruct (Hacc Ha) as (? & ? & ? & ?). done.
    + exists (- EINVAL), w, c. rewrite (set_offline_einval E p w c Hc) by auto.
      repeat split; try done.
    + exists (- EINVAL), w, c. rewrite (set_offline_einval E p w c Hc) by auto.
      repeat split; try done.
Qed.

Lemma transition_failure_witness :
  ∃ c, devs w_off_rej !! 1%positive = Some c ∧
  ∃ rc w' c',
     ccw_device_set_online E0 (Some 1%positive) w_off_rej = Some (rc, w') ∧
     devs w' !! 1%positive = Some c' ∧
     (rc ≠ 0 → online c' = online c ∧ kref c' = kref c).
Proof.
  eexists. split; [reflexivity|].
  destruct (transition_failure E0 1%positive w_off_rej _ eq_refl)
    as [(rc & w' & c' & Hrun & Hl & Hfail & _) _].
  exists rc, w', c'. split; [exact Hrun|]. split; [exact Hl|exact Hfail].
Defined.

(** C8, as stated, fails for the functions themselves.  On device 1 of
    [w_busy] a request is in flight ([private->onoff] is taken).  A call
    of [ccw_device_set_online] is not turned away: it returns 0, and the
    device, offline with one reference before, is online, in state
    [ONLINE], and holds two references. *)
Lemma online_store_in_flight_counterexample :
  ∃ w',
    cdev_field onoff w_busy 1%positive = Some 1 ∧
    ccw_device_set_online E0 (Some 1%positive) w_busy = Some (0, w') ∧
    (cdev_field online w_busy 1%positive = Some false ∧
     cdev_field online w' 1%positive = Some true) ∧
    (cdev_field kref w_busy 1%positive = Some 1 ∧
     cdev_field kref w' 1%positive = Some 2) ∧
    (cdev_field state w_busy 1%positive = Some DEV_STATE_OFFLINE ∧
     cdev_field state w' 1%positive = Some DEV_STATE_ONLINE).
Proof.
  eexists. split; [reflexivity|]. split; [vm_compute; reflexivity|].
  split; [split; vm_compute; reflexivity|].
  split; split; vm_compute; reflexivity.
Qed.

(** C8, amended.  A request that arrives through the online attribute
    while another is in flight on the device ([private->onoff] is taken) is
    turned away by [online_store] with [-EAGAIN]; the store, and with it
    the state, the online flag and the reference count of the device, is
    left exactly as it was. *)
Theorem online_store_in_flight E p buf count w c :
  devs w !! p = Some c →
  onoff c ≠ 0 →
  online_store E p buf count w = Some (- EAGAIN, w).
Proof.
  intros Hc Hbusy. unfold online_store. mstep.
  destruct (Z.eqb_spec (onoff c) 0); [done|reflexivity].
Qed.

Lemma online_store_in_flight_witness :
  online_store E0 1%positive "1" 1 w_busy = Some (- EAGAIN, w_busy).
Proof.
  apply (online_store_in_flight E0 1%positive "1" 1 w_busy
           (set_onoff 1 (sample_cdev DEV_STATE_OFFLINE 10%positive 0x1234 false))).
  - reflexivity.
  - discriminate.
Defined.

(** ** Subchannel event evaluator *)

Lemma io_subchannel_get_status_run E sch w s :
  schs w !! sch = Some s →
  ∃ ev, io_subchannel_get_status E sch w = Some (ev, w).
Proof.
  intros Hs. unfold io_subchannel_get_status, stsch. repeat mstep.
  destruct (o_stsch E (sch_schid s) w) as [schib|]; [|by eexists].
  destruct (dnv schib); cbn [negb]; [|by eexists].
  destruct (dnv (schib_pmcw s) && negb (dev schib =? dev (schib_pmcw s)));
    [by eexists|].
  destruct (lpm s =? 0); by eexists.
Qed.

(** C9. [io_subchannel_get_status] returns, and leaves the store alone.
    Its answer is [GONE] exactly when [stsch] fails or succeeds with the
    device-number-valid flag clear; otherwise [REVALIDATE] exactly when the
    last known device number is valid and differs from the current one;
    otherwise [NO_PATH] exactly when no path is usable; otherwise
    [OPERATIONAL].  So a changed device number on a subchannel without a
    usable path is [REVALIDATE], not [NO_PATH]. *)
Theorem get_status_precedence E sch w s :
  schs w !! sch = Some s →
  ∃ ev, io_subchannel_get_status E sch w = Some (ev, w) ∧
    (ev = CIO_GONE ↔
       o_stsch E (sch_schid s) w = None ∨
       ∃ schib, o_stsch E (sch_schid s) w = Some schib ∧ dnv schib = false) ∧
    (∀ schib, o_stsch E (sch_schid s) w = Some schib → dnv schib = true →
       let changed := dnv (schib_pmcw s) = true ∧ dev schib ≠ dev (schib_pmcw s) in
       (ev = CIO_REVALIDATE ↔ changed) ∧
       (ev = CIO_NO_PATH ↔ ¬ changed ∧ lpm s = 0) ∧
       (ev = CIO_OPER ↔ ¬ changed ∧ lpm s ≠ 0) ∧
       (changed → lpm s = 0 → ev = CIO_REVALIDATE ∧ ev ≠ CIO_NO_PATH)).
Proof.
  intros Hs. unfold io_subchannel_get_status, stsch. repeat mstep.
  destruct (o_stsch E (sch_schid s) w) as [schib|] eqn:Hst.
  2:{ exists CIO_GONE. split; [done|]. split; [|done]. split; auto. }
  destruct (dnv schib) eqn:Hdnv; cbn [negb].
  2:{ exists CIO_GONE. split; [done|]. split; [|by intros ? [= <-]; congruence].
      split; eauto. }
  destruct (dnv (schib_pmcw s)) eqn:Hold; cbn [andb];
    [destruct (Z.eqb_spec (dev schib) (dev (schib_pmcw s))) as [Heq|Hne]; cbn [negb]|];
    try destruct (Z.eqb_spec (lpm s) 0) as [Hl|Hl];
    eexists; (split; [reflexivity|]);
    (split; [split; [done|intros [?|(? & [= <-] & ?)]; congruence]|]);
    intros ? [= <-] _; cbn; repeat split; try done; try tauto;
    try (intros [? ?]; done); try (by exfalso; intuition congruence).
Qed.

Lemma get_status_precedence_witness :
  ∃ ev, io_subchannel_get_status E0 10%positive w_disc = Some (ev, w_disc) ∧
        ev = CIO_REVALIDATE.
Proof.
  destruct (get_status_precedence E0 10%positive w_disc _ eq_refl)
    as (ev & Hrun & _ & Hcls).
  exists ev. split; [exact Hrun|].
  destruct (Hcls (mk_pmcw 0 true) eq_refl eq_refl) as (Hrev & _).
  apply Hrev. split; [reflexivity|discriminate].
Defined.

(** ** Searching for a replacement device *)

Lemma ccw_dev_id_is_equal_spec a b :
  ccw_dev_id_is_equal a b = true ↔ ssid a = ssid b ∧ devno a = devno b.
Proof.
  unfold ccw_dev_id_is_equal. rewrite andb_true_iff, !Z.eqb_eq. tauto.
Qed.

Lemma match_devno_run p id sib w c :
  devs w !! p = Some c → is_Some (parent c) →
  ∃ m, match_devno p (mk_match_data id sib) w = Some (m, w) ∧
       (m ≠ 0 ↔ disc_candidate w id sib p c).
Proof.
  intros Hc [sch Hsch]. unfold match_devno, disc_candidate. mstep.
  destruct (decide (state c = DEV_STATE_DISCONNECTED)) as [Hst|Hst].
  2:{ rewrite bool_decide_eq_false_2 by done. exists 0. split; [done|]. tauto. }
  rewrite bool_decide_eq_true_2 by done.
  unfold ccw_device_is_orphan, sch_is_pseudo_sch. repeat mstep.
  rewrite Hsch. repeat mstep. cbn [md_dev_id sibling].
  destruct (decide (sch = pseudo_subchannel w)) as [Hps|Hps].
  { rewrite bool_decide_eq_true_2 by done. exists 0. split; [done|].
    split; [done|]. intros (_ & Hn & _). congruence. }
  rewrite bool_decide_eq_false_2 by done. cbn [negb andb].
  destruct (ccw_dev_id_is_equal (dev_id c) id) eqn:Hid; cbn [andb].
  2:{ exists 0. split; [done|]. split; [done|]. intros (_ & _ & Heq & _).
      apply ccw_dev_id_is_equal_spec in Heq. congruence. }
  apply ccw_dev_id_is_equal_spec in Hid.
  destruct (decide (Some p = sib)) as [Hsib|Hsib].
  { rewrite bool_decide_eq_true_2 by done. exists 0. split; [done|].
    split; [done|]. intros (_ & _ & _ & ?). done. }
  rewrite bool_decide_eq_false_2 by done. exists 1. split; [done|].
  split; [|done]. intros _. repeat split; try done; try congruence; apply Hid.
Qed.

Lemma find_device_match_devno id sib w l :
  devs_wf l w →
  (∃ r c, first_with (disc_candidate_at w id sib) l r ∧
          devs w !! r = Some c ∧
          find_device l (mk_match_data id sib) match_devno w =
            Some (Some r, set_devs (<[r := set_kref (kref c + 1) c]> (devs w)) w)) ∨
  ((∀ q, q ∈ l → ¬ disc_candidate_at w id sib q) ∧
   find_device l (mk_match_data id sib) match_devno w = Some (None, w)).
Proof.
  induction l as [|p l IH]; intros Hwf.
  - right. split; [|done]. intros q Hq. by apply elem_of_nil in Hq.
  - destruct (Hwf p) as (c & Hc & Hpar); [by left|].
    destruct (match_devno_run p id sib w c Hc Hpar) as (m & Hrun & Hm).
    cbn [find_device]. rewrite (bind_Some _ _ _ _ _ Hrun).
    destruct (Z.eqb_spec m 0) as [->|Hne]; cbn [negb].
    + destruct IH as [(r & cr & (l1 & l2 & -> & Hr & Hl1) & Hcr & Hfind)|[Hnone Hfind]].
      { intros q Hq. apply Hwf. by right. }
      * left. exists r, cr. split; [|done].
        exists (p :: l1), l2. split; [done|]. split; [done|].
        intros q Hq (cq & Hcq & Hcand). apply elem_of_cons in Hq as [->|Hq].
        -- assert (cq = c) as -> by congruence. by apply Hm in Hcand.
        -- apply (Hl1 q Hq). by exists cq.
      * right. split; [|done].
        intros q Hq (cq & Hcq & Hcand). apply elem_of_cons in Hq as [->|Hq].
        -- assert (cq = c) as -> by congruence. by apply Hm in Hcand.
        -- apply (Hnone q Hq). by exists cq.
    + left. exists p, c. split.
      * exists [], l. split; [done|]. split; [exists c; split; [done|by apply Hm]|].
        intros q Hq. by apply elem_of_nil in Hq.
      * split; [done|]. unfold get_device. by repeat mstep.
Qed.

(** C10. The search for a disconnected replacement returns.  The device it
    returns, with a reference taken, is the first device on the bus that is
    in state [DISCONNECTED], is not in the orphanage, has exactly the
    identity asked for (subsystem-id and device-number) and is not the
    sib; it returns none, and changes nothing, exactly when the bus has
    no such device.  So the device that is being moved to the orphanage, and
    every orphaned device, is never the result. *)
Theorem get_disc_ccwdev_only_candidates id sib w :
  devs_wf (ccw_bus w) w →
  ∃ r w', get_disc_ccwdev_by_dev_id id sib w = Some (r, w') ∧
    (∀ p, r = Some p →
       ∃ c, devs w !! p = Some c ∧
            state c = DEV_STATE_DISCONNECTED ∧
            parent c ≠ Some (pseudo_subchannel w) ∧
            ssid (dev_id c) = ssid id ∧ devno (dev_id c) = devno id ∧
            Some p ≠ sib ∧
            first_with (disc_candidate_at w id sib) (ccw_bus w) p ∧
            w' = set_devs (<[p := set_kref (kref c + 1) c]> (devs w)) w) ∧
    (r = None →
       w' = w ∧ ∀ q, q ∈ ccw_bus w → ¬ disc_candidate_at w id sib q).
Proof.
  intros Hwf. unfold get_disc_ccwdev_by_dev_id, bus_find_device. mstep.
  destruct (find_device_match_devno id sib w (ccw_bus w) Hwf)
    as [(r & c & Hfirst & Hc & Hfind)|[Hnone Hfind]].
  - eexists _, _. split; [exact Hfind|]. split; [|done].
    intros p [= <-]. exists c. split; [done|].
    destruct Hfirst as (l1 & l2 & Hl & (c' & Hc' & Hcand) & Hl1).
    assert (c' = c) as -> by congruence.
    destruct Hcand as (? & ? & (? & ?) & ?).
    repeat split; try done. exists l1, l2. split; [done|]. split; [|done].
    exists c. split; [done|]. repeat split; done.
  - eexists _, _. split; [exact Hfind|]. split; [done|]. done.
Qed.

Lemma devs_wf_singleton p c sch w :
  devs w !! p = Some c → parent c = Some sch → devs_wf [p] w.
Proof.
  intros H Hp q Hq. apply list_elem_of_singleton in Hq as ->. exists c. eauto.
Qed.

Lemma get_disc_ccwdev_only_candidates_witness :
  ∃ r w', get_disc_ccwdev_by_dev_id (mk_dev_id 0 0x1234) None w_disc = Some (r, w') ∧
          r = Some 1%positive.
Proof.
  destruct (get_disc_ccwdev_only_candidates (mk_dev_id 0 0x1234) None w_disc)
    as (r & w' & Hrun & _).
  - eapply devs_wf_singleton; reflexivity.
  - exists r, w'. split; [exact Hrun|].
    revert Hrun. vm_compute. intros [= <- _]. reflexivity.
Defined.

(** ** Subchannel event evaluator: path rejection and action table *)

Lemma device_is_disconnected_run w s :
  bound_valid w s →
  device_is_disconnected (sch_cdev s) w = Some (is_disconnected w (sch_cdev s), w).
Proof.
  intros Hv. unfold device_is_disconnected, is_disconnected.
  destruct (sch_cdev s) as [p|] eqn:Hp; [|done].
  destruct (Hv p Hp) as [c Hc]. rewrite Hc. by mstep.
Qed.

Lemma kill_timers_run {B} w s (f : unit → M B) :
  bound_valid w s →
  bind (match sch_cdev s with
        | Some cdev => ccw_device_set_timeout_0 cdev
        | None => ret tt
        end) f w = f tt (timers_killed w (sch_cdev s)).
Proof.
  intros Hv. unfold timers_killed. destruct (sch_cdev s) as [p|] eqn:Hp; [|done].
  destruct (Hv p Hp) as [c Hc]. rewrite Hc.
  unfold ccw_device_set_timeout_0. by mstep.
Qed.

(** C1, as stated, fails.  Device 1 of [w_disc] is disconnected and has a
    timeout pending.  An evaluator call on the slow path is rejected (it
    returns 0 and the store is unchanged), and the timeout is still
    pending when the evaluator returns. *)
Lemma sch_event_rejection_counterexample :
  io_subchannel_sch_event E0 10%positive 1 w_disc = Some (0, w_disc) ∧
  is_disconnected w_disc (Some 1%positive) = true ∧
  timer <$> devs w_disc !! 1%positive = Some true.
Proof. split; [reflexivity|]. split; reflexivity. Qed.

(** C1, amended.  A call on the slow path for a subchannel whose bound
    device is disconnected returns 0 and leaves the store, the pending
    timeout of the device included, exactly as it was.  A call on the fast
    path for a subchannel whose bound device is not disconnected (or that
    has no device) returns [-EAGAIN]; the pending timeout of the bound
    device is cancelled first, and nothing else changes. *)
Theorem sch_event_rejection E sch slow w s :
  schs w !! sch = Some s →
  bound_valid w s →
  (is_disconnected w (sch_cdev s) = true → slow ≠ 0 →
   io_subchannel_sch_event E sch slow w = Some (0, w)) ∧
  (is_disconnected w (sch_cdev s) = false → slow = 0 →
   io_subchannel_sch_event E sch slow w =
     Some (- EAGAIN, timers_killed w (sch_cdev s))).
Proof.
  intros Hs Hv. unfold io_subchannel_sch_event, sch_get_cdev.
  repeat mstep. rewrite (bind_Some _ _ _ _ _ (device_is_disconnected_run w s Hv)).
  split; intros Hd Hslow; rewrite Hd; cbn [andb negb].
  - by destruct (Z.eqb_spec slow 0).
  - rewrite (kill_timers_run _ _ _ Hv). by rewrite Hslow.
Qed.

Lemma sch_event_rejection_witness :
  io_subchannel_sch_event E0 10%positive 0 w_on =
    Some (- EAGAIN, timers_killed w_on (Some 1%positive)).
Proof.
  destruct (sch_event_rejection E0 10%positive 0 w_on
              (sample_sch 10 0x1234 (Some 1%positive) [1%positive])) as [_ H].
  - reflexivity.
  - intros p [= <-]. eexists. reflexivity.
  - apply H; reflexivity.
Defined.

Lemma io_subchannel_notify_run E sch ev w s :
  schs w !! sch = Some s →
  io_subchannel_notify E sch ev w =
    Some (match sch_cdev s with
          | Some p => o_ccw_device_notify E p ev w
          | None => 0
          end, w).
Proof.
  intros Hs. unfold io_subchannel_notify, sch_get_cdev. repeat mstep.
  by destruct (sch_cdev s).
Qed.

Lemma sch_event_analyze_run E sch ev disc w s :
  schs w !! sch = Some s →
  sch_event_analyze E sch ev disc w =
    Some (spec_action ev disc
            (match sch_cdev s with
             | Some p => negb (o_ccw_device_notify E p ev w =? 0)
             | None => false
             end), w).
Proof.
  intros Hs. pose proof (io_subchannel_notify_run E sch ev w s Hs) as Hn.
  unfold sch_event_analyze.
  destruct ev, disc; cbn [spec_action]; try done;
    rewrite (bind_Some _ _ _ _ _ Hn);
    destruct (sch_cdev s); try done;
    by destruct (_ =? 0).
Qed.

(** C3. For a call the evaluator accepts (a disconnected device on the fast
    path, any other on the slow path), the action it selects and then
    performs is the one of the table, read at the hardware status [ev] that
    [io_subchannel_get_status] reports and at the answer the driver of the
    bound device gives to [ccw_device_notify] for that status: [NO_PATH]
    with a disconnected device gives [REPROBE]; [NO_PATH] without one, and
    [GONE], give [DISC] if the driver answers nonzero and [UNREGISTER]
    otherwise (also when no device is bound, and nobody can be asked);
    [REVALIDATE] gives [REPROBE] when disconnected and [UNREGISTER_PROBE]
    when not; [OPER] gives [REPROBE] when disconnected and no action
    otherwise. *)
Theorem sch_event_action_table E sch slow w s :
  schs w !! sch = Some s →
  bound_valid w s →
  let disc := is_disconnected w (sch_cdev s) in
  let w1 := timers_killed w (sch_cdev s) in
  (disc = true ∧ slow = 0) ∨ (disc = false ∧ slow ≠ 0) →
  ∃ ev,
    io_subchannel_get_status E sch w1 = Some (ev, w1) ∧
    let keep := match sch_cdev s with
                | Some p => negb (o_ccw_device_notify E p ev w1 =? 0)
                | None => false
                end in
    let a := spec_action ev disc keep in
    sch_event_analyze E sch ev disc w1 = Some (a, w1) ∧
    io_subchannel_sch_event E sch slow w =
      (sch_event_perform E sch (sch_cdev s) a >>
       if bool_decide (a = UNREGISTER_PROBE)
       then let* s := sch_get sch in css_probe_device E (sch_schid s)
       else ret 0) w1.
Proof.
  intros Hs Hv disc w1 Hacc.
  assert (Hs1 : schs w1 !! sch = Some s).
  { unfold w1, timers_killed. destruct (sch_cdev s) as [p|]; [|done].
    by destruct (devs w !! p). }
  destruct (io_subchannel_get_status_run E sch w1 s Hs1) as (ev & Hev).
  pose proof (sch_event_analyze_run E sch ev disc w1 s Hs1) as Ha.
  exists ev. split; [done|]. cbv zeta. split; [done|].
  unfold io_subchannel_sch_event, sch_get_cdev.
  repeat mstep. rewrite (bind_Some _ _ _ _ _ (device_is_disconnected_run w s Hv)).
  fold disc.
  assert (disc && negb (slow =? 0) = false) as ->.
  { destruct Hacc as [[-> ->]|[-> _]]; done. }
  rewrite (kill_timers_run _ _ _ Hv). fold w1.
  assert (negb disc && (slow =? 0) = false) as ->.
  { destruct Hacc as [[-> _]|[-> ?]]; [done|]. by destruct (Z.eqb_spec slow 0). }
  rewrite (bind_Some _ _ _ _ _ Hev). by rewrite (bind_Some _ _ _ _ _ Ha).
Qed.

(** The subchannel of the online device 1 of [w_on] is found gone on the
    slow path, and the driver wants to keep the device: the evaluator
    selects [DISC]. *)
Lemma sch_event_action_table_witness :
  let w1 := timers_killed w_on (Some 1%positive) in
  io_subchannel_get_status E_lost 10%positive w1 = Some (CIO_GONE, w1) ∧
  sch_event_analyze E_lost 10%positive CIO_GONE false w1 = Some (DISC, w1) ∧
  io_subchannel_sch_event E_lost 10%positive 1 w_on =
    (sch_event_perform E_lost 10%positive (Some 1%positive) DISC >> ret 0) w1.
Proof.
  cbv zeta.
  destruct (sch_event_action_table E_lost 10%positive 1 w_on
              (sample_sch 10 0x1234 (Some 1%positive) [1%positive]))
    as (ev & Hev & Ha & Hrun).
  - reflexivity.
  - intros p [= <-]. eexists. reflexivity.
  - right. split; [reflexivity|discriminate].
  - match type of Hev with ?run = _ =>
      assert (Hgone : run = Some (CIO_GONE, timers_killed w_on (Some 1%positive)))
        by (vm_compute; reflexivity)
    end.
    assert (ev = CIO_GONE) as -> by congruence.
    split; [exact Hev|]. split; [exact Ha|exact Hrun].
Defined.

(** ** Device relocation protocol *)

Lemma set_sch_kref_back s :
  set_sch_kref (sch_kref (set_sch_kref (sch_kref s + 1) s) - 1)
    (set_sch_kref (sch_kref s + 1) s) = s.
Proof. destruct s. unfold set_sch_kref. cbn. f_equal. lia. Qed.

(** When the reparent fails, [sch_attach_disconnected_device] gives back
    the reference for the new parent and returns: but for the record of the
    failed move the store is as before.  Nothing unregisters [sch]. *)
Lemma sch_attach_disconnected_device_move_fails E sch r w s c other :
  schs w !! sch = Some s →
  devs w !! r = Some c →
  parent c = Some other →
  let rc := o_device_move E r sch
              (set_schs (<[sch := set_sch_kref (sch_kref s + 1) s]> (schs w)) w) in
  rc ≠ 0 →
  sch_attach_disconnected_device E sch r w =
    Some (tt, set_trace (trace w ++ [E_device_move r sch rc]) w).
Proof.
  intros Hs Hc Hp rc Hrc. unfold sch_attach_disconnected_device, get_device.
  repeat mstep. cbn [negb]. mstep. rewrite Hp. mstep.
  unfold device_move. repeat mstep. fold rc.
  destruct (Z.eqb_spec rc 0) as [?|_]; [done|]. cbn [negb].
  repeat mstep.
  destruct (Z.eqb_spec rc 0) as [?|_]; [done|]. cbn [negb].
  unfold put_device. mstep.
  rewrite insert_insert_eq, (set_sch_kref_back s), insert_id by done.
  by destruct w.
Qed.


Lemma match_orphan_run p id w c :
  devs w !! p = Some c →
  ∃ m, match_orphan p id w = Some (m, w) ∧
       (m ≠ 0 ↔ ssid (dev_id c) = ssid id ∧ devno (dev_id c) = devno id).
Proof.
  intros Hc. unfold match_orphan. mstep.
  destruct (ccw_dev_id_is_equal (dev_id c) id) eqn:Hid.
  - exists 1. split; [done|]. apply ccw_dev_id_is_equal_spec in Hid. by split.
  - exists 0. split; [done|]. split; [done|]. intros Heq.
    apply ccw_dev_id_is_equal_spec in Heq. congruence.
Qed.

Lemma find_device_match_orphan id w l :
  (∀ p, p ∈ l → is_Some (devs w !! p)) →
  (∃ o c, first_with (orphan_candidate_at w id) l o ∧
          devs w !! o = Some c ∧
          find_device l id match_orphan w =
            Some (Some o, set_devs (<[o := set_kref (kref c + 1) c]> (devs w)) w)) ∨
  ((∀ q, q ∈ l → ¬ orphan_candidate_at w id q) ∧
   find_device l id match_orphan w = Some (None, w)).
Proof.
  induction l as [|p l IH]; intros Hwf.
  - right. split; [|done]. intros q Hq. by apply elem_of_nil in Hq.
  - destruct (Hwf p) as (c & Hc); [by left|].
    destruct (match_orphan_run p id w c Hc) as (m & Hrun & Hm).
    cbn [find_device]. rewrite (bind_Some _ _ _ _ _ Hrun).
    destruct (Z.eqb_spec m 0) as [->|Hne]; cbn [negb].
    + destruct IH as [(r & cr & (l1 & l2 & -> & Hr & Hl1) & Hcr & Hfind)|[Hnone Hfind]].
      { intros q Hq. apply Hwf. by right. }
      * left. exists r, cr. split; [|done].
        exists (p :: l1), l2. split; [done|]. split; [done|].
        intros q Hq (cq & Hcq & Hcand). apply elem_of_cons in Hq as [->|Hq].
        -- assert (cq = c) as -> by congruence. by apply Hm in Hcand.
        -- apply (Hl1 q Hq). by exists cq.
      * right. split; [|done].
        intros q Hq (cq & Hcq & Hcand). apply elem_of_cons in Hq as [->|Hq].
        -- assert (cq = c) as -> by congruence. by apply Hm in Hcand.
        -- apply (Hnone q Hq). by exists cq.
    + left. exists p, c. split.
      * exists [], l. split; [done|]. split; [exists c; split; [done|by apply Hm]|].
        intros q Hq. by apply elem_of_nil in Hq.
      * split; [done|]. unfold get_device. by repeat mstep.
Qed.

(** C4. The claim fails on the code when recognition cannot be started
    for a new device.  In [w_renumbered] device 1 leaves subchannel 10 for
    the orphanage and no replacement is known, so the third branch runs: a
    device is allocated at address 2 with a reference on subchannel 10,
    and recognition is attempted and fails with [-ENODEV].  The binding is
    taken back, the subchannel is unregistered, the reference taken for
    the new device is put back, and the initial reference of the new
    device is given up: its release function [ccw_device_release] puts the
    reference on the parent once more and frees the device.  Then the
    reference of the departed device is released, once, as claimed.
    Subchannel 10, which held two references, one of them for the departed
    device, ends with none: the reference adjustments on the freed
    subchannel do not balance.  When recognition starts (collaborator
    [E0]) they do: the subchannel is bound to the new device and still
    holds two references, one of them now for the new device. *)
Theorem move_to_orphanage_new_device_put_twice :
  let w' := store_after (ccw_device_move_to_orphanage E_norecog 1%positive)
              w_renumbered in
  let v := store_after (ccw_device_move_to_orphanage E0 1%positive)
             w_renumbered in
  ccw_device_move_to_orphanage E_norecog 1%positive w_renumbered = Some (tt, w') ∧
  trace w' = [E_device_move 1%positive 99%positive 0;
              E_kzalloc_cdev true; E_kzalloc_cdev true;
              E_ccw_device_recognition 2%positive (- ENODEV);
              E_css_sch_device_unregister 10%positive] ∧
  (devs w_renumbered !! 2%positive = None ∧
   devs w' !! 2%positive = None ∧
   sch_field sch_cdev w' 10%positive = Some None) ∧
  (sch_field sch_kref w_renumbered 10%positive = Some 2 ∧
   sch_field sch_kref w' 10%positive = Some 0) ∧
  (ccw_device_move_to_orphanage E0 1%positive w_renumbered = Some (tt, v) ∧
   sch_field sch_cdev v 10%positive = Some (Some 2%positive) ∧
   cdev_field kref v 2%positive = Some 1 ∧
   sch_field sch_kref v 10%positive = Some 2).
Proof.
  cbv zeta.
  split; [vm_compute; reflexivity|]. split; [vm_compute; reflexivity|].
  split.
  { split; [vm_compute; reflexivity|]. split; vm_compute; reflexivity. }
  split.
  { split; vm_compute; reflexivity. }
  split; [vm_compute; reflexivity|]. split; [vm_compute; reflexivity|].
  split; vm_compute; reflexivity.
Qed.

(** C2. The claim fails on the code in the orphan search.  In [w_reloc]
    device 1 leaves subchannel 10 for the orphanage, and the disconnected
    device 2 of subchannel 20 is found as its replacement; the reparent of
    device 2 to subchannel 10 fails with [-ENOMEM].  The reference for the
    new parent is given back and device 2 stays bound to subchannel 20 with
    its counts as before, as claimed.  But subchannel 10, which triggered
    the relocation, is not unregistered: it stays registered, no
    [css_sch_device_unregister] is recorded, and it is still bound to
    device 1, which now sits in the orphanage. *)
Theorem relocation_failure_keeps_subchannel_registered :
  let w' := store_after (ccw_device_move_to_orphanage E_nomove 1%positive) w_reloc in
  ccw_device_move_to_orphanage E_nomove 1%positive w_reloc = Some (tt, w') ∧
  trace w' = [E_device_move 1%positive 99%positive 0;
              E_device_move 2%positive 10%positive (- ENOMEM)] ∧
  (cdev_field parent w' 2%positive = Some (Some 20%positive) ∧
   sch_field sch_cdev w' 20%positive = Some (Some 2%positive) ∧
   sch_field children w' 20%positive = Some [2%positive] ∧
   cdev_field kref w' 2%positive = cdev_field kref w_reloc 2%positive ∧
   sch_field sch_kref w' 20%positive = sch_field sch_kref w_reloc 20%positive) ∧
  (sch_field sch_registered w' 10%positive = Some true ∧
   sch_field sch_cdev w' 10%positive = Some (Some 1%positive) ∧
   cdev_field parent w' 1%positive = Some (Some 99%positive) ∧
   sch_field sch_kref w' 10%positive = Some 1 ∧
   sch_field sch_kref w_reloc 10%positive = Some 2).
Proof.
  cbv zeta.
  split; [vm_compute; reflexivity|]. split; [vm_compute; reflexivity|].
  split.
  - split; [vm_compute; reflexivity|]. split; [vm_compute; reflexivity|].
    split; [vm_compute; reflexivity|]. split; vm_compute; reflexivity.
  - split; [vm_compute; reflexivity|]. split; [vm_compute; reflexivity|].
    split; [vm_compute; reflexivity|]. split; vm_compute; reflexivity.
Qed.


(** * Properties of the further functions *)

(** ** Purging blacklisted devices *)

Lemma purge_fn_run B p w c :
  devs w !! p = Some c →
  ∃ w', purge_fn B p tt w =
          Some ((if o_signal_pending B w' then - EINTR else 0, tt), w') ∧
    w' = (if purge_match B c
          then set_trace (trace w ++ [E_queue_work p W_ccw_device_call_sch_unregister])
                 (set_devs (<[p := purged c]> (devs w)) w)
          else w).
Proof.
  intros Hc. unfold purge_fn, purge_match. mstep.
  destruct (o_is_blacklisted B _ _ && bool_decide (state c = DEV_STATE_OFFLINE)).
  - unfold get_device, PREPARE_WORK, queue_work. repeat mstep'. cbn [negb].
    repeat mstep'. cbn [kick_work set_kick_work]. repeat mstep'.
    eexists. split; [|reflexivity]. cbn.
    by destruct (o_signal_pending B _).
  - repeat mstep. exists w. split; [|done]. by destruct (o_signal_pending B w).
Qed.

Lemma purge_events_ext B w w1 l :
  (∀ q, q ∈ l → devs w1 !! q = devs w !! q) →
  purge_events B w1 l = purge_events B w l.
Proof.
  induction l as [|p l IH]; intros H; [done|].
  unfold purge_events in *. cbn [omap list_omap].
  rewrite (H p) by (by left). rewrite IH; [done|].
  intros q Hq. apply H. by right.
Qed.

Lemma purge_scan B l : ∀ w,
  NoDup l →
  bus_valid l w →
  (∀ w1, o_signal_pending B w1 = false) →
  ∃ w', bus_for_each_dev l tt (purge_fn B) w = Some ((0, tt), w') ∧
    (∀ p, p ∉ l → devs w' !! p = devs w !! p) ∧
    (∀ p c, p ∈ l → devs w !! p = Some c →
       devs w' !! p = Some (if purge_match B c then purged c else c)) ∧
    trace w' = trace w ++ purge_events B w l ∧
    schs w' = schs w ∧ ccw_bus w' = ccw_bus w.
Proof.
  induction l as [|p l IH]; intros w Hnd Hv Hsig.
  - exists w. split; [done|]. split; [done|]. split.
    + intros p c Hp. by apply elem_of_nil in Hp.
    + split; [by rewrite app_nil_r|done].
  - apply NoDup_cons in Hnd as [Hpl Hnd].
    destruct (Hv p) as [c Hc]; [by left|].
    destruct (purge_fn_run B p w c Hc) as (w1 & Hrun1 & Hw1).
    cbn [bus_for_each_dev]. rewrite (bind_Some _ _ _ _ _ Hrun1).
    rewrite Hsig. cbn [Z.eqb].
    assert (Hd1 : ∀ q, q ≠ p → devs w1 !! q = devs w !! q).
    { intros q Hq. subst w1. destruct (purge_match B c); [|done].
      store_simpl. by rewrite lookup_insert_ne. }
    assert (Hp1 : devs w1 !! p = Some (if purge_match B c then purged c else c)).
    { subst w1. destruct (purge_match B c); [|done].
      store_simpl. by rewrite lookup_insert_eq. }
    assert (Hs1 : schs w1 = schs w ∧ ccw_bus w1 = ccw_bus w).
    { subst w1. by destruct (purge_match B c). }
    assert (Ht1 : trace w1 = trace w ++ purge_events B w [p]).
    { subst w1. unfold purge_events. cbn. rewrite Hc.
      destruct (purge_match B c); [done|by rewrite app_nil_r]. }
    destruct (IH w1) as (w' & Hrun & Hout & Hin & Htr & Hs & Hb).
    { done. }
    { intros q Hq. rewrite Hd1; [apply Hv; by right|]. intros ->. done. }
    { done. }
    exists w'. split; [done|]. split; [|split; [|split]].
    + intros q Hq. apply not_elem_of_cons in Hq as [Hqp Hql].
      rewrite Hout by done. by apply Hd1.
    + intros q cq Hq Hcq. apply elem_of_cons in Hq as [->|Hq].
      * assert (cq = c) as -> by congruence. rewrite Hout by done. done.
      * assert (q ≠ p) by (intros ->; done).
        apply Hin; [done|]. by rewrite Hd1.
    + rewrite Htr, Ht1, <- app_assoc. f_equal.
      unfold purge_events. cbn [omap list_omap]. rewrite Hc.
      assert (Hrest : purge_events B w1 l = purge_events B w l).
      { apply purge_events_ext. intros q Hq. apply Hd1. intros ->. done. }
      fold (purge_events B w1 l). fold (purge_events B w l).
      rewrite Hrest. by destruct (purge_match B c).
    + destruct Hs1 as [Hs1 Hb1]. split; congruence.
Qed.

(** X1: [ccw_purge_blacklisted] returns 0 and takes exactly the devices of
    the bus that are blacklisted and offline: each of them gets one more
    reference and the work that unregisters its subchannel, queued in bus
    order; every other device, on the bus or not, and every subchannel stay
    as they were.  The caller has no signal pending. *)
Theorem purge_takes_offline_blacklisted B w :
  NoDup (ccw_bus w) →
  bus_valid (ccw_bus w) w →
  (∀ w1, o_signal_pending B w1 = false) →
  ∃ w', ccw_purge_blacklisted B w = Some (0, w') ∧
    (∀ p c, p ∈ ccw_bus w → devs w !! p = Some c →
       devs w' !! p = Some (if purge_match B c then purged c else c)) ∧
    (∀ p, p ∉ ccw_bus w → devs w' !! p = devs w !! p) ∧
    trace w' = trace w ++ purge_events B w (ccw_bus w) ∧
    schs w' = schs w.
Proof.
  intros Hnd Hv Hsig.
  destruct (purge_scan B (ccw_bus w) w Hnd Hv Hsig)
    as (w' & Hrun & Hout & Hin & Htr & Hs & _).
  exists w'. unfold ccw_purge_blacklisted. mstep.
  rewrite (bind_Some _ _ _ _ _ Hrun). done.
Qed.

Lemma purge_takes_offline_blacklisted_witness :
  ∃ w', ccw_purge_blacklisted B_black w_reloc = Some (0, w') ∧
    cdev_field kref w' 3%positive = Some 2 ∧
    cdev_field kref w' 2%positive = Some 1 ∧
    trace w' = [E_queue_work 3%positive W_ccw_device_call_sch_unregister].
Proof.
  destruct (purge_takes_offline_blacklisted B_black w_reloc)
    as (w' & Hrun & Hin & _ & Htr & _).
  - apply (bool_decide_unpack _). vm_compute. exact I.
  - unfold bus_valid. apply Forall_forall.
    change (ccw_bus w_reloc) with [1%positive; 2%positive; 3%positive].
    repeat (apply List.Forall_cons; [eexists; reflexivity|]). apply List.Forall_nil.
  - reflexivity.
  - exists w'. split; [exact Hrun|].
    unfold cdev_field.
    assert (H3 : 3%positive ∈ ccw_bus w_reloc)
      by (apply (bool_decide_unpack _); vm_compute; exact I).
    assert (H2 : 2%positive ∈ ccw_bus w_reloc)
      by (apply (bool_decide_unpack _); vm_compute; exact I).
    rewrite (Hin 3%positive _ H3 eq_refl), (Hin 2%positive _ H2 eq_refl).
    split; [reflexivity|]. split; [reflexivity|]. exact Htr.
Defined.

(** X2: with a signal pending the purge looks at the first device of the bus
    only: the devices behind it stay as they were, blacklisted or not, and
    [ccw_purge_blacklisted] returns 0 all the same. *)
Theorem purge_stops_on_signal B w p l c :
  ccw_bus w = p :: l →
  devs w !! p = Some c →
  (∀ w1, o_signal_pending B w1 = true) →
  ∃ w', ccw_purge_blacklisted B w = Some (0, w') ∧
    devs w' = (if purge_match B c then <[p := purged c]> (devs w) else devs w) ∧
    trace w' = trace w ++ purge_events B w [p] ∧
    schs w' = schs w.
Proof.
  intros Hbus Hc Hsig.
  destruct (purge_fn_run B p w c Hc) as (w1 & Hrun1 & Hw1).
  exists w1. unfold ccw_purge_blacklisted. mstep. rewrite Hbus.
  cbn [bus_for_each_dev]. rewrite bind_assoc, (bind_Some _ _ _ _ _ Hrun1).
  rewrite Hsig. split; [done|].
  unfold purge_events. cbn [omap list_omap]. rewrite Hc. subst w1.
  destruct (purge_match B c); store_simpl; [done|].
  by rewrite app_nil_r.
Qed.

Lemma purge_stops_on_signal_witness :
  ∃ w', ccw_purge_blacklisted B_black_sig w_reloc = Some (0, w') ∧
    devs w' = devs w_reloc ∧ trace w' = [].
Proof.
  destruct (purge_stops_on_signal B_black_sig w_reloc 1%positive
              [2%positive; 3%positive] _ eq_refl eq_refl)
    as (w' & Hrun & Hd & Htr & _).
  - reflexivity.
  - exists w'. split; [exact Hrun|]. split; [exact Hd|exact Htr].
Defined.

(** ** The online attribute: requests that are not carried out *)

Lemma set_onoff_back c : onoff c = 0 → set_onoff 0 (set_onoff 1 c) = c.
Proof. destruct c. unfold set_onoff. cbn. by intros ->. Qed.

Lemma onoff_released_taken w p c :
  devs w !! p = Some c → onoff c = 0 →
  onoff_released (onoff_taken w p c) p (set_onoff 1 c) = w.
Proof.
  intros Hc H0. unfold onoff_released, onoff_taken, set_devs. cbn.
  rewrite insert_insert_eq, set_onoff_back, insert_id by done. by destruct w.
Qed.

(** X4: a request that [online_store] does not carry out leaves no trace.
    When the driver module cannot be pinned the result is [-EINVAL]; when the
    input is not [force] and does not parse, the result is the parser's
    code; when it parses to a value other than 0 and 1, the result is
    [-EINVAL].  In each case the store is exactly as before: the request
    flag is free again and nothing else was touched. *)
Theorem online_store_request_not_carried_out E p buf count w c :
  devs w !! p = Some c →
  onoff c = 0 →
  let w1 := onoff_taken w p c in
  (¬ module_available E c w1 →
   online_store E p buf count w = Some (- EINVAL, w)) ∧
  (module_available E c w1 →
   strncmp buf force_nl (Z.to_nat count) ≠ 0 →
   ∀ rc i, o_strict_strtoul E buf 16 w1 = (rc, i) →
     (rc ≠ 0 → online_store E p buf count w = Some (rc, w)) ∧
     (rc = 0 → i ≠ 0 → i ≠ 1 →
      online_store E p buf count w = Some (- EINVAL, w))).
Proof.
  intros Hc H0 w1.
  assert (Hback : onoff_released w1 p (set_onoff 1 c) = w)
    by (by apply onoff_released_taken).
  assert (Hc1 : devs w1 !! p = Some (set_onoff 1 c))
    by (unfold w1, onoff_taken; store_simpl; by rewrite lookup_insert_eq).
  split.
  - intros Hmod. unfold online_store. mstep. rewrite H0. cbn [Z.eqb negb].
    mstep. mstep. fold (onoff_taken w p c). fold w1.
    destruct (drv c) as [d|] eqn:Hd.
    + destruct (o_try_module_get E (drv_owner d) w1) eqn:Hget.
      * exfalso. apply Hmod. intros d' Hd'. rewrite Hd in Hd'. congruence.
      * cbn [negb]. mstep.
        transitivity (Some (- EINVAL, onoff_released w1 p (set_onoff 1 c)));
          [reflexivity|by rewrite Hback].
    + exfalso. apply Hmod. intros d' Hd'. rewrite Hd in Hd'. congruence.
  - intros Hmod Hforce rc i Hparse.
    unfold online_store. mstep. rewrite H0. cbn [Z.eqb negb].
    mstep. mstep. fold (onoff_taken w p c). fold w1.
    assert (Hm : match drv c with
                 | Some d => negb (o_try_module_get E (drv_owner d) w1)
                 | None => false
                 end = false).
    { destruct (drv c) as [d|] eqn:Hd; [|done]. by rewrite (Hmod d). }
    rewrite Hm.
    destruct (Z.eqb_spec (strncmp buf force_nl (Z.to_nat count)) 0); [done|].
    rewrite Hparse.
    split.
    + intros Hrc. destruct (Z.eqb_spec rc 0); [done|]. cbn [negb].
      repeat mstep. cbn [drv set_onoff].
      assert (Hmp : ∀ w2, (match drv c with
                   | Some d => module_put (drv_owner d)
                   | None => ret ()
                   end >> cdev_upd p (set_onoff 0) >> ret rc) w2 =
                  (cdev_upd p (set_onoff 0) >> ret rc) w2)
        by (intros w2; by destruct (drv c)).
      rewrite Hmp. mstep.
      transitivity (Some (rc, onoff_released w1 p (set_onoff 1 c)));
        [reflexivity|by rewrite Hback].
    + intros -> Hi0 Hi1. cbn [Z.eqb negb].
      destruct (Z.eqb_spec i 0); [done|]. destruct (Z.eqb_spec i 1); [done|].
      repeat mstep. cbn [drv set_onoff].
      assert (Hmp : ∀ w2, (match drv c with
                   | Some d => module_put (drv_owner d)
                   | None => ret ()
                   end >> cdev_upd p (set_onoff 0) >> ret (- EINVAL)) w2 =
                  (cdev_upd p (set_onoff 0) >> ret (- EINVAL)) w2)
        by (intros w2; by destruct (drv c)).
      rewrite Hmp. mstep.
      transitivity (Some (- EINVAL, onoff_released w1 p (set_onoff 1 c)));
        [reflexivity|by rewrite Hback].
Qed.

Lemma online_store_request_not_carried_out_witness :
  online_store (E_parse 0 7) 1%positive "7" 1 w_on = Some (- EINVAL, w_on).
Proof.
  destruct (online_store_request_not_carried_out (E_parse 0 7) 1%positive "7" 1
              w_on _ eq_refl eq_refl) as [_ H].
  destruct (H (fun _ _ => eq_refl) ltac:(vm_compute; discriminate) 0 7 eq_refl)
    as [_ H7].
  apply H7; [reflexivity|discriminate|discriminate].
Defined.

Lemma set_offline_total E p w c :
  devs w !! p = Some c →
  ∃ rc w' c', ccw_device_set_offline E (Some p) w = Some (rc, w') ∧
              devs w' !! p = Some c'.
Proof.
  intros Hc. destruct (online c) eqn:Hon; [destruct (drv c) as [d|] eqn:Hd|].
  - destruct (set_offline_run E p w c d Hc Hd Hon) as (rc & w' & c' & ? & ? & _).
    eauto.
  - exists (- EINVAL), w, c. split; [|done]. eapply set_offline_einval; eauto.
  - exists (- EINVAL), w, c. split; [|done]. eapply set_offline_einval; eauto.
Qed.

Lemma set_online_total E p w c :
  devs w !! p = Some c →
  ∃ rc w' c', ccw_device_set_online E (Some p) w = Some (rc, w') ∧
              devs w' !! p = Some c'.
Proof.
  intros Hc. destruct (online c) eqn:Hon; [|destruct (drv c) as [d|] eqn:Hd].
  - exists (- EINVAL), w, c. split; [|done]. eapply set_online_einval; eauto.
  - destruct (set_online_run E p w c d Hc Hd Hon) as (rc & w' & c' & ? & ? & _).
    eauto.
  - exists (- EINVAL), w, c. split; [|done]. eapply set_online_einval; eauto.
Qed.

Lemma bind_ext {A B} (m : M A) (f g : A → M B) w :
  (∀ a w', f a w' = g a w') → bind m f w = bind m g w.
Proof. intros H. unfold bind. by destruct (m w) as [[a w']|]. Qed.

Lemma online_store_out p (rc : Z) w :
  (let* c := cdev_get p in
   match drv c with Some d => module_put (drv_owner d) | None => ret tt end >>
   cdev_upd p (set_onoff 0) >> ret rc) w =
  (cdev_upd p (set_onoff 0) >> ret rc) w.
Proof.
  unfold cdev_upd, cdev_get, bind, get_world, lift_opt.
  destruct (devs w !! p) as [c|] eqn:Hc; [|done].
  destruct (drv c); unfold module_put, ret; by rewrite Hc.
Qed.

Lemma online_store_parsed E p buf count w c rc i :
  devs w !! p = Some c →
  onoff c = 0 →
  module_available E c (onoff_taken w p c) →
  strncmp buf force_nl (Z.to_nat count) ≠ 0 →
  o_strict_strtoul E buf 16 (onoff_taken w p c) = (rc, i) →
  online_store E p buf count w =
    (let* rc :=
       if negb (rc =? 0) then ret rc
       else if i =? 0 then online_store_handle_offline E p >> ret (to_int count)
       else if i =? 1 then
         let* rc := online_store_handle_online E p 0 in
         if rc =? 0 then ret (to_int count) else ret rc
       else ret (- EINVAL) in
     cdev_upd p (set_onoff 0) >> ret rc) (onoff_taken w p c).
Proof.
  intros Hc H0 Hmod Hforce Hparse.
  unfold online_store. mstep. rewrite H0. cbn [Z.eqb negb].
  mstep. mstep. fold (onoff_taken w p c).
  assert (Hm : match drv c with
               | Some d => negb (o_try_module_get E (drv_owner d) (onoff_taken w p c))
               | None => false
               end = false).
  { destruct (drv c) as [d|] eqn:Hd; [|done]. by rewrite (Hmod d). }
  rewrite Hm.
  destruct (Z.eqb_spec (strncmp buf force_nl (Z.to_nat count)) 0); [done|].
  rewrite Hparse. apply bind_ext. intros r w2. apply online_store_out.
Qed.

(** X5: writing 0 to the online attribute of a device that is not
    disconnected and whose driver has a [set_offline] callback runs
    [ccw_device_set_offline] and reports the number of bytes written,
    whatever that call returned: its code is dropped.  The number is
    reported as the [int] it is kept in, [to_int count], which is [count]
    itself below 2^31.  The request flag is free again afterwards. *)
Theorem online_store_offline_result_dropped E p buf count w c d :
  devs w !! p = Some c →
  onoff c = 0 →
  module_available E c (onoff_taken w p c) →
  strncmp buf force_nl (Z.to_nat count) ≠ 0 →
  o_strict_strtoul E buf 16 (onoff_taken w p c) = (0, 0) →
  state c ≠ DEV_STATE_DISCONNECTED →
  drv c = Some d →
  is_Some (drv_set_offline d) →
  ∃ rc0 w2 c2,
    ccw_device_set_offline E (Some p) (onoff_taken w p c) = Some (rc0, w2) ∧
    devs w2 !! p = Some c2 ∧
    online_store E p buf count w = Some (to_int count, onoff_released w2 p c2).
Proof.
  intros Hc H0 Hmod Hforce Hparse Hst Hd Hoff.
  assert (Hc1 : devs (onoff_taken w p c) !! p = Some (set_onoff 1 c))
    by (unfold onoff_taken; store_simpl; by rewrite lookup_insert_eq).
  destruct (set_offline_total E p _ _ Hc1) as (rc0 & w2 & c2 & Hrun & Hc2).
  exists rc0, w2, c2. split; [done|]. split; [done|].
  rewrite (online_store_parsed E p buf count w c 0 0) by done.
  cbn [Z.eqb negb]. unfold online_store_handle_offline.
  mstep. cbn [state set_onoff drv].
  rewrite bool_decide_eq_false_2 by done. rewrite Hd.
  rewrite bool_decide_eq_true_2 by done.
  rewrite !bind_assoc, (bind_Some _ _ _ _ _ Hrun). repeat mstep. done.
Qed.

Lemma online_store_offline_result_dropped_witness :
  ∃ w2, online_store (E_parse 0 0) 1%positive "0" 1 w_stay = Some (1, w2) ∧
        cdev_field online w2 1%positive = Some true.
Proof.
  destruct (online_store_offline_result_dropped (E_parse 0 0) 1%positive "0" 1
              w_stay _ drv_stay eq_refl eq_refl)
    as (rc0 & w2 & c2 & Hoff & Hc2 & Hrun).
  - intros d _. reflexivity.
  - vm_compute. discriminate.
  - reflexivity.
  - discriminate.
  - reflexivity.
  - eexists. reflexivity.
  - eexists. split; [exact Hrun|].
    revert Hoff Hc2. vm_compute. intros [= <- <-] [= <-]. reflexivity.
Defined.

(** X6: writing 1 to the online attribute of an identified device whose
    driver has a [set_online] callback runs [ccw_device_set_online] and
    reports the number of bytes written, whatever that call returned: its
    code is dropped.  The number is reported as the [int] it is kept in,
    [to_int count], which is [count] itself below 2^31.  The request flag
    is free again afterwards. *)
Theorem online_store_online_result_dropped E p buf count w c d :
  devs w !! p = Some c →
  onoff c = 0 →
  module_available E c (onoff_taken w p c) →
  strncmp buf force_nl (Z.to_nat count) ≠ 0 →
  o_strict_strtoul E buf 16 (onoff_taken w p c) = (0, 1) →
  cu_type c ≠ 0 →
  drv c = Some d →
  is_Some (drv_set_online d) →
  ∃ rc0 w2 c2,
    ccw_device_set_online E (Some p) (onoff_taken w p c) = Some (rc0, w2) ∧
    devs w2 !! p = Some c2 ∧
    online_store E p buf count w = Some (to_int count, onoff_released w2 p c2).
Proof.
  intros Hc H0 Hmod Hforce Hparse Hcu Hd Hon.
  assert (Hc1 : devs (onoff_taken w p c) !! p = Some (set_onoff 1 c))
    by (unfold onoff_taken; store_simpl; by rewrite lookup_insert_eq).
  destruct (set_online_total E p _ _ Hc1) as (rc0 & w2 & c2 & Hrun & Hc2).
  exists rc0, w2, c2. split; [done|]. split; [done|].
  rewrite (online_store_parsed E p buf count w c 0 1) by done.
  cbn [Z.eqb Pos.eqb negb].
  unfold online_store_handle_online, online_store_recog_and_online.
  mstep. cbn [cu_type set_onoff].
  destruct (Z.eqb_spec (cu_type c) 0); [done|].
  mstep. cbn [Z.eqb negb]. mstep. cbn [drv set_onoff]. rewrite Hd.
  rewrite bool_decide_eq_true_2 by done.
  rewrite !bind_assoc, (bind_Some _ _ _ _ _ Hrun). repeat mstep.
  rewrite ?bind_assoc. cbn [Z.eqb negb]. repeat mstep. cbn [andb].
  repeat mstep. cbn [Z.eqb]. repeat mstep. done.
Qed.

Lemma online_store_online_result_dropped_witness :
  ∃ w2, online_store E0 1%positive "1" 1 w_off_rej = Some (1, w2) ∧
        cdev_field online w2 1%positive = Some false.
Proof.
  destruct (online_store_online_result_dropped E0 1%positive "1" 1
              w_off_rej _ drv_rej eq_refl eq_refl)
    as (rc0 & w2 & c2 & Hon & Hc2 & Hrun).
  - intros d _. reflexivity.
  - vm_compute. discriminate.
  - reflexivity.
  - discriminate.
  - reflexivity.
  - eexists. reflexivity.
  - eexists. split; [exact Hrun|].
    revert Hon Hc2. vm_compute. intros [= <- <-] [= <-]. reflexivity.
Defined.

Lemma ccw_device_remove_disconnected_run p w c sch :
  devs w !! p = Some c →
  parent c = Some sch →
  ccw_device_remove_disconnected p w =
    Some (tt, set_trace (trace w ++ [E_queue_work p (removal_work w sch)])
                (set_devs (<[p := thrown_away w sch c]> (devs w)) w)).
Proof.
  intros Hc Hp.
  unfold ccw_device_remove_disconnected, get_device, ccw_device_is_orphan,
    sch_is_pseudo_sch, PREPARE_WORK, queue_work, thrown_away, removal_work.
  repeat mstep'. cbn [negb]. repeat mstep'. cbn [parent set_kref]. rewrite Hp.
  repeat mstep'.
  destruct (bool_decide (sch = pseudo_subchannel w)); repeat mstep';
    cbn [kick_work set_kick_work]; repeat mstep'; reflexivity.
Qed.

(** X7: writing 0 to the online attribute of a disconnected device throws
    the device away instead of setting it offline.  The driver is not
    asked and the online flag stays; the device gets one more reference,
    the removal work is queued (for an orphan, which is marked not
    operational, the work that removes the orphan; otherwise the work that
    unregisters the subchannel), and the number of bytes written is
    reported, as the [int] it is kept in. *)
Theorem online_store_offline_disconnected E p buf count w c sch :
  devs w !! p = Some c →
  onoff c = 0 →
  module_available E c (onoff_taken w p c) →
  strncmp buf force_nl (Z.to_nat count) ≠ 0 →
  o_strict_strtoul E buf 16 (onoff_taken w p c) = (0, 0) →
  state c = DEV_STATE_DISCONNECTED →
  parent c = Some sch →
  ∃ w',
    online_store E p buf count w = Some (to_int count, w') ∧
    devs w' = <[p := thrown_away w sch c]> (devs w) ∧
    schs w' = schs w ∧
    trace w' = trace w ++ [E_queue_work p (removal_work w sch)] ∧
    (online (thrown_away w sch c) = online c ∧
     drv (thrown_away w sch c) = drv c ∧
     kref (thrown_away w sch c) = kref c + 1 ∧
     onoff (thrown_away w sch c) = 0 ∧
     state (thrown_away w sch c) =
       if bool_decide (sch = pseudo_subchannel w)
       then DEV_STATE_NOT_OPER else DEV_STATE_DISCONNECTED).
Proof.
  intros Hc H0 Hmod Hforce Hparse Hst Hp.
  assert (Hc1 : devs (onoff_taken w p c) !! p = Some (set_onoff 1 c))
    by (unfold onoff_taken; store_simpl; by rewrite lookup_insert_eq).
  assert (Hta : set_onoff 0 (thrown_away (onoff_taken w p c) sch (set_onoff 1 c)) =
                thrown_away w sch c).
  { unfold thrown_away, removal_work, onoff_taken. store_simpl.
    destruct c; cbn in H0; subst.
    by destruct (bool_decide (sch = pseudo_subchannel w)). }
  exists (set_trace (trace w ++ [E_queue_work p (removal_work w sch)])
            (set_devs (<[p := thrown_away w sch c]> (devs w)) w)).
  split; [|split; [|split; [|split]]]; store_simpl.
  - rewrite (online_store_parsed E p buf count w c 0 0) by done.
    cbn [Z.eqb negb]. unfold online_store_handle_offline.
    mstep. cbn [state set_onoff]. rewrite bool_decide_eq_true_2 by done.
    rewrite ?bind_assoc.
    rewrite (bind_Some _ _ _ _ _
               (ccw_device_remove_disconnected_run p _ _ sch Hc1 Hp)).
    repeat mstep'. rewrite Hta. unfold onoff_taken, removal_work. store_norm.
    reflexivity.
  - done.
  - done.
  - done.
  - unfold thrown_away. destruct (bool_decide (sch = pseudo_subchannel w));
      destruct c; cbn in *; by subst.
Qed.

Lemma online_store_offline_disconnected_witness :
  ∃ w', online_store (E_parse 0 0) 1%positive "0" 1 w_disc_on = Some (1, w') ∧
        cdev_field online w' 1%positive = Some true ∧
        cdev_field kref w' 1%positive = Some 3 ∧
        trace w' = [E_queue_work 1%positive W_ccw_device_call_sch_unregister].
Proof.
  destruct (online_store_offline_disconnected (E_parse 0 0) 1%positive "0" 1
              w_disc_on _ 10%positive eq_refl eq_refl)
    as (w' & Hrun & Hd & _ & Htr & _).
  - intros d _. reflexivity.
  - vm_compute. discriminate.
  - reflexivity.
  - reflexivity.
  - reflexivity.
  - exists w'. split; [exact Hrun|]. unfold cdev_field. rewrite Hd, Htr.
    split; [reflexivity|]. split; reflexivity.
Defined.

(** ** What a request on one device leaves alone *)

Lemma binding_kept_refl c : binding_kept c c.
Proof. by repeat split. Qed.

Lemma only_dev_refl p c w : devs w !! p = Some c → only_dev p c w w.
Proof.
  intros Hc. repeat split; try done. exists c. split; [done|].
  apply binding_kept_refl.
Qed.

Section frame.
Context (p : dev_ptr) (c0 : ccw_device) (w0 : world).
Local Abbreviation J := (only_dev p c0 w0).

Lemma inv_ret {A} (a : A) : inv_step J (ret a).
Proof. intros w Hw. by exists a, w. Qed.

Lemma inv_bind {A B} (m : M A) (f : A → M B) :
  inv_step J m → (∀ a, inv_step J (f a)) → inv_step J (bind m f).
Proof.
  intros Hm Hf w Hw. destruct (Hm w Hw) as (a & w1 & Hrun & Hw1).
  destruct (Hf a w1 Hw1) as (b & w2 & Hrun2 & Hw2).
  exists b, w2. by rewrite (bind_Some _ _ _ _ _ Hrun).
Qed.

Lemma inv_get_world {B} (f : world → M B) :
  (∀ w, inv_step J (f w)) → inv_step J (bind get_world f).
Proof. intros Hf w Hw. rewrite bind_get_world. by apply Hf. Qed.

Lemma inv_cdev_get {B} (f : ccw_device → M B) :
  (∀ c, binding_kept c0 c → inv_step J (f c)) →
  inv_step J (bind (cdev_get p) f).
Proof.
  intros Hf w Hw. pose proof Hw as (_ & _ & _ & _ & _ & _ & c & Hc & Hk).
  rewrite (bind_cdev_get _ _ _ _ Hc). by apply (Hf c).
Qed.

Lemma inv_cdev_upd (g : ccw_device → ccw_device) :
  (∀ c, binding_kept c (g c)) → inv_step J (cdev_upd p g).
Proof.
  intros Hg w (Hs & Hb & Hps & Hr & Hn & Hq & c & Hc & Hk).
  exists tt. eexists. split; [by apply cdev_upd_run|].
  repeat split; store_simpl; try done; try apply Hr.
  - intros q Hne. rewrite lookup_insert_ne by done. by apply Hq.
  - exists (g c). split; [by rewrite lookup_insert_eq|].
    destruct (Hg c) as (? & ? & ? & ? & ? & ?).
    destruct Hk as (? & ? & ? & ? & ? & ?).
    repeat split; congruence.
Qed.

Lemma inv_log e : inv_step J (log e).
Proof.
  intros w (Hs & Hb & Hps & Hr & Hn & Hq & Hc).
  exists tt. eexists. split; [reflexivity|]. by repeat split; try apply Hr.
Qed.

Lemma inv_lift_opt {A B} (a : A) (f : A → M B) :
  inv_step J (f a) → inv_step J (bind (lift_opt (Some a)) f).
Proof. intros Hf w Hw. rewrite bind_lift_opt. by apply Hf. Qed.
End frame.

Ltac inv_field := intros []; unfold binding_kept; by repeat split.

Ltac inv_tac1 :=
  lazymatch goal with
  | |- inv_step _ (ret _) => apply inv_ret
  | |- inv_step _ (log _) => apply inv_log
  | |- inv_step _ (cdev_upd _ _) => apply inv_cdev_upd; inv_field
  | |- inv_step _ (bind (cdev_get _) _) => apply inv_cdev_get; intros ? ?
  | |- inv_step _ (bind get_world _) => apply inv_get_world; intros ?
  | |- inv_step _ (bind (lift_opt (Some _)) _) => apply inv_lift_opt
  | |- inv_step _ (bind _ _) => apply inv_bind; [|intros ?]
  | |- inv_step _ (if ?b then _ else _) => destruct b
  | |- inv_step _ (match ?x with (_, _) => _ end) => destruct x
  end.

Ltac inv_tac := repeat inv_tac1.

Section frame_calls.
Context (p : dev_ptr) (c0 : ccw_device) (w0 : world) (E : collab).
Local Abbreviation J := (only_dev p c0 w0).

Lemma inv_get_device : inv_step J (get_device (cdev_dev p)).
Proof. cbn [get_device]. inv_tac. Qed.

Lemma inv_put_device : inv_step J (put_device (cdev_dev p)).
Proof. cbn [put_device]. inv_tac. Qed.

Lemma inv_ccw_device_online : inv_step J (ccw_device_online E p).
Proof. unfold ccw_device_online. inv_tac. Qed.

Lemma inv_ccw_device_offline : inv_step J (ccw_device_offline E p).
Proof. unfold ccw_device_offline. inv_tac. Qed.

Lemma inv_ccw_device_recognition : inv_step J (ccw_device_recognition E p).
Proof. unfold ccw_device_recognition. inv_tac. Qed.

Lemma inv_ccw_device_stlck : inv_step J (ccw_device_stlck E p).
Proof. unfold ccw_device_stlck. inv_tac. Qed.

Lemma inv_wait_event_final_state : inv_step J (wait_event_final_state E p).
Proof. unfold wait_event_final_state. inv_tac. Qed.

Lemma inv_wait_event_recog_done : inv_step J (wait_event_recog_done E p).
Proof. unfold wait_event_recog_done. inv_tac. Qed.

Lemma inv_dev_fsm_event ev : inv_step J (dev_fsm_event E p ev).
Proof. unfold dev_fsm_event. inv_tac. Qed.

Lemma inv_ccw_device_set_offline : inv_step J (ccw_device_set_offline E (Some p)).
Proof.
  unfold ccw_device_set_offline. apply inv_cdev_get. intros c Hk.
  destruct (online c); [|apply inv_ret].
  destruct (drv c) as [d|]; [|apply inv_ret].
  apply inv_bind; [destruct (drv_set_offline d); apply inv_ret|].
  intros ret0. destruct (negb (ret0 =? 0)); [apply inv_ret|].
  apply inv_bind; [inv_tac|]. intros _.
  apply inv_bind; [apply inv_ccw_device_offline|]. intros rc.
  destruct (rc =? - ENODEV).
  - apply inv_cdev_get. intros c1 Hk1.
    apply inv_bind.
    { destruct (negb _); [|apply inv_ret].
      apply inv_bind; [inv_tac|]. intros _. apply inv_dev_fsm_event. }
    intros _. apply inv_bind; [apply inv_put_device|]. intros _. apply inv_ret.
  - destruct (rc =? 0).
    + apply inv_bind; [apply inv_wait_event_final_state|]. intros _.
      apply inv_bind; [apply inv_put_device|]. intros _. apply inv_ret.
    + inv_tac.
Qed.

Lemma inv_ccw_device_set_online : inv_step J (ccw_device_set_online E (Some p)).
Proof.
  unfold ccw_device_set_online. apply inv_cdev_get. intros c (Hd0 & _).
  destruct (online c); [apply inv_ret|].
  destruct (drv c) as [d|]; [|apply inv_ret].
  apply inv_bind; [apply inv_get_device|]. intros got.
  destruct (negb got); [apply inv_ret|].
  apply inv_bind; [apply inv_ccw_device_online|]. intros rc.
  destruct (negb (rc =? 0)).
  { apply inv_bind; [apply inv_put_device|]. intros _. apply inv_ret. }
  apply inv_bind; [apply inv_wait_event_final_state|]. intros _.
  apply inv_cdev_get. intros c1 (Hd1 & _).
  destruct (negb _).
  { apply inv_bind; [apply inv_put_device|]. intros _. apply inv_ret. }
  rewrite Hd1, <- Hd0. apply inv_lift_opt.
  destruct (match drv_set_online d with Some _ => _ | None => _ end).
  { inv_tac. }
  apply inv_bind; [apply inv_ccw_device_offline|]. intros rc1.
  apply inv_bind.
  { destruct (rc1 =? 0); [apply inv_wait_event_final_state|apply inv_ret]. }
  intros _. apply inv_bind; [apply inv_put_device|]. intros _. apply inv_ret.
Qed.
End frame_calls.

Lemma only_dev_trace p c0 w0 w t :
  only_dev p c0 w0 w → only_dev p c0 w0 (set_trace t w).
Proof.
  intros (Hs & Hb & Hps & Hr & Hn & Hq & Hc).
  by repeat split; try apply Hr.
Qed.

Lemma only_dev_upd p c0 w0 w c c' :
  only_dev p c0 w0 w →
  devs w !! p = Some c →
  binding_kept c c' →
  only_dev p c0 w0 (set_devs (<[p := c']> (devs w)) w).
Proof.
  intros (Hs & Hb & Hps & Hr & Hn & Hq & c1 & Hc1 & Hk1) Hc Hk.
  assert (c1 = c) as -> by congruence.
  repeat split; store_simpl; try done; try apply Hr.
  - intros q Hne. rewrite lookup_insert_ne by done. by apply Hq.
  - exists c'. split; [by rewrite lookup_insert_eq|].
    destruct Hk as (? & ? & ? & ? & ? & ?).
    destruct Hk1 as (? & ? & ? & ? & ? & ?).
    repeat split; congruence.
Qed.

Ltac inv_call :=
  lazymatch goal with
  | |- inv_step _ (get_device (cdev_dev _)) => apply inv_get_device
  | |- inv_step _ (put_device (cdev_dev _)) => apply inv_put_device
  | |- inv_step _ (ccw_device_online _ _) => apply inv_ccw_device_online
  | |- inv_step _ (ccw_device_offline _ _) => apply inv_ccw_device_offline
  | |- inv_step _ (ccw_device_recognition _ _) => apply inv_ccw_device_recognition
  | |- inv_step _ (ccw_device_stlck _ _) => apply inv_ccw_device_stlck
  | |- inv_step _ (wait_event_final_state _ _) => apply inv_wait_event_final_state
  | |- inv_step _ (wait_event_recog_done _ _) => apply inv_wait_event_recog_done
  | |- inv_step _ (dev_fsm_event _ _ _) => apply inv_dev_fsm_event
  | |- inv_step _ (ccw_device_set_online _ (Some _)) =>
      apply inv_ccw_device_set_online
  | |- inv_step _ (ccw_device_set_offline _ (Some _)) =>
      apply inv_ccw_device_set_offline
  | |- inv_step _ (module_put _) => apply inv_ret
  | |- inv_step _ (match ?x with Some _ => _ | None => _ end) => destruct x
  | _ => inv_tac1
  end.

Section frame_online_store.
Context (p : dev_ptr) (c0 : ccw_device) (w0 : world) (E : collab).
Context (Hparent : is_Some (parent c0)).
Local Abbreviation J := (only_dev p c0 w0).

Lemma inv_ccw_device_remove_disconnected :
  inv_step J (ccw_device_remove_disconnected p).
Proof.
  intros w Hw. pose proof Hw as (_ & _ & _ & _ & _ & _ & c & Hc & Hk).
  destruct Hparent as [sch Hsch].
  assert (Hp : parent c = Some sch) by (destruct Hk as (_ & -> & _); done).
  exists tt. eexists. split; [by eapply ccw_device_remove_disconnected_run|].
  apply only_dev_trace. eapply only_dev_upd; [done..|].
  unfold thrown_away. destruct (bool_decide _); by destruct c.
Qed.

Lemma inv_online_store_handle_offline :
  inv_step J (online_store_handle_offline E p).
Proof.
  unfold online_store_handle_offline. apply inv_cdev_get. intros c Hk.
  destruct (bool_decide _); [apply inv_ccw_device_remove_disconnected|].
  repeat inv_call.
Qed.

Lemma inv_online_store_recog_and_online :
  inv_step J (online_store_recog_and_online E p).
Proof. unfold online_store_recog_and_online. repeat inv_call. Qed.

Lemma inv_online_store_handle_online force :
  inv_step J (online_store_handle_online E p force).
Proof.
  unfold online_store_handle_online.
  apply inv_bind; [apply inv_online_store_recog_and_online|]. intros rc.
  destruct (negb (rc =? 0)); [apply inv_ret|].
  apply inv_cdev_get. intros c Hk.
  destruct (_ && _); [|apply inv_ret].
  apply inv_bind; [apply inv_ccw_device_stlck|]. intros rc1.
  destruct (negb (rc1 =? 0)); [apply inv_ret|].
  apply inv_cdev_get. intros c1 Hk1.
  apply inv_bind; [repeat inv_call|]. intros _.
  apply inv_bind; [apply inv_online_store_recog_and_online|]. intros _.
  apply inv_ret.
Qed.

Lemma inv_online_store buf count : inv_step J (online_store E p buf count).
Proof.
  unfold online_store. apply inv_cdev_get. intros c Hk.
  destruct (negb (onoff c =? 0)); [apply inv_ret|].
  apply inv_bind; [repeat inv_call|]. intros _.
  apply inv_get_world. intros w.
  destruct (match drv c with Some _ => _ | None => _ end); [repeat inv_call|].
  destruct (if _ =? 0 then _ else _) as [[force rc] i].
  apply inv_bind.
  { destruct (negb (rc =? 0)); [apply inv_ret|].
    destruct (i =? 0).
    { apply inv_bind; [apply inv_online_store_handle_offline|]. intros _.
      apply inv_ret. }
    destruct (i =? 1); [|apply inv_ret].
    apply inv_bind; [apply inv_online_store_handle_online|]. intros rc1.
    destruct (rc1 =? 0); apply inv_ret. }
  intros rc1. repeat inv_call.
Qed.
End frame_online_store.

Lemma inv_release_end {A} p c0 w0 (m : M A) (g : A → Z) w :
  inv_step (only_dev p c0 w0) m →
  only_dev p c0 w0 w →
  ∃ rc w' c',
    (let* a := m in cdev_upd p (set_onoff 0) >> ret (g a)) w = Some (rc, w') ∧
    only_dev p c0 w0 w' ∧ devs w' !! p = Some c' ∧ onoff c' = 0.
Proof.
  intros Hm Hw. destruct (Hm w Hw) as (a & w1 & Hrun & Hw1).
  pose proof Hw1 as (_ & _ & _ & _ & _ & _ & c1 & Hc1 & Hk1).
  exists (g a), (set_devs (<[p := set_onoff 0 c1]> (devs w1)) w1),
         (set_onoff 0 c1).
  split; [|split; [|split]].
  - rewrite (bind_Some _ _ _ _ _ Hrun). by mstep.
  - eapply only_dev_upd; [done..|]. by destruct c1.
  - store_simpl. by rewrite lookup_insert_eq.
  - by destruct c1.
Qed.

(** X8: [online_store] always returns for a device that has a parent, and
    whatever was written, it touches nothing but that device: every
    subchannel, every other device, the bus list and the recovery state
    are as before, the device keeps its driver, its parent and its
    identity, and its request flag ends as it began, so a completed call
    never leaves the flag taken. *)
Theorem online_store_touches_one_device E p buf count w c :
  devs w !! p = Some c →
  is_Some (parent c) →
  ∃ rc w' c',
    online_store E p buf count w = Some (rc, w') ∧
    only_dev p c w w' ∧
    devs w' !! p = Some c' ∧
    onoff c' = onoff c.
Proof.
  intros Hc Hpar.
  destruct (Z.eqb_spec (onoff c) 0) as [H0|H0].
  - assert (Hw1 : only_dev p c w (onoff_taken w p c)).
    { unfold onoff_taken.
      eapply only_dev_upd; [by apply only_dev_refl|done|]. by destruct c. }
    unfold online_store. mstep. rewrite H0. cbn [Z.eqb negb].
    mstep. mstep. fold (onoff_taken w p c).
    destruct (match drv c with Some _ => _ | None => _ end).
    + destruct (inv_release_end p c w (ret tt) (fun _ => - EINVAL) _
                  (inv_ret _ _ _ _) Hw1) as (rc & w' & c' & Hrun & ? & ? & ?).
      rewrite bind_ret in Hrun. by exists rc, w', c'.
    + destruct (if _ =? 0 then _ else _) as [[force rc] i].
      match goal with |- context [bind ?m _ (onoff_taken w p c)] =>
        destruct (inv_release_end p c w m (fun a => a) (onoff_taken w p c))
          as (rc1 & w' & c' & Hrun & ? & ? & ?)
      end.
      * destruct (negb (rc =? 0)); [apply inv_ret|].
        destruct (i =? 0).
        { apply inv_bind; [by apply inv_online_store_handle_offline|].
          intros _. apply inv_ret. }
        destruct (i =? 1); [|apply inv_ret].
        apply inv_bind; [by apply inv_online_store_handle_online|]. intros r.
        destruct (r =? 0); apply inv_ret.
      * done.
      * exists rc1, w', c'. split; [|done].
        rewrite <- Hrun. apply bind_ext. intros a w2. apply online_store_out.
  - exists (- EAGAIN), w, c. split; [|split; [by apply only_dev_refl|done]].
    unfold online_store. mstep. by destruct (Z.eqb_spec (onoff c) 0).
Qed.

Lemma online_store_touches_one_device_witness :
  ∃ rc w', online_store E0 1%positive force_nl 6 w_off_rej = Some (rc, w') ∧
           schs w' = schs w_off_rej ∧
           cdev_field onoff w' 1%positive = Some 0.
Proof.
  destruct (online_store_touches_one_device E0 1%positive force_nl 6 w_off_rej _
              eq_refl (ex_intro _ 10%positive eq_refl))
    as (rc & w' & c' & Hrun & (Hs & _) & Hc' & Hon).
  exists rc, w'. split; [exact Hrun|]. split; [exact Hs|].
  unfold cdev_field. rewrite Hc'. cbn. f_equal. exact Hon.
Defined.

(** ** Online and offline as a pair *)

(** X9: setting a device online and then offline again gives back the
    reference that was taken.  After a successful [ccw_device_set_online],
    [ccw_device_set_offline] returns; when it returns 0 the device is
    offline with the reference count it had before it went online; when it
    fails with a code other than [-ENODEV] the device is still online and
    still holds the online reference.  Nothing but the device itself is
    touched on the way. *)
Theorem online_then_offline_restores_references E p w c d :
  devs w !! p = Some c →
  drv c = Some d →
  online c = false →
  ∃ rc1 w1,
    ccw_device_set_online E (Some p) w = Some (rc1, w1) ∧
    (rc1 = 0 →
     ∃ rc2 w2 c2,
       ccw_device_set_offline E (Some p) w1 = Some (rc2, w2) ∧
       devs w2 !! p = Some c2 ∧
       only_dev p c w w2 ∧
       (rc2 = 0 → online c2 = false ∧ kref c2 = kref c) ∧
       (rc2 ≠ 0 → rc2 ≠ - ENODEV → online c2 = true ∧ kref c2 = kref c + 1)).
Proof.
  intros Hc Hd Hoff.
  destruct (set_online_run E p w c d Hc Hd Hoff)
    as (rc1 & w1 & c1 & Hrun1 & Hc1 & _ & Hok & _).
  exists rc1, w1. split; [done|]. intros ->.
  destruct Hok as [Hon1 Hk1]; [done|].
  destruct (inv_ccw_device_set_online p c w E w (only_dev_refl _ _ _ Hc))
    as (a & w1' & Hrun1' & Hw1).
  rewrite Hrun1 in Hrun1'. injection Hrun1' as <- <-.
  assert (Hd1 : drv c1 = Some d).
  { destruct Hw1 as (_ & _ & _ & _ & _ & _ & c1' & Hc1' & Hd1 & _).
    assert (c1' = c1) as -> by congruence. congruence. }
  destruct (set_offline_run E p w1 c1 d Hc1 Hd1 Hon1)
    as (rc2 & w2 & c2 & Hrun2 & Hc2 & Hrej & Hacc).
  destruct (inv_ccw_device_set_offline p c w E w1 Hw1)
    as (a & w2' & Hrun2' & Hw2).
  rewrite Hrun2 in Hrun2'. injection Hrun2' as <- <-.
  exists rc2, w2, c2. split; [done|]. split; [done|]. split; [done|].
  destruct (drv_set_offline d) as [f|] eqn:Hf.
  - destruct (Z.eq_dec (f p) 0) as [Hfp|Hfp].
    + destruct Hacc as (-> & Hgone & Hzero & Hother); [right; eauto|].
      split; [intros H0; destruct (Hzero H0); split; [done|lia]|].
      intros H1 H2. destruct (Hother H1 H2). split; [done|lia].
    + destruct (Hrej f eq_refl Hfp) as [-> ->].
      assert (c2 = c1) as -> by congruence.
      split; [done|]. intros _ _. split; [done|lia].
  - destruct Hacc as (-> & Hgone & Hzero & Hother); [by left|].
    split; [intros H0; destruct (Hzero H0); split; [done|lia]|].
    intros H1 H2. destruct (Hother H1 H2). split; [done|lia].
Qed.

Lemma online_then_offline_restores_references_witness :
  ∃ w1 w2,
    ccw_device_set_online E0 (Some 1%positive) w_disc = Some (0, w1) ∧
    ccw_device_set_offline E0 (Some 1%positive) w1 = Some (0, w2) ∧
    cdev_field kref w2 1%positive = cdev_field kref w_disc 1%positive.
Proof.
  destruct (online_then_offline_restores_references E0 1%positive w_disc _ drv0
              eq_refl eq_refl eq_refl) as (rc1 & w1 & Hrun1 & Hrest).
  match type of Hrun1 with ?run = _ =>
    assert (Hs1 : run = Some (0, store_after (ccw_device_set_online E0
                                                (Some 1%positive)) w_disc))
      by (vm_compute; reflexivity)
  end.
  assert (Hrc1 : rc1 = 0) by congruence.
  assert (Hw1 : w1 = store_after (ccw_device_set_online E0 (Some 1%positive)) w_disc)
    by congruence.
  destruct (Hrest Hrc1) as (rc2 & w2 & c2 & Hrun2 & Hc2 & _ & Hzero & _).
  rewrite Hw1 in Hrun2.
  match type of Hrun2 with ?run = _ =>
    assert (Hs2 : run = Some (0, store_after (ccw_device_set_offline E0
                                                (Some 1%positive))
                                   (store_after (ccw_device_set_online E0
                                                   (Some 1%positive)) w_disc)))
      by (vm_compute; reflexivity)
  end.
  assert (Hrc2 : rc2 = 0) by congruence.
  rewrite <- Hw1 in Hrun2.
  exists w1, w2. rewrite <- Hrc1 at 1. split; [exact Hrun1|].
  rewrite <- Hrc2 at 1. split; [exact Hrun2|].
  unfold cdev_field. rewrite Hc2.
  destruct (Hzero Hrc2) as [_ Hk]. cbn [fmap option_fmap option_map].
  rewrite Hk. reflexivity.
Defined.

(** ** Driver binding *)

Lemma ccw_device_remove_run E remove p w c d w1 c1 :
  devs w !! p = Some c →
  drv c = Some d →
  match remove with Some f => f p | None => ret tt end w = Some (tt, w1) →
  devs w1 !! p = Some c1 →
  ∃ w' c',
    ccw_device_remove E remove p w = Some (0, w') ∧
    devs w' !! p = Some c' ∧
    (online c' = false ∧ drv c' = None ∧ timer c' = false ∧
     kref c' = (if online c1 then kref c1 - 1 else kref c1)) ∧
    ((∀ q, q ≠ p → devs w' !! q = devs w1 !! q) ∧ schs w' = schs w1) ∧
    ccw_device_set_online E (Some p) w' = Some (- EINVAL, w') ∧
    ccw_device_set_offline E (Some p) w' = Some (- EINVAL, w').
Proof.
  intros Hc Hd Hcb Hc1.
  assert (Hend : ∀ w2 c2,
    devs w2 !! p = Some c2 → online c2 = false →
    (∀ q, q ≠ p → devs w2 !! q = devs w1 !! q) → schs w2 = schs w1 →
    ∃ w' c',
      (ccw_device_set_timeout_0 p >> cdev_upd p (set_drv None) >> ret 0) w2 =
        Some (0, w') ∧
      devs w' !! p = Some c' ∧
      (online c' = false ∧ drv c' = None ∧ timer c' = false ∧ kref c' = kref c2) ∧
      ((∀ q, q ≠ p → devs w' !! q = devs w1 !! q) ∧ schs w' = schs w1) ∧
      ccw_device_set_online E (Some p) w' = Some (- EINVAL, w') ∧
      ccw_device_set_offline E (Some p) w' = Some (- EINVAL, w')).
  { intros w2 c2 Hc2 Hon2 Hq2 Hs2. unfold ccw_device_set_timeout_0.
    repeat mstep'. eexists _, _. split; [reflexivity|]. store_simpl.
    split; [apply lookup_insert_eq|].
    split; [by destruct c2|].
    split; [split; [|done]; intros q Hq; rewrite lookup_insert_ne by done; auto|].
    split; [eapply set_online_einval|eapply set_offline_einval];
      store_simpl; try apply lookup_insert_eq; by right. }
  unfold ccw_device_remove. mstep. rewrite Hd. mstep.
  rewrite ?bind_assoc, (bind_Some _ _ _ _ _ Hcb). mstep.
  destruct (online c1) eqn:Hon1.
  - unfold ccw_device_offline. repeat mstep'.
    destruct (o_ccw_device_offline E p _) as [rc st].
    repeat mstep'.
    destruct (rc =? 0).
    + mwait. store_norm. unfold put_device. repeat mstep'.
      edestruct Hend as (w' & c' & Hrun & Hl & (? & ? & ? & Hk) & ?);
        [| | | |exists w', c'; split; [exact Hrun|]; split; [exact Hl|];
                split; [|done]; repeat split; try done; rewrite Hk];
        store_simpl; try apply lookup_insert_eq; try done;
        try (by destruct c1);
        try (intros q Hq; by rewrite lookup_insert_ne).
    + unfold put_device. repeat mstep'.
      edestruct Hend as (w' & c' & Hrun & Hl & (? & ? & ? & Hk) & ?);
        [| | | |exists w', c'; split; [exact Hrun|]; split; [exact Hl|];
                split; [|done]; repeat split; try done; rewrite Hk];
        store_simpl; try apply lookup_insert_eq; try done;
        try (by destruct c1);
        try (intros q Hq; by rewrite lookup_insert_ne).
  - mstep.
    destruct (Hend w1 c1) as (w' & c' & Hrun & Hl & (? & ? & ? & Hk) & ?);
      try done.
    exists w', c'. split; [exact Hrun|]. split; [exact Hl|].
    split; [|done]. repeat split; try done.
Qed.

(** X10: unbinding cannot fail.  [ccw_device_remove] returns 0 whatever the
    state machine answers to the offline request; afterwards the device is
    offline, has no driver and no pending timeout, and the reference taken
    when it went online has been given up if it was online; other devices
    and all subchannels are as the [remove] callback left them.  Requests
    to set the device online or offline are then refused with
    [-EINVAL]. *)
Theorem ccw_device_remove_forces_offline E remove p w c d w1 c1 :
  devs w !! p = Some c →
  drv c = Some d →
  match remove with Some f => f p | None => ret tt end w = Some (tt, w1) →
  devs w1 !! p = Some c1 →
  ∃ w' c',
    ccw_device_remove E remove p w = Some (0, w') ∧
    devs w' !! p = Some c' ∧
    (online c' = false ∧ drv c' = None ∧ timer c' = false ∧
     kref c' = (if online c1 then kref c1 - 1 else kref c1)) ∧
    ((∀ q, q ≠ p → devs w' !! q = devs w1 !! q) ∧ schs w' = schs w1) ∧
    ccw_device_set_online E (Some p) w' = Some (- EINVAL, w') ∧
    ccw_device_set_offline E (Some p) w' = Some (- EINVAL, w').
Proof. apply ccw_device_remove_run. Qed.

Lemma ccw_device_remove_forces_offline_witness :
  ∃ w', ccw_device_remove E_busy None 1%positive w_on = Some (0, w') ∧
        cdev_field online w' 1%positive = Some false ∧
        cdev_field kref w' 1%positive = Some 1 ∧
        cdev_field state w' 1%positive = Some DEV_STATE_ONLINE.
Proof.
  destruct (ccw_device_remove_forces_offline E_busy None 1%positive w_on _ drv0
              w_on _ eq_refl eq_refl eq_refl eq_refl)
    as (w' & c' & Hrun & Hc' & (Hon & _ & _ & Hk) & _).
  exists w'. split; [exact Hrun|]. unfold cdev_field. rewrite Hc'.
  cbn [fmap option_fmap option_map]. rewrite Hon, Hk.
  split; [reflexivity|]. split; [reflexivity|].
  revert Hrun Hc'. vm_compute. intros [= <-] [= <-]. reflexivity.
Defined.

(** X11: binding and unbinding a driver, for callbacks that act on the
    store.  [ccw_device_probe] runs the [probe] callback with the driver
    entered in the device.  When the callback answers with a nonzero code
    (or the driver has none: [-ENODEV]), that code is returned and the
    driver is taken out of the device again; whatever else the callback did
    stays.  When it answers 0 the store is the one the callback left, and
    a [ccw_device_remove] that follows returns 0 for every [remove]
    callback and leaves the device unbound, offline and without pending
    timeout, with the online reference given up if the device was online.
    So a driver that sets the device online from its [probe] callback gets
    a round trip: after [ccw_device_remove] the device has the reference
    count it had before the probe.  And when neither callback touches the
    store, the store after the round trip is the one before, except for a
    cancelled timeout. *)
Theorem probe_remove_round_trip E cdrv probe remove p w c r w1 c1 :
  devs w !! p = Some c →
  match probe with Some f => f p | None => ret (- ENODEV) end
    (with_dev w p (set_drv (Some cdrv) c)) = Some (r, w1) →
  devs w1 !! p = Some c1 →
  (r ≠ 0 →
   ccw_device_probe cdrv probe p w = Some (r, with_dev w1 p (set_drv None c1))) ∧
  (r = 0 →
   ccw_device_probe cdrv probe p w = Some (0, w1) ∧
   ∀ w2 c2,
     is_Some (drv c1) →
     match remove with Some f => f p | None => ret tt end w1 = Some (tt, w2) →
     devs w2 !! p = Some c2 →
     ∃ w' c',
       ccw_device_remove E remove p w1 = Some (0, w') ∧
       devs w' !! p = Some c' ∧
       (online c' = false ∧ drv c' = None ∧ timer c' = false ∧
        kref c' = (if online c2 then kref c2 - 1 else kref c2)) ∧
       (probe = Some (fun q => ccw_device_set_online E (Some q)) →
        remove = None → online c = false →
        kref c' = kref c) ∧
       (w1 = with_dev w p (set_drv (Some cdrv) c) → w2 = w1 →
        drv c = None → online c = false →
        w' = with_dev w p (set_timer false c))).
Proof.
  intros Hc Hcb Hc1.
  assert (Hrun : ∀ (k : Z → M Z),
    (cdev_upd p (set_drv (Some cdrv)) >>
     let* ret0 := match probe with Some f => f p | None => ret (- ENODEV) end in
     k ret0) w = k r w1).
  { intros k. mstep. fold (with_dev w p (set_drv (Some cdrv) c)).
    by rewrite (bind_Some _ _ _ _ _ Hcb). }
  unfold ccw_device_probe. rewrite Hrun. split; intros Hr.
  - destruct (Z.eqb_spec r 0); [done|]. cbn [negb]. by mstep.
  - subst r. cbn [Z.eqb negb]. split; [done|].
    intros w2 c2 [d Hd1] Hrm Hc2.
    destruct (ccw_device_remove_run E remove p w1 c1 d w2 c2 Hc1 Hd1 Hrm Hc2)
      as (w' & c' & Hrun' & Hc' & (Hon' & Hdrv' & Htm' & Hk') & _).
    exists w', c'. split; [done|]. split; [done|]. split; [done|]. split.
    + intros -> -> Hoff. cbn in Hrm. injection Hrm as <-.
      assert (c2 = c1) as -> by congruence.
      assert (Hcb0 : devs (with_dev w p (set_drv (Some cdrv) c)) !! p =
                     Some (set_drv (Some cdrv) c))
        by (unfold with_dev; store_simpl; apply lookup_insert_eq).
      destruct (set_online_run E p _ _ cdrv Hcb0 eq_refl Hoff)
        as (rc & w1' & c1' & Hso & Hc1' & _ & Hok & _).
      rewrite Hcb in Hso. injection Hso as <- <-.
      assert (c1' = c1) as -> by congruence.
      destruct Hok as [Hon1 Hk1]; [done|].
      rewrite Hk', Hon1, Hk1. destruct c; cbn. lia.
    + intros -> -> Hd Hoff.
      assert (c1 = set_drv (Some cdrv) c) as ->.
      { revert Hc1. unfold with_dev. store_simpl. rewrite lookup_insert_eq.
        congruence. }
      assert (c2 = set_drv (Some cdrv) c) as -> by congruence.
      revert Hrun'. unfold ccw_device_remove, ccw_device_set_timeout_0, with_dev.
      repeat mstep'. cbn [drv set_drv]. repeat mstep'.
      rewrite ?bind_assoc, (bind_Some _ _ _ _ _ Hrm). unfold with_dev.
      repeat mstep'. cbn [online set_drv]. rewrite Hoff. repeat mstep'.
      assert (set_drv None (set_timer false (set_drv (Some cdrv) c)) =
              set_timer false c) as ->
        by (destruct c; cbn in Hd; by subst).
      intros [= <-]. reflexivity.
Qed.

Lemma probe_remove_round_trip_witness :
  ∃ w1 w',
    ccw_device_probe drv0 (Some (fun q => ccw_device_set_online E0 (Some q)))
      1%positive w_unbound = Some (0, w1) ∧
    cdev_field online w1 1%positive = Some true ∧
    ccw_device_remove E0 None 1%positive w1 = Some (0, w') ∧
    cdev_field kref w' 1%positive = cdev_field kref w_unbound 1%positive.
Proof.
  destruct (probe_remove_round_trip E0 drv0
              (Some (fun q => ccw_device_set_online E0 (Some q))) None
              1%positive w_unbound c_unbound 0
              (store_after (ccw_device_set_online E0 (Some 1%positive))
                 (with_dev w_unbound 1%positive (set_drv (Some drv0) c_unbound)))
              (set_online true
                 (set_state DEV_STATE_ONLINE
                    (set_kref 2 (set_drv (Some drv0) c_unbound))))
              eq_refl) as [_ H].
  - vm_compute. reflexivity.
  - vm_compute. reflexivity.
  - destruct (H eq_refl) as (Hrun & Hrm).
    destruct (Hrm _ _ (ltac:(by eexists)) eq_refl eq_refl)
      as (w' & c' & Hrun' & Hc' & _ & Hk & _).
    eexists _, w'. split; [exact Hrun|]. split; [vm_compute; reflexivity|].
    split; [exact Hrun'|]. unfold cdev_field. rewrite Hc'.
    cbn [fmap option_fmap option_map]. rewrite (Hk eq_refl eq_refl eq_refl).
    reflexivity.
Defined.

(** ** Relocation: the remaining outcomes *)

(** X12: when the move of the device to the orphanage itself fails,
    [ccw_device_move_to_orphanage] gives up at once: the reference taken on
    the pseudo subchannel is put back, no replacement is looked for, and
    the store is as before except for the record of the failed move. *)
Theorem move_to_orphanage_first_move_fails E cdev w c sch s ps :
  devs w !! cdev = Some c →
  parent c = Some sch →
  schs w !! sch = Some s →
  schs w !! pseudo_subchannel w = Some ps →
  let rc := o_device_move E cdev (pseudo_subchannel w)
              (set_schs (<[pseudo_subchannel w :=
                            set_sch_kref (sch_kref ps + 1) ps]> (schs w)) w) in
  rc ≠ 0 →
  ccw_device_move_to_orphanage E cdev w =
    Some (tt, set_trace (trace w ++ [E_device_move cdev (pseudo_subchannel w) rc]) w).
Proof.
  intros Hc Hp Hs Hps rc Hrc. unfold ccw_device_move_to_orphanage, get_device.
  mstep. rewrite Hp. repeat mstep.
  unfold device_move. repeat mstep. fold rc.
  destruct (Z.eqb_spec rc 0) as [?|_]; [done|]. cbn [negb].
  repeat mstep.
  destruct (Z.eqb_spec rc 0) as [?|_]; [done|]. cbn [negb].
  unfold put_device. mstep.
  rewrite insert_insert_eq, (set_sch_kref_back ps), insert_id by done.
  by destruct w.
Qed.

Lemma move_to_orphanage_first_move_fails_witness :
  ccw_device_move_to_orphanage E_noorphan 1%positive w_reloc =
    Some (tt, set_trace [E_device_move 1%positive 99%positive (- ENOMEM)] w_reloc).
Proof.
  apply (move_to_orphanage_first_move_fails E_noorphan 1%positive w_reloc
           _ 10%positive _ _ eq_refl eq_refl eq_refl eq_refl).
  discriminate.
Defined.




(** X14: [get_orphaned_ccwdev_by_dev_id] returns the first child of the
    orphanage, in list order, whose identity equals the one asked for, with
    one reference taken on it; the state of the orphan is not looked at.
    When no child has that identity it returns nothing and the store is
    unchanged. *)
Theorem get_orphaned_ccwdev_first_match id w ps :
  schs w !! pseudo_subchannel w = Some ps →
  bus_valid (children ps) w →
  ∃ r w', get_orphaned_ccwdev_by_dev_id id w = Some (r, w') ∧
    (∀ o, r = Some o →
       ∃ c, devs w !! o = Some c ∧
            ssid (dev_id c) = ssid id ∧ devno (dev_id c) = devno id ∧
            first_with (orphan_candidate_at w id) (children ps) o ∧
            w' = set_devs (<[o := set_kref (kref c + 1) c]> (devs w)) w) ∧
    (r = None →
       w' = w ∧ ∀ q, q ∈ children ps → ¬ orphan_candidate_at w id q).
Proof.
  intros Hps Hv. unfold get_orphaned_ccwdev_by_dev_id, device_find_child.
  repeat mstep.
  destruct (find_device_match_orphan id w (children ps) Hv)
    as [(o & c & Hfirst & Hc & Hrun)|[Hnone Hrun]]; rewrite Hrun.
  - eexists _, _. split; [reflexivity|]. split; [|done].
    intros o' [= <-]. exists c. split; [done|].
    pose proof Hfirst as (l1 & l2 & _ & (c' & Hc' & Hid) & _).
    assert (c' = c) as -> by congruence. by destruct Hid.
  - eexists _, _. split; [reflexivity|]. split; [done|]. done.
Qed.

Lemma get_orphaned_ccwdev_first_match_witness :
  ∃ w', get_orphaned_ccwdev_by_dev_id (mk_dev_id 0 0x5678) w_reloc =
          Some (Some 3%positive, w') ∧
        cdev_field kref w' 3%positive = Some 2.
Proof.
  destruct (get_orphaned_ccwdev_first_match (mk_dev_id 0 0x5678) w_reloc
              (sample_sch 99 0 None [3%positive]) eq_refl)
    as (r & w' & Hrun & Hsome & _).
  - unfold bus_valid. apply Forall_forall.
    apply List.Forall_cons; [eexists; reflexivity|]. apply List.Forall_nil.
  - assert (Hr : r = Some 3%positive)
      by (revert Hrun; vm_compute; congruence).
    subst r. exists w'. split; [exact Hrun|].
    destruct (Hsome _ eq_refl) as (c & Hc & _ & _ & _ & ->).
    injection Hc as <-. reflexivity.
Defined.

(** ** Move to the orphanage: which branch runs *)

Lemma orphanage_search_dispatch E cdev sch w1 id ps1 :
  devs_wf (ccw_bus w1) w1 →
  schs w1 !! pseudo_subchannel w1 = Some ps1 →
  (∀ q, q ∈ children ps1 → is_Some (devs w1 !! q)) →
  let search :=
    let* replacing_cdev := get_disc_ccwdev_by_dev_id id (Some cdev) in
    match replacing_cdev with
    | Some replacing_cdev =>
        sch_attach_disconnected_device E sch replacing_cdev >>
        put_device (cdev_dev replacing_cdev) >>
        put_device (sch_dev sch)
    | None =>
        let* replacing_cdev := get_orphaned_ccwdev_by_dev_id id in
        match replacing_cdev with
        | Some replacing_cdev =>
            sch_attach_orphaned_device E sch replacing_cdev >>
            put_device (cdev_dev replacing_cdev) >>
            put_device (sch_dev sch)
        | None =>
            sch_create_and_recog_new_device E sch >>
            put_device (sch_dev sch)
        end
    end in
  (∃ r cr,
     first_with (disc_candidate_at w1 id (Some cdev)) (ccw_bus w1) r ∧
     devs w1 !! r = Some cr ∧
     search w1 =
       (sch_attach_disconnected_device E sch r >>
        put_device (cdev_dev r) >>
        put_device (sch_dev sch)) (with_dev w1 r (set_kref (kref cr + 1) cr))) ∨
  ((∀ q, q ∈ ccw_bus w1 → ¬ disc_candidate_at w1 id (Some cdev) q) ∧
   ∃ o co,
     first_with (orphan_candidate_at w1 id) (children ps1) o ∧
     devs w1 !! o = Some co ∧
     search w1 =
       (sch_attach_orphaned_device E sch o >>
        put_device (cdev_dev o) >>
        put_device (sch_dev sch)) (with_dev w1 o (set_kref (kref co + 1) co))) ∨
  ((∀ q, q ∈ ccw_bus w1 → ¬ disc_candidate_at w1 id (Some cdev) q) ∧
   (∀ q, q ∈ children ps1 → ¬ orphan_candidate_at w1 id q) ∧
   search w1 =
     (sch_create_and_recog_new_device E sch >> put_device (sch_dev sch)) w1).
Proof.
  intros Hwf Hps1 Horph search. subst search.
  unfold get_disc_ccwdev_by_dev_id, bus_find_device. mstep.
  destruct (find_device_match_devno id (Some cdev) w1 (ccw_bus w1) Hwf)
    as [(r & cr & Hfirst & Hcr & Hfind)|[Hnone Hfind]].
  - left. exists r, cr. split; [done|]. split; [done|].
    by rewrite (bind_Some _ _ _ _ _ Hfind).
  - right. rewrite (bind_Some _ _ _ _ _ Hfind).
    unfold get_orphaned_ccwdev_by_dev_id, device_find_child. repeat mstep.
    destruct (find_device_match_orphan id w1 (children ps1) Horph)
      as [(o & co & Hfirst & Hco & Hfind')|[Hnone' Hfind']].
    + left. split; [done|]. exists o, co. split; [done|]. split; [done|].
      by rewrite (bind_Some _ _ _ _ _ Hfind').
    + right. split; [done|]. split; [done|].
      by rewrite (bind_Some _ _ _ _ _ Hfind').
Qed.

(** X28: which branch of [ccw_device_move_to_orphanage] runs, once the
    device has been moved to the orphanage.  In the store [w1] the device
    is a child of the pseudo subchannel, which holds one reference more,
    and is locked by it; the bus is as before.  From there exactly one of
    three things happens.  If a device on the bus is a disconnected
    candidate for the identity the subchannel now reports, the first such
    device in bus order gets a reference and is handed to
    [sch_attach_disconnected_device].  Only if there is none, and a child
    of the orphanage has that identity, the first such child gets a
    reference and is handed to [sch_attach_orphaned_device]: a
    disconnected candidate wins over an orphaned one.  Only if there is
    neither, [sch_create_and_recog_new_device] runs.  In each branch the
    reference of a candidate is given back after the attach, and the
    reference of the departed device on the subchannel is released last,
    once.  The device just moved counts as a child of the orphanage in
    this search. *)
Theorem move_to_orphanage_dispatch E cdev w c sch s ps :
  devs w !! cdev = Some c →
  parent c = Some sch →
  schs w !! sch = Some s →
  schs w !! pseudo_subchannel w = Some ps →
  sch ≠ pseudo_subchannel w →
  devs_wf (ccw_bus w) w →
  (∀ q, q ∈ children ps → is_Some (devs w !! q)) →
  o_device_move E cdev (pseudo_subchannel w)
    (set_schs (<[pseudo_subchannel w := set_sch_kref (sch_kref ps + 1) ps]> (schs w)) w)
    = 0 →
  let id := mk_dev_id (sch_ssid (sch_schid s)) (dev (schib_pmcw s)) in
  let run := ccw_device_move_to_orphanage E cdev w in
  ∃ w1 ps1,
    (devs w1 = <[cdev := set_ccwlock (Some (pseudo_subchannel w))
                           (set_parent (Some (pseudo_subchannel w)) c)]> (devs w) ∧
     ccw_bus w1 = ccw_bus w ∧
     pseudo_subchannel w1 = pseudo_subchannel w ∧
     schs w1 !! pseudo_subchannel w = Some ps1 ∧
     children ps1 = children ps ++ [cdev] ∧
     sch_kref ps1 = sch_kref ps + 1 ∧
     schs w1 !! sch =
       Some (set_children (filter (fun x => x ≠ cdev) (children s)) s) ∧
     trace w1 = trace w ++ [E_device_move cdev (pseudo_subchannel w) 0]) ∧
    ((∃ r cr,
        first_with (disc_candidate_at w1 id (Some cdev)) (ccw_bus w1) r ∧
        devs w1 !! r = Some cr ∧
        run =
          (sch_attach_disconnected_device E sch r >>
           put_device (cdev_dev r) >>
           put_device (sch_dev sch))
            (with_dev w1 r (set_kref (kref cr + 1) cr))) ∨
     ((∀ q, q ∈ ccw_bus w1 → ¬ disc_candidate_at w1 id (Some cdev) q) ∧
      ∃ o co,
        first_with (orphan_candidate_at w1 id) (children ps1) o ∧
        devs w1 !! o = Some co ∧
        run =
          (sch_attach_orphaned_device E sch o >>
           put_device (cdev_dev o) >>
           put_device (sch_dev sch))
            (with_dev w1 o (set_kref (kref co + 1) co))) ∨
     ((∀ q, q ∈ ccw_bus w1 → ¬ disc_candidate_at w1 id (Some cdev) q) ∧
      (∀ q, q ∈ children ps1 → ¬ orphan_candidate_at w1 id q) ∧
      run =
        (sch_create_and_recog_new_device E sch >> put_device (sch_dev sch)) w1)).
Proof.
  intros Hc Hp Hs Hps Hne Hbus Horph Hmove id run. subst run.
  unfold ccw_device_move_to_orphanage, get_device.
  mstep. rewrite Hp. repeat mstep.
  unfold device_move. repeat mstep. rewrite Hmove. cbn [Z.eqb negb].
  repeat mstep. rewrite Hp. repeat mstep. rewrite Z.eqb_refl. cbn [negb].
  repeat mstep.
  match goal with |- context [bind (get_disc_ccwdev_by_dev_id _ _) _ ?wx] =>
    set (w1 := wx) end.
  assert (Hpseudo1 : pseudo_subchannel w1 = pseudo_subchannel w) by done.
  assert (Hdevs1 : devs w1 = <[cdev := set_ccwlock (Some (pseudo_subchannel w))
                    (set_parent (Some (pseudo_subchannel w)) c)]> (devs w)).
  { subst w1. store_simpl. by rewrite insert_insert_eq. }
  assert (Hps1 : ∃ ps1, schs w1 !! pseudo_subchannel w = Some ps1 ∧
                        children ps1 = children ps ++ [cdev] ∧
                        sch_kref ps1 = sch_kref ps + 1).
  { subst w1. store_simpl. eexists. split; [solve_lookup|done]. }
  destruct Hps1 as (ps1 & Hps1 & Hkids1 & Hk1).
  exists w1, ps1. split.
  { split; [done|]. split; [done|]. split; [done|]. split; [done|].
    split; [done|]. split; [done|]. split; [|done].
    subst w1. store_simpl. solve_lookup. }
  apply (orphanage_search_dispatch E cdev sch w1 id ps1).
  - intros q Hq. destruct (Hbus q Hq) as (cq & Hcq & Hpq).
    rewrite Hdevs1. destruct (decide (q = cdev)) as [->|Hqc].
    + rewrite lookup_insert_eq. eexists. split; [done|]. by eexists.
    + rewrite lookup_insert_ne by done. by exists cq.
  - by rewrite Hpseudo1.
  - intros q Hq. rewrite Hkids1 in Hq. rewrite Hdevs1.
    apply elem_of_app in Hq as [Hq|Hq].
    + destruct (decide (q = cdev)) as [->|Hqc];
        [rewrite lookup_insert_eq; by eexists|].
      rewrite lookup_insert_ne by done. by apply Horph.
    + apply list_elem_of_singleton in Hq as ->. rewrite lookup_insert_eq.
      by eexists.
Qed.

(** In [w_reloc] the disconnected device 2 and the orphan 3 both have the
    identity subchannel 10 now reports: device 2 is the one handed on. *)
Lemma move_to_orphanage_dispatch_witness :
  ∃ w1 cr,
    devs w1 !! 2%positive = Some cr ∧
    ccw_device_move_to_orphanage E0 1%positive w_reloc =
      (sch_attach_disconnected_device E0 10%positive 2%positive >>
       put_device (cdev_dev 2%positive) >>
       put_device (sch_dev 10%positive))
        (with_dev w1 2%positive (set_kref (kref cr + 1) cr)).
Proof.
  destruct (move_to_orphanage_dispatch E0 1%positive w_reloc
              (sample_cdev DEV_STATE_DISCONNECTED 10%positive 0x1234 false)
              10%positive
              (sample_sch 10 0x5678 (Some 1%positive) [1%positive])
              (sample_sch 99 0 None [3%positive]))
    as (w1 & ps1 & (Hd1 & Hb1 & Hp1 & _) & Hcases).
  - reflexivity.
  - reflexivity.
  - reflexivity.
  - reflexivity.
  - discriminate.
  - intros q Hq.
    apply elem_of_cons in Hq as [->|Hq]; [|apply elem_of_cons in Hq as [->|Hq]];
      [| |apply list_elem_of_singleton in Hq as ->].
    all: eexists; (split; [reflexivity|]); by eexists.
  - intros q Hq. apply list_elem_of_singleton in Hq as ->. by eexists.
  - reflexivity.
  - change (ccw_bus w_reloc) with [1%positive; 2%positive; 3%positive] in Hb1.
    assert (Hc2 : disc_candidate_at w1 (mk_dev_id 0 0x5678) (Some 1%positive)
                    2%positive).
    { eexists. rewrite Hd1. split; [reflexivity|].
      unfold disc_candidate. rewrite Hp1.
      split; [reflexivity|]. split; [discriminate|].
      split; [split; reflexivity|discriminate]. }
    assert (Hn1 : ¬ disc_candidate_at w1 (mk_dev_id 0 0x5678) (Some 1%positive)
                      1%positive).
    { intros (c1 & _ & _ & _ & _ & Hsib). by apply Hsib. }
    destruct Hcases as [(r & cr & Hfirst & Hcr & Hrun)|[(Hnone & _)|(Hnone & _)]].
    + destruct Hfirst as (l1 & l2 & Hl & Hr & Hbefore).
      rewrite Hb1 in Hl.
      assert (r = 2%positive) as ->.
      { destruct l1 as [|a l1]; cbn in Hl.
        - injection Hl as <- _. by destruct (Hn1 Hr).
        - injection Hl as <- Hl. destruct l1 as [|b l1]; cbn in Hl.
          + by injection Hl as <- _.
          + injection Hl as <- Hl. exfalso. apply (Hbefore 2%positive).
            * apply elem_of_cons. right. apply elem_of_cons. by left.
            * exact Hc2. }
      exists w1, cr. split; [exact Hcr|exact Hrun].
    + exfalso. apply (Hnone 2%positive); [|exact Hc2]. rewrite Hb1.
      apply elem_of_cons. right. apply elem_of_cons. by left.
    + exfalso. apply (Hnone 2%positive); [|exact Hc2]. rewrite Hb1.
      apply elem_of_cons. right. apply elem_of_cons. by left.
Defined.

(** ** Subchannel event evaluator: what each action leaves behind *)

Lemma ccw_device_schedule_recovery_run E w :
  ∃ w', ccw_device_schedule_recovery E w = Some (tt, w') ∧
    timer_pending (recovery_timer w') = true ∧ recovery_phase w' = 0 ∧
    devs w' = devs w ∧ schs w' = schs w ∧ trace w' = trace w ∧
    ccw_bus w' = ccw_bus w.
Proof.
  unfold ccw_device_schedule_recovery.
  rewrite (bind_Some _ _ w w w) by done.
  destruct (timer_pending (recovery_timer w)) eqn:Hp; cbn [negb orb].
  - destruct (Z.eqb_spec (recovery_phase w) 0) as [H0|H0]; cbn [negb].
    + by exists w.
    + eexists. split; [reflexivity|]. done.
  - eexists. split; [reflexivity|]. done.
Qed.

Lemma sch_event_accepted E sch slow w s p c :
  schs w !! sch = Some s →
  sch_cdev s = Some p →
  devs w !! p = Some c →
  (needs_retry c = true ∧ slow = 0) ∨ (needs_retry c = false ∧ slow ≠ 0) →
  ∃ ev,
    io_subchannel_get_status E sch (timer_killed w p c) =
      Some (ev, timer_killed w p c) ∧
    let a := spec_action ev (needs_retry c)
               (negb (o_ccw_device_notify E p ev (timer_killed w p c) =? 0)) in
    io_subchannel_sch_event E sch slow w =
      (sch_event_perform E sch (Some p) a >>
       if bool_decide (a = UNREGISTER_PROBE)
       then let* s := sch_get sch in css_probe_device E (sch_schid s)
       else ret 0) (timer_killed w p c).
Proof.
  intros Hs Hb Hc Hacc.
  assert (Hv : bound_valid w s).
  { intros q Hq. rewrite Hb in Hq. injection Hq as <-. eauto. }
  assert (Hs1 : schs (timer_killed w p c) !! sch = Some s) by done.
  destruct (io_subchannel_get_status_run E sch _ s Hs1) as (ev & Hev).
  pose proof (sch_event_analyze_run E sch ev (needs_retry c) _ s Hs1) as Ha.
  rewrite Hb in Ha.
  exists ev. split; [done|].
  unfold io_subchannel_sch_event, sch_get_cdev.
  repeat mstep. rewrite (bind_Some _ _ _ _ _ (device_is_disconnected_run w s Hv)).
  unfold is_disconnected. rewrite Hb, Hc.
  assert (needs_retry c && negb (slow =? 0) = false) as ->.
  { destruct Hacc as [[-> ->]|[-> _]]; done. }
  unfold ccw_device_set_timeout_0. mstep. fold (timer_killed w p c).
  assert (negb (needs_retry c) && (slow =? 0) = false) as ->.
  { destruct Hacc as [[-> _]|[-> ?]]; [done|]. by destruct (Z.eqb_spec slow 0). }
  rewrite (bind_Some _ _ _ _ _ Hev). by rewrite (bind_Some _ _ _ _ _ Ha).
Qed.

Lemma sch_event_effects_run E sch slow w s p c :
  schs w !! sch = Some s →
  sch_cdev s = Some p →
  devs w !! p = Some c →
  parent c = Some sch →
  (needs_retry c = true ∧ slow = 0) ∨ (needs_retry c = false ∧ slow ≠ 0) →
  ∃ ev,
    io_subchannel_get_status E sch (timer_killed w p c) =
      Some (ev, timer_killed w p c) ∧
    match spec_action ev (needs_retry c)
            (negb (o_ccw_device_notify E p ev (timer_killed w p c) =? 0)) with
    | NONE =>
        io_subchannel_sch_event E sch slow w = Some (0, timer_killed w p c)
    | UNREGISTER =>
        io_subchannel_sch_event E sch slow w =
          (css_sch_device_unregister sch >>
           sch_upd sch (set_intparm 0) >>
           cio_commit_config sch >>
           ret 0) (not_operational w sch p c)
    | UNREGISTER_PROBE =>
        io_subchannel_sch_event E sch slow w =
          (css_sch_device_unregister sch >>
           sch_upd sch (set_intparm 0) >>
           cio_commit_config sch >>
           let* s := sch_get sch in css_probe_device E (sch_schid s))
            (not_operational w sch p c)
    | REPROBE =>
        io_subchannel_sch_event E sch slow w = Some (0, reprobed E w p c)
    | DISC =>
        ∃ w', io_subchannel_sch_event E sch slow w = Some (0, w') ∧
          devs w' = devs (disconnected w p c) ∧
          schs w' = schs w ∧ trace w' = trace w ∧
          (online c = true →
           timer_pending (recovery_timer w') = true ∧ recovery_phase w' = 0) ∧
          (online c = false → w' = disconnected w p c)
    end.
Proof.
  intros Hs Hb Hc Hp Hacc.
  destruct (sch_event_accepted E sch slow w s p c Hs Hb Hc Hacc)
    as (ev & Hev & Hrun).
  exists ev. split; [done|].
  cbv zeta in Hrun. rewrite Hrun. clear Hrun.
  destruct (spec_action ev (needs_retry c) _);
    unfold sch_event_perform, timer_killed.
  - by mstep.
  - unfold ccw_device_set_notoper, ccw_device_set_timeout_0,
      cio_disable_subchannel.
    repeat mstep'. cbn [parent set_timer]. rewrite Hp. repeat mstep'.
    rewrite bool_decide_eq_false_2 by done.
    unfold not_operational. store_norm. rewrite ?bind_assoc.
    apply bind_ext. intros _ w1. rewrite ?bind_assoc. reflexivity.
  - unfold ccw_device_set_notoper, ccw_device_set_timeout_0,
      cio_disable_subchannel.
    repeat mstep'. cbn [parent set_timer]. rewrite Hp. repeat mstep'.
    rewrite bool_decide_eq_true_2 by done.
    unfold not_operational. store_norm. rewrite ?bind_assoc.
    apply bind_ext. intros _ w1. rewrite ?bind_assoc. reflexivity.
  - unfold ccw_device_trigger_reprobe. repeat mstep'. reflexivity.
  - unfold device_set_disconnected, ccw_device_set_timeout_0. repeat mstep'.
    cbn [online set_state set_fake_irb set_timer].
    rewrite bool_decide_eq_false_2 by done.
    destruct (online c).
    + match goal with |- context [bind _ _ ?w0] =>
        destruct (ccw_device_schedule_recovery_run E w0)
          as (w' & Hrun & Ht & Hph & Hd & Hss & Htr & _)
      end.
      exists w'. rewrite (bind_Some _ _ _ _ _ Hrun).
      split; [done|]. rewrite Hd, Hss, Htr. done.
    + mstep. eexists. split; [reflexivity|]. done.
Qed.

(** X15: what an accepted call of the subchannel event evaluator does for
    a subchannel with a device bound to it, by the action the hardware
    status and the answer of the driver select.  No action: 0 is returned
    and only the timeout of the device was cancelled.  Reprobe: the reprobe
    is triggered and 0 is returned.  Disconnect: the device is disconnected
    with its fake interrupt flag cleared, 0 is returned, and if the device
    is online the recovery timer is pending in phase 0 afterwards.
    Unregister: the device is set not operational first, with its timeout
    cancelled and the subchannel disabled; from that store the subchannel
    is handed to [css_sch_device_unregister], and only after the
    unregistration the interruption parameter is reset and the
    configuration committed; with a probe to follow, the probe is requested
    last and its code is returned.  What the unregistration does to the
    device is not part of the statement. *)
Theorem sch_event_effects E sch slow w s p c :
  schs w !! sch = Some s →
  sch_cdev s = Some p →
  devs w !! p = Some c →
  parent c = Some sch →
  (needs_retry c = true ∧ slow = 0) ∨ (needs_retry c = false ∧ slow ≠ 0) →
  ∃ ev,
    io_subchannel_get_status E sch (timer_killed w p c) =
      Some (ev, timer_killed w p c) ∧
    match spec_action ev (needs_retry c)
            (negb (o_ccw_device_notify E p ev (timer_killed w p c) =? 0)) with
    | NONE =>
        io_subchannel_sch_event E sch slow w = Some (0, timer_killed w p c)
    | UNREGISTER =>
        io_subchannel_sch_event E sch slow w =
          (css_sch_device_unregister sch >>
           sch_upd sch (set_intparm 0) >>
           cio_commit_config sch >>
           ret 0) (not_operational w sch p c)
    | UNREGISTER_PROBE =>
        io_subchannel_sch_event E sch slow w =
          (css_sch_device_unregister sch >>
           sch_upd sch (set_intparm 0) >>
           cio_commit_config sch >>
           let* s := sch_get sch in css_probe_device E (sch_schid s))
            (not_operational w sch p c)
    | REPROBE =>
        io_subchannel_sch_event E sch slow w = Some (0, reprobed E w p c)
    | DISC =>
        ∃ w', io_subchannel_sch_event E sch slow w = Some (0, w') ∧
          devs w' = devs (disconnected w p c) ∧
          schs w' = schs w ∧ trace w' = trace w ∧
          (online c = true →
           timer_pending (recovery_timer w') = true ∧ recovery_phase w' = 0) ∧
          (online c = false → w' = disconnected w p c)
    end.
Proof. apply sch_event_effects_run. Qed.

Lemma sch_event_effects_witness :
  ∃ w', io_subchannel_sch_event E_lost 10%positive 1 w_on = Some (0, w') ∧
        cdev_field state w' 1%positive = Some DEV_STATE_DISCONNECTED ∧
        timer_pending (recovery_timer w') = true.
Proof.
  destruct (sch_event_effects E_lost 10%positive 1 w_on
              (sample_sch 10 0x1234 (Some 1%positive) [1%positive]) 1%positive
              (set_kref 2 (set_online true
                 (sample_cdev DEV_STATE_ONLINE 10%positive 0x1234 false)))
              eq_refl eq_refl eq_refl eq_refl)
    as (ev & Hev & Hact).
  - right. split; [reflexivity|discriminate].
  - assert (ev = CIO_GONE) as -> by (revert Hev; vm_compute; congruence).
    destruct Hact as (w' & Hrun & Hd & _ & _ & Hrec & _).
    exists w'. split; [exact Hrun|]. unfold cdev_field. rewrite Hd.
    split; [reflexivity|]. apply Hrec. reflexivity.
Defined.

(** X16: the evaluator on a subchannel that has no device bound.  On the
    fast path it answers [-EAGAIN]; on the slow path with an operational
    status it returns 0; either way the store is unchanged.  On the slow
    path with any other status it selects an unregistration and hands the
    missing device to [ccw_device_set_notoper], which dereferences it: the
    call has no defined result. *)
Theorem sch_event_without_device E sch slow w s :
  schs w !! sch = Some s →
  sch_cdev s = None →
  (slow = 0 → io_subchannel_sch_event E sch slow w = Some (- EAGAIN, w)) ∧
  (slow ≠ 0 →
   ∃ ev, io_subchannel_get_status E sch w = Some (ev, w) ∧
     (ev = CIO_OPER → io_subchannel_sch_event E sch slow w = Some (0, w)) ∧
     (ev ≠ CIO_OPER → io_subchannel_sch_event E sch slow w = None)).
Proof.
  intros Hs Hb. split; intros Hslow.
  - unfold io_subchannel_sch_event, sch_get_cdev. repeat mstep. rewrite Hb.
    cbn [device_is_disconnected]. repeat mstep. cbn [andb negb].
    by destruct (Z.eqb_spec slow 0).
  - destruct (io_subchannel_get_status_run E sch w s Hs) as (ev & Hev).
    pose proof (sch_event_analyze_run E sch ev false w s Hs) as Ha.
    rewrite Hb in Ha.
    exists ev. split; [done|].
    assert (Hrun : io_subchannel_sch_event E sch slow w =
              (sch_event_perform E sch None (spec_action ev false false) >>
               if bool_decide (spec_action ev false false = UNREGISTER_PROBE)
               then let* s := sch_get sch in css_probe_device E (sch_schid s)
               else ret 0) w).
    { unfold io_subchannel_sch_event, sch_get_cdev. repeat mstep. rewrite Hb.
      cbn [device_is_disconnected]. repeat mstep. cbn [andb negb].
      destruct (Z.eqb_spec slow 0); [done|]. mstep.
      rewrite (bind_Some _ _ _ _ _ Hev). by rewrite (bind_Some _ _ _ _ _ Ha). }
    rewrite Hrun. split.
    + intros ->. reflexivity.
    + intros Hne. destruct ev; try done; reflexivity.
Qed.

Lemma sch_event_without_device_witness :
  io_subchannel_sch_event E_lost 10%positive 1 w_unbound_sch = None.
Proof.
  destruct (sch_event_without_device E_lost 10%positive 1 w_unbound_sch
              (sample_sch 10 0x1234 None [1%positive]) eq_refl eq_refl)
    as [_ H].
  destruct H as (ev & Hev & _ & Hnone); [discriminate|].
  apply Hnone. revert Hev. vm_compute. congruence.
Defined.

(** ** Creating a device for a subchannel *)

(** X17: the outcomes of [sch_create_and_recog_new_device].  When memory
    is short no device appears, and the subchannel is handed to
    [css_sch_device_unregister] in the store as it was.  When recognition
    starts, the new device sits at the next free address with one
    reference, below the subchannel and locked by it, carrying the
    identity the subchannel reports, and the subchannel is bound to it and
    keeps the reference taken for it.  When recognition cannot be started,
    the binding is taken back before the subchannel is unregistered, the
    reference taken for the new device is put back, and the initial
    reference of the new device is given up: its release function
    [ccw_device_release] frees the device and puts the reference on the
    parent a second time, so that no device is left at the new address and
    the subchannel ends one reference short of what it had. *)
Theorem sch_create_and_recog_new_device_outcomes E sch w s :
  schs w !! sch = Some s →
  let p := next_dev w in
  (* allocation failed *)
  (∃ tr, (tr = [E_kzalloc_cdev false] ∨
          tr = [E_kzalloc_cdev true; E_kzalloc_cdev false]) ∧
     sch_create_and_recog_new_device E sch w =
       css_sch_device_unregister sch (set_trace (trace w ++ tr) w)) ∨
  (* recognition started *)
  (∃ w' c',
     sch_create_and_recog_new_device E sch w = Some (tt, w') ∧
     trace w' = trace w ++ [E_kzalloc_cdev true; E_kzalloc_cdev true;
                            E_ccw_device_recognition p 0] ∧
     devs w' !! p = Some c' ∧ next_dev w' = Pos.succ p ∧
     (∀ q, q ≠ p → devs w' !! q = devs w !! q) ∧
     (parent c' = Some sch ∧ ccwlock c' = Some sch ∧ kref c' = 1 ∧
      online c' = false ∧ drv c' = None ∧ onoff c' = 0 ∧
      dev_id c' = mk_dev_id (sch_ssid (sch_schid s)) (dev (schib_pmcw s)) ∧
      schid c' = sch_schid s) ∧
     schs w' = <[sch := set_sch_cdev (Some p)
                          (set_sch_kref (sch_kref s + 1) s)]> (schs w)) ∨
  (* recognition could not be started *)
  (∃ w' rc,
     rc ≠ 0 ∧
     sch_create_and_recog_new_device E sch w = Some (tt, w') ∧
     trace w' = trace w ++ [E_kzalloc_cdev true; E_kzalloc_cdev true;
                            E_ccw_device_recognition p rc;
                            E_css_sch_device_unregister sch] ∧
     devs w' = delete p (devs w) ∧
     schs w' = <[sch := set_sch_kref (sch_kref s - 1)
                          (set_sch_cdev None (set_sch_registered false s))]>
                 (schs w)).
Proof.
  intros Hs p.
  unfold sch_create_and_recog_new_device, io_subchannel_create_ccwdev,
    io_subchannel_allocate_dev, kzalloc.
  repeat mstep'.
  destruct (o_kzalloc E w) eqn:Hk1.
  2:{ repeat mstep'. left. eexists. split; [by left|]. reflexivity. }
  repeat mstep'.
  match goal with |- context [o_kzalloc E ?wx] => destruct (o_kzalloc E wx) eqn:Hk2 end.
  2:{ repeat mstep'. left. eexists. split; [by right|].
      rewrite <- app_assoc. reflexivity. }
  right.
  repeat mstep'.
  unfold io_subchannel_initialize_dev, get_device. repeat mstep'.
  cbn [negb]. repeat mstep'. rewrite Z.eqb_refl. cbn [negb]. repeat mstep'.
  unfold sch_set_cdev. repeat mstep'.
  unfold io_subchannel_recog, sch_set_cdev, ccw_device_recognition. repeat mstep'.
  match goal with |- context [o_ccw_device_recognition E ?p ?wx] =>
    destruct (o_ccw_device_recognition E p wx) as [rc st] eqn:Hrec end.
  repeat mstep'.
  destruct (Z.eqb_spec rc 0) as [Hrc|Hrc]; cbn [negb].
  - left. eexists _, _. split; [reflexivity|]. store_simpl. subst rc.
    split; [by rewrite <- !app_assoc|].
    split; [apply lookup_insert_eq|]. split; [done|].
    split; [intros q Hq; by rewrite lookup_insert_ne|].
    split; [done|]. by destruct s.
  - right. unfold css_sch_device_unregister, put_device_release, put_device.
    repeat mstep'.
    cbn [sch_registered set_sch_cdev set_sch_kref].
    destruct (sch_registered s) eqn:Hreg; repeat mstep'.
    all: cbn [kref set_kref set_state set_timer set_schid set_dev_id
              set_ccwlock set_parent set_kick_work set_onoff].
    all: change (1 - 1 =? 0) with true; cbv iota.
    all: unfold ccw_device_release, put_device, kfree_cdev.
    all: repeat mstep'; cbn [parent set_kref set_state set_timer set_schid
                            set_dev_id set_ccwlock set_parent set_kick_work
                            set_onoff]; repeat mstep'.
    all: eexists _, rc; (split; [done|]).
    all: split; [reflexivity|]; store_simpl.
    all: split; [by rewrite <- !app_assoc|].
    all: split; [by rewrite ?insert_insert_eq, delete_insert_eq|].
    all: f_equal; destruct s;
      unfold set_sch_kref, set_sch_registered, set_sch_cdev; cbn in *; subst;
      f_equal; lia.
Qed.

(** Recognition cannot be started for the new device of subchannel 10 of
    [w_renumbered]: no device is left at address 2, and the subchannel,
    which held two references, holds one. *)
Lemma sch_create_and_recog_new_device_outcomes_witness :
  ∃ w',
    sch_create_and_recog_new_device E_norecog 10%positive w_renumbered =
      Some (tt, w') ∧
    devs w' !! 2%positive = None ∧
    sch_field sch_kref w_renumbered 10%positive = Some 2 ∧
    sch_field sch_kref w' 10%positive = Some 1.
Proof.
  destruct (sch_create_and_recog_new_device_outcomes E_norecog 10%positive
              w_renumbered
              (sample_sch 10 0x5678 (Some 1%positive) [1%positive]) eq_refl)
    as [(tr & Htr & Hrun)|[(w' & c' & Hrun & Htr & _)|
        (w' & rc & _ & Hrun & _)]].
  - exfalso.
    apply (f_equal (fun o => match o with
                             | Some (_, x) => length (trace x)
                             | None => 0%nat
                             end)) in Hrun.
    destruct Htr as [-> | ->]; vm_compute in Hrun; discriminate.
  - exfalso. revert Hrun. vm_compute. intros [= <-]. vm_compute in Htr.
    discriminate.
  - match type of Hrun with ?run = _ =>
      assert (Hs1 : run = Some (tt, store_after
                (sch_create_and_recog_new_device E_norecog 10%positive)
                w_renumbered)) by (vm_compute; reflexivity)
    end.
    assert (Hw' : w' = store_after
              (sch_create_and_recog_new_device E_norecog 10%positive)
              w_renumbered) by congruence.
    exists w'. split; [exact Hrun|].
    rewrite Hw'. split; [vm_compute; reflexivity|].
    split; vm_compute; reflexivity.
Defined.

(** ** End of recognition *)

(** X18: what [io_subchannel_recog_done] does once the channel subsystem is
    up.  It queues work exactly for a device that ended not operational
    (the work that unregisters its subchannel), boxed or offline (the work
    that registers it), and takes one reference on the device exactly when
    it queues work; every other state leaves the store unchanged.  The
    recognition flag is raised here only for a device that is not
    operational; for a boxed or offline device it is left to the work that
    registers the device.  Before the channel subsystem is up, only the
    flag is raised, whatever the state. *)
Theorem recog_done_queues_with_reference css_init_done p w c :
  devs w !! p = Some c →
  ∃ w' c',
    io_subchannel_recog_done css_init_done p w = Some (tt, w') ∧
    devs w' !! p = Some c' ∧
    (∀ q, q ≠ p → devs w' !! q = devs w !! q) ∧ schs w' = schs w ∧
    (css_init_done = 0 →
     w' = with_dev w p (set_recog_done true c)) ∧
    (css_init_done ≠ 0 →
     match recog_work (state c) with
     | Some fn =>
         c' = set_kick_work (Some fn)
                (set_kref (kref c + 1)
                   (if bool_decide (state c = DEV_STATE_NOT_OPER)
                    then set_recog_done true c else c)) ∧
         trace w' = trace w ++ [E_queue_work p fn]
     | None => w' = w
     end).
Proof.
  intros Hc. unfold io_subchannel_recog_done.
  destruct (Z.eqb_spec css_init_done 0) as [Hinit|Hinit].
  { mstep. eexists _, _. split; [reflexivity|]. store_simpl.
    split; [apply lookup_insert_eq|].
    split; [intros q Hq; by rewrite lookup_insert_ne|]. by repeat split. }
  mstep.
  unfold get_device, PREPARE_WORK, queue_work.
  destruct (state c) eqn:Hst; cbn [recog_work];
    try (exists w, c; by repeat split).
  all: repeat mstep'; cbn [negb]; repeat mstep';
    cbn [kick_work set_kick_work]; repeat mstep'.
  all: eexists _, _; (split; [reflexivity|]); store_simpl.
  all: split; [apply lookup_insert_eq|].
  all: split; [intros q Hq; by rewrite lookup_insert_ne|]; split; [done|].
  all: split; [done|]; intros _.
  all: split; [by destruct c|done].
Qed.

Lemma recog_done_queues_with_reference_witness :
  ∃ w',
    io_subchannel_recog_done 1 1%positive w_notoper = Some (tt, w') ∧
    trace w' = [E_queue_work 1%positive W_ccw_device_call_sch_unregister] ∧
    cdev_field kref w' 1%positive = Some 2 ∧
    cdev_field recog_done w' 1%positive = Some true.
Proof.
  destruct (recog_done_queues_with_reference 1 1%positive w_notoper _ eq_refl)
    as (w' & c' & Hrun & Hc' & _ & _ & _ & Hwork).
  destruct (Hwork ltac:(discriminate)) as (Hcq & Htr).
  exists w'. split; [exact Hrun|]. split; [exact Htr|].
  unfold cdev_field. rewrite Hc', Hcq. split; reflexivity.
Defined.

(** ** The console device *)



(** ** Subchannel configuration *)

(** X20: [io_subchannel_init_config] clears the configuration, switches
    concurrent sense on, and switches multipath mode on exactly when the
    mask of installed paths has two or more bits set: the test
    [pim & (pim - 1)] is a count of paths, for every eight-bit mask. *)
Theorem init_config_multipath pim :
  0 ≤ pim < 256 →
  cfg_csense (io_subchannel_init_config pim) = 1 ∧
  cfg_intparm (io_subchannel_init_config pim) = 0 ∧
  (cfg_mp (io_subchannel_init_config pim) = 1 ↔ (2 ≤ installed_paths pim)%nat) ∧
  (cfg_mp (io_subchannel_init_config pim) = 0 ↔ (installed_paths pim ≤ 1)%nat).
Proof.
  intros Hpim.
  assert (Hall : forallb (fun pim =>
            (cfg_csense (io_subchannel_init_config pim) =? 1) &&
            (cfg_intparm (io_subchannel_init_config pim) =? 0) &&
            (if (2 <=? installed_paths pim)%nat
             then cfg_mp (io_subchannel_init_config pim) =? 1
             else cfg_mp (io_subchannel_init_config pim) =? 0))
          (seqZ 0 256) = true) by (vm_compute; reflexivity).
  rewrite forallb_forall in Hall.
  assert (Hin : In pim (seqZ 0 256)).
  { apply list_elem_of_In, elem_of_seqZ. lia. }
  specialize (Hall pim Hin).
  apply andb_prop in Hall as [Hall Hmp]. apply andb_prop in Hall as [Hcs Hip].
  apply Z.eqb_eq in Hcs, Hip. split; [done|]. split; [done|].
  destruct (Nat.leb_spec 2 (installed_paths pim)); apply Z.eqb_eq in Hmp;
    rewrite Hmp; split; split; intros; try done; lia.
Qed.

Lemma init_config_multipath_witness :
  cfg_mp (io_subchannel_init_config 0xC0) = 1 ∧
  cfg_mp (io_subchannel_init_config 0x80) = 0.
Proof.
  split.
  - apply (init_config_multipath 0xC0); [lia|]. vm_compute. lia.
  - apply (init_config_multipath 0x80); [lia|]. vm_compute. lia.
Defined.

(** ** Attribute output *)

Lemma hex_digits_length upper : ∀ fuel k v acc,
  0 ≤ v < 16 ^ Z.of_nat k → (1 ≤ k ≤ fuel)%nat →
  (length acc + 1 ≤ length (hex_digits upper fuel v acc) ≤ length acc + k)%nat.
Proof.
  induction fuel as [|fuel IH]; intros k v acc Hv Hk; [lia|].
  cbn [hex_digits]. destruct (Z.eqb_spec (v / 16) 0) as [Hq|Hq].
  - cbn [length]. lia.
  - assert (16 ≤ v).
    { destruct (Z.lt_ge_cases v 16); [|done].
      rewrite Z.div_small in Hq by lia. done. }
    assert (2 ≤ k)%nat.
    { destruct k as [|[|k]]; [lia| |lia]. change (16 ^ Z.of_nat 1) with 16 in Hv. lia. }
    specialize (IH (k - 1)%nat (v / 16) (hex_digit upper (v mod 16) :: acc)).
    cbn [length] in IH.
    assert (0 ≤ v / 16 < 16 ^ Z.of_nat (k - 1)).
    { split; [apply Z.div_pos; lia|].
      apply Z.div_lt_upper_bound; [lia|].
      replace (16 * 16 ^ Z.of_nat (k - 1)) with (16 ^ Z.of_nat k); [lia|].
      replace (Z.of_nat k) with (Z.succ (Z.of_nat (k - 1))) by lia.
      rewrite Z.pow_succ_r by lia. done. }
    lia.
Qed.

Lemma fmt_hex_length upper width v :
  0 ≤ v < 16 ^ Z.of_nat width → (1 ≤ width ≤ 16)%nat →
  length (fmt_hex upper width v) = width.
Proof.
  intros Hv Hw. unfold fmt_hex.
  pose proof (hex_digits_length upper 16 width v [] Hv ltac:(lia)) as Hl.
  cbn [length] in Hl. rewrite length_app, length_replicate. lia.
Qed.

Lemma alias_prefix_length id : ccw_id_valid id → length (alias_prefix id) = 12%nat.
Proof.
  intros (Hct & Hcm & _). unfold alias_prefix.
  rewrite !length_app, !fmt_hex_length by (done || lia). done.
Qed.

Lemma alias_length id suffix :
  ccw_id_valid id →
  length (alias id suffix) =
    (12 + (if (id_dev_type id =? 0)%Z then 4 else 10) + length suffix)%nat.
Proof.
  intros Hid. pose proof Hid as (_ & _ & Hdt & Hdm). unfold alias.
  rewrite !length_app, alias_prefix_length by done.
  destruct (id_dev_type id =? 0); [done|].
  rewrite !length_app, !fmt_hex_length by (done || lia). done.
Qed.

Lemma snprint_alias_run size id suffix :
  ccw_id_valid id →
  0 ≤ size →
  (12 ≤ size →
   snprint_alias size id suffix =
     (take (Z.to_nat (size - 1)) (alias id suffix),
      Z.of_nat (length (alias id suffix)))) ∧
  (size < 12 →
   snprint_alias size id suffix =
     (take (Z.to_nat (size - 1)) (alias_prefix id), 12) ∧
   12 < Z.of_nat (length (alias id suffix))).
Proof.
  intros Hid Hsz. pose proof (alias_prefix_length id Hid) as Hpl.
  pose proof (alias_length id suffix Hid) as Hal.
  unfold snprint_alias, snprintf. fold (alias_prefix id). rewrite Hpl.
  split; intros Hsize.
  - destruct (Z.gtb_spec (Z.of_nat 12) size) as [?|_]; [lia|].
    unfold alias. rewrite (take_app (alias_prefix id)), Hpl.
    replace (Z.to_nat (size - Z.of_nat 12 - 1)) with (Z.to_nat (size - 1) - 12)%nat
      by lia.
    destruct (id_dev_type id =? 0); cbn [negb];
      rewrite <- ?app_assoc, ?length_app, ?Hpl; f_equal; lia.
  - destruct (Z.gtb_spec (Z.of_nat 12) size) as [_|?]; [|lia].
    split; [done|]. rewrite Hal. destruct (id_dev_type id =? 0); lia.
Qed.

(** X21: [snprint_alias] has the return value of [snprintf] only when the
    first part of the alias fits.  For a buffer of 12 bytes or more the
    result is the length of the whole alias, and the buffer holds the alias
    cut to what fits in front of the NUL; for a smaller buffer the result
    is 12, the length of the first part alone, whatever the rest and the
    suffix would add. *)
Theorem snprint_alias_result size id suffix :
  ccw_id_valid id →
  0 ≤ size →
  (12 ≤ size →
   snprint_alias size id suffix =
     (take (Z.to_nat (size - 1)) (alias id suffix),
      Z.of_nat (length (alias id suffix)))) ∧
  (size < 12 →
   snprint_alias size id suffix =
     (take (Z.to_nat (size - 1)) (alias_prefix id), 12) ∧
   12 < Z.of_nat (length (alias id suffix))).
Proof. apply snprint_alias_run. Qed.

Lemma snprint_alias_result_witness :
  snprint_alias 8 (mk_ccw_id 0x3990 0xE9 0x3390 0x0A) [] =
    (chars "ccw:t39", 12).
Proof.
  destruct (snprint_alias_result 8 (mk_ccw_id 0x3990 0xE9 0x3390 0x0A) [])
    as [_ H].
  - unfold ccw_id_valid. cbn. lia.
  - lia.
  - destruct H as [H _]; [lia|]. rewrite H. reflexivity.
Defined.

Lemma add_uevent_var_run full env var :
  add_uevent_var full env var =
    (full env var, if full env var =? 0 then env ++ [var] else env).
Proof.
  unfold add_uevent_var. destruct (Z.eqb_spec (full env var) 0) as [->|]; done.
Qed.

Lemma add_uevent_vars_run full : ∀ vars env,
  ∃ n, (n ≤ length vars)%nat ∧
    add_uevent_vars full env vars =
      (match vars !! n with
       | Some var => full (env ++ take n vars) var
       | None => 0
       end,
       env ++ take n vars) ∧
    (∀ i var, (i < n)%nat → vars !! i = Some var →
       full (env ++ take i vars) var = 0) ∧
    (∀ var, vars !! n = Some var → full (env ++ take n vars) var ≠ 0).
Proof.
  induction vars as [|v vars IH]; intros env.
  - exists 0%nat. cbn. rewrite app_nil_r. split; [lia|]. split; [done|].
    split; [lia|done].
  - cbn [add_uevent_vars]. rewrite add_uevent_var_run.
    destruct (Z.eqb_spec (full env v) 0) as [H0|H0]; cbn [negb].
    + destruct (IH (env ++ [v])) as (n & Hn & Hrun & Hok & Hfail).
      exists (S n). cbn [length take lookup list_lookup].
      rewrite <- app_assoc in Hrun, Hfail. cbn [app] in Hrun, Hfail.
      split; [lia|]. split; [done|]. split; [|done].
      intros [|i] var Hi Hl.
      * cbn in Hl. injection Hl as <-. cbn. by rewrite app_nil_r.
      * cbn in Hl |- *. specialize (Hok i var ltac:(lia) Hl).
        by rewrite <- app_assoc in Hok.
    + exists 0%nat. cbn. rewrite app_nil_r. split; [lia|]. split; [done|].
      split; [lia|]. by intros ? [= <-].
Qed.

Lemma ccw_uevent_add_uevent_vars full id env :
  snprint_alias 30 id [] = (alias id [], Z.of_nat (length (alias id []))) →
  ccw_uevent full id env = add_uevent_vars full env (uevent_vars id).
Proof.
  intros Hbuf. unfold ccw_uevent, uevent_vars. cbn [add_uevent_vars].
  rewrite Hbuf.
  do 4 (destruct (add_uevent_var full _ _) as [? ?];
        destruct (negb (_ =? 0)); [done|]).
  destruct (add_uevent_var full _ _) as [r e].
  destruct (negb (r =? 0)) eqn:Hr; [done|].
  apply negb_false_iff, Z.eqb_eq in Hr. by subst.
Qed.

(** X22: the alias is never cut short in the places that print it.  The
    30-byte buffer of [ccw_uevent] and the page of [modalias_show] hold the
    whole alias of every device identity: [modalias_show] returns its
    length, at most 23, and [ccw_uevent] returns the code of the first
    variable the environment refuses, having added the variables before it
    in the order CU_TYPE, CU_MODEL, DEV_TYPE, DEV_MODEL, MODALIAS, or 0
    with all five added. *)
Theorem alias_never_truncated full id env :
  ccw_id_valid id →
  (modalias_show id = (alias id newline, Z.of_nat (length (alias id newline))) ∧
   Z.of_nat (length (alias id newline)) ≤ 23) ∧
  ∃ n, (n ≤ 5)%nat ∧
    ccw_uevent full id env =
      (match uevent_vars id !! n with
       | Some var => full (env ++ take n (uevent_vars id)) var
       | None => 0
       end,
       env ++ take n (uevent_vars id)) ∧
    (∀ i var, (i < n)%nat → uevent_vars id !! i = Some var →
       full (env ++ take i (uevent_vars id)) var = 0) ∧
    (∀ var, uevent_vars id !! n = Some var →
       full (env ++ take n (uevent_vars id)) var ≠ 0).
Proof.
  intros Hid. pose proof (alias_length id newline Hid) as Hnl.
  pose proof (alias_length id [] Hid) as He.
  split.
  - unfold modalias_show.
    assert (Hp0 : 0 ≤ PAGE_SIZE) by (unfold PAGE_SIZE; lia).
    rewrite (proj1 (snprint_alias_run PAGE_SIZE id newline Hid Hp0))
      by (unfold PAGE_SIZE; lia).
    assert (Hle : Z.of_nat (length (alias id newline)) ≤ 23).
    { rewrite Hnl. cbn [length newline]. destruct (id_dev_type id =? 0); lia. }
    split; [|done].
    rewrite take_ge by (unfold PAGE_SIZE; lia).
    destruct (Z.gtb_spec (Z.of_nat (length (alias id newline))) PAGE_SIZE);
      [unfold PAGE_SIZE in *; lia|done].
  - assert (Hbuf : snprint_alias 30 id [] =
              (alias id [], Z.of_nat (length (alias id [])))).
    { rewrite (proj1 (snprint_alias_run 30 id [] Hid ltac:(lia))) by lia.
      rewrite take_ge; [done|]. rewrite He. cbn [length].
      destruct (id_dev_type id =? 0); lia. }
    rewrite (ccw_uevent_add_uevent_vars full id env Hbuf).
    destruct (add_uevent_vars_run full (uevent_vars id) env)
      as (n & Hn & Hrun & Hok & Hfail).
    exists n. done.
Qed.

Lemma alias_never_truncated_witness :
  modalias_show (mk_ccw_id 0x3990 0xE9 0x3390 0x0A) =
    (chars "ccw:t3990mE9dt3390dm0A" ++ newline, 23).
Proof.
  destruct (alias_never_truncated (fun _ _ => 0)
              (mk_ccw_id 0x3990 0xE9 0x3390 0x0A) [])
    as [[H _] _].
  - unfold ccw_id_valid. cbn. lia.
  - rewrite H. reflexivity.
Defined.

Lemma land_pow2 a k :
  0 ≤ k → Z.land a (2 ^ k) = if Z.testbit a k then 2 ^ k else 0.
Proof.
  intros Hk. apply Z.bits_inj'. intros n Hn.
  rewrite Z.land_spec, Z.pow2_bits_eqb by done.
  destruct (Z.eqb_spec k n) as [->|Hne].
  - destruct (Z.testbit a n); [|by rewrite Z.bits_0].
    by rewrite Z.pow2_bits_eqb, Z.eqb_refl by done.
  - rewrite andb_false_r. destruct (Z.testbit a k); [|by rewrite Z.bits_0].
    rewrite Z.pow2_bits_eqb by done. by destruct (Z.eqb_spec k n).
Qed.

Lemma chpid_mask_bit pm chp :
  0 ≤ chp < 8 →
  (Z.land pm (Z.shiftr 0x80 chp) =? 0) = negb (Z.testbit pm (7 - chp)).
Proof.
  intros Hchp.
  assert (Z.shiftr 0x80 chp = 2 ^ (7 - chp)) as ->.
  { rewrite Z.shiftr_div_pow2 by lia. change 0x80 with (2 ^ 7).
    replace 7 with ((7 - chp) + chp) at 1 by lia.
    rewrite Z.pow_add_r by lia. apply Z.div_mul. apply Z.pow_nonzero; lia. }
  rewrite land_pow2 by lia.
  destruct (Z.testbit pm (7 - chp)); [|done].
  apply Z.eqb_neq. apply Z.pow_nonzero; lia.
Qed.

Lemma chpids_loop_run ssd : ∀ chps buf ret0,
  length (chpid ssd) = 8%nat →
  Forall (λ v, 0 ≤ v < 256) (chpid ssd) →
  Forall (λ chp, 0 ≤ chp < 8) chps →
  chpids_loop ssd chps buf ret0 =
    Some (buf ++ concat (chpid_column ssd <$> chps),
          ret0 + 3 * Z.of_nat (length chps)).
Proof.
  induction chps as [|chp chps IH]; intros buf ret0 Hlen Hids Hchps.
  - cbn. rewrite app_nil_r. f_equal. f_equal. lia.
  - apply Forall_cons in Hchps as [Hchp Hchps].
    cbn [chpids_loop fmap list_fmap concat length].
    rewrite chpid_mask_bit by done. rewrite negb_involutive.
    destruct (Z.testbit (path_mask ssd) (7 - chp)) eqn:Hbit.
    + destruct (lookup_lt_is_Some_2 (chpid ssd) (Z.to_nat chp)) as [id Hid];
        [lia|].
      assert (Hcol : chpid_column ssd chp = fmt_hex false 2 id ++ chars " ")
        by (unfold chpid_column; by rewrite Hbit, Hid).
      assert (Hidr : 0 ≤ id < 256).
      { rewrite Forall_forall in Hids. apply Hids.
        by eapply list_elem_of_lookup_2. }
      rewrite Hid. cbn [mbind option_bind].
      rewrite IH, Hcol by done. rewrite <- app_assoc.
      rewrite length_app, fmt_hex_length by (done || lia).
      f_equal. f_equal. change (length (chars " ")) with 1%nat. lia.
    + assert (Hcol : chpid_column ssd chp = chars "00 ")
        by (unfold chpid_column; by rewrite Hbit).
      rewrite IH, Hcol by done. rewrite <- app_assoc. f_equal. f_equal.
      change (length (chars "00 ")) with 3%nat. lia.
Qed.

(** X23: [chpids_show] always prints eight columns of two hexadecimal
    digits and a blank, then a newline, and returns 25.  Column [chp] shows
    the channel path id only if bit [7 - chp] of the path mask is set (the
    mask is read from its most significant bit), and 00 otherwise, as it
    also does for an installed path with id 0. *)
Theorem chpids_show_columns ssd :
  length (chpid ssd) = 8%nat →
  Forall (λ v, 0 ≤ v < 256) (chpid ssd) →
  chpids_show ssd =
    Some (concat (chpid_column ssd <$> seqZ 0 8) ++ newline, 25) ∧
  length (concat (chpid_column ssd <$> seqZ 0 8) ++ newline) = 25%nat.
Proof.
  intros Hlen Hids.
  assert (Hchps : Forall (λ chp, 0 ≤ chp < 8) (seqZ 0 8)).
  { apply Forall_forall. intros chp Hin. apply elem_of_seqZ in Hin. lia. }
  pose proof (chpids_loop_run ssd (seqZ 0 8) [] 0 Hlen Hids Hchps) as Hrun.
  unfold chpids_show. rewrite Hrun. cbn [mbind option_bind app].
  split; [done|].
  rewrite length_app. cbn [length newline].
  assert (Hcol : ∀ chps, Forall (λ chp, 0 ≤ chp < 8) chps →
            length (concat (chpid_column ssd <$> chps)) = (3 * length chps)%nat).
  { induction chps as [|chp chps IH]; intros Hc; [done|].
    apply Forall_cons in Hc as [Hchp Hc].
    cbn [fmap list_fmap concat length]. rewrite length_app, IH by done.
    unfold chpid_column. destruct (Z.testbit _ _); [|cbn; lia].
    rewrite length_app, fmt_hex_length; [cbn; lia| |lia].
    destruct (chpid ssd !! Z.to_nat chp) as [id|] eqn:Hid; [|done].
    rewrite Forall_forall in Hids. apply Hids.
    by eapply list_elem_of_lookup_2. }
  rewrite Hcol by done. done.
Qed.

Lemma chpids_show_columns_witness :
  chpids_show ssd0 = Some (chars "1a 00 2b 00 00 00 00 00 " ++ newline, 25).
Proof.
  destruct (chpids_show_columns ssd0) as [H _].
  - reflexivity.
  - unfold ssd0. cbn [chpid].
    repeat (apply List.Forall_cons; [lia|]). apply List.Forall_nil.
  - rewrite H. reflexivity.
Defined.

(** ** The recovery scan *)

Lemma verify_events_ext w w1 l :
  (∀ q, q ∈ l → devs w1 !! q = devs w !! q) →
  verify_events w1 l = verify_events w l.
Proof.
  induction l as [|p l IH]; intros H; [done|].
  unfold verify_events in *. cbn [omap list_omap].
  rewrite (H p) by (by left). rewrite IH; [done|].
  intros q Hq. apply H. by right.
Qed.

Lemma recovery_check_run E p redo w c :
  devs w !! p = Some c →
  ∃ w' redo', recovery_check E p redo w = Some ((0, redo'), w') ∧
    trace w' = trace w ++ verify_events w [p] ∧
    (∀ q, q ≠ p → devs w' !! q = devs w !! q) ∧
    (state c ≠ DEV_STATE_DISCONNECTED → w' = w) ∧
    is_Some (devs w' !! p) ∧
    schs w' = schs w ∧ same_recovery w w' ∧ ccw_bus w' = ccw_bus w ∧
    (redo' ≠ 0 ↔ redo ≠ 0 ∨ needs_retry c = true).
Proof.
  intros Hc. unfold recovery_check, verify_events. mstep.
  cbn [omap list_omap]. rewrite Hc. unfold needs_retry.
  assert (Hother : state c ≠ DEV_STATE_DISCONNECTED →
            state c ≠ DEV_STATE_DISCONNECTED_SENSE_ID →
            ∃ w' redo',
              ret (0, redo) w = Some ((0, redo'), w') ∧
              trace w' = trace w ++
                (if bool_decide (state c = DEV_STATE_DISCONNECTED)
                 then [E_dev_fsm_event p DEV_EVENT_VERIFY] else []) ∧
              (∀ q, q ≠ p → devs w' !! q = devs w !! q) ∧
              (state c ≠ DEV_STATE_DISCONNECTED → w' = w) ∧
              is_Some (devs w' !! p) ∧
              schs w' = schs w ∧ same_recovery w w' ∧ ccw_bus w' = ccw_bus w ∧
              (redo' ≠ 0 ↔ redo ≠ 0 ∨
                 bool_decide (state c = DEV_STATE_DISCONNECTED) ||
                 bool_decide (state c = DEV_STATE_DISCONNECTED_SENSE_ID) = true)).
  { intros H1 H2. exists w, redo.
    rewrite !bool_decide_eq_false_2, app_nil_r by done.
    split; [done|]. split; [done|]. split; [done|]. split; [done|].
    split; [eauto|]. split; [done|]. split; [done|]. split; [done|].
    split; [by left|]. intros [?|?]; done. }
  destruct (state c) eqn:Hst; try (apply Hother; done).
  - rewrite (bind_Some _ _ _ _ _ (dev_fsm_event_run E _ DEV_EVENT_VERIFY _ _ Hc)).
    eexists _, 1. split; [reflexivity|]. store_simpl.
    split; [done|]. split; [intros q Hq; by rewrite lookup_insert_ne|].
    split; [done|]. split; [rewrite lookup_insert_eq; eauto|].
    split; [done|]. split; [done|]. split; [done|].
    split; [by right|done].
  - exists w, 1. rewrite app_nil_r.
    split; [done|]. split; [done|]. split; [done|]. split; [done|].
    split; [eauto|]. split; [done|]. split; [done|]. split; [done|].
    split; [by right|done].
Qed.

Lemma recovery_scan_trace E l : ∀ w redo,
  NoDup l →
  bus_valid l w →
  ∃ w' redo', bus_for_each_dev l redo (recovery_check E) w = Some ((0, redo'), w') ∧
    trace w' = trace w ++ verify_events w l ∧
    (∀ q, q ∉ l → devs w' !! q = devs w !! q) ∧
    (∀ q c, q ∈ l → devs w !! q = Some c →
       state c ≠ DEV_STATE_DISCONNECTED → devs w' !! q = Some c) ∧
    schs w' = schs w ∧ same_recovery w w' ∧ ccw_bus w' = ccw_bus w ∧
    (redo' ≠ 0 ↔ redo ≠ 0 ∨ some_needs_retry l w).
Proof.
  induction l as [|p l IH]; intros w redo Hnd Hv.
  - exists w, redo. cbn. rewrite app_nil_r. repeat split; try done.
    + tauto.
    + intros [?|(q & c & Hq & _)]; [done|]. by apply elem_of_nil in Hq.
  - apply NoDup_cons in Hnd as [Hpl Hnd].
    destruct (Hv p) as [c Hc]; [by left|].
    destruct (recovery_check_run E p redo w c Hc)
      as (w1 & redo1 & Hrun1 & Ht1 & Hd1 & Hsame1 & Hp1 & Hs1 & Hr1 & Hb1 & Hredo1).
    cbn [bus_for_each_dev]. rewrite (bind_Some _ _ _ _ _ Hrun1). cbn [Z.eqb].
    destruct (IH w1 redo1) as (w' & redo' & Hrun & Htr & Hout & Hin & Hs & Hr & Hb & Hredo).
    { done. }
    { intros q Hq. rewrite Hd1; [apply Hv; by right|]. intros ->. done. }
    exists w', redo'. split; [done|].
    assert (Hrest : verify_events w1 l = verify_events w l).
    { apply verify_events_ext. intros q Hq. apply Hd1. intros ->. done. }
    split; [|split; [|split; [|split; [|split; [|split]]]]].
    + rewrite Htr, Ht1, Hrest, <- app_assoc. f_equal.
      unfold verify_events. cbn [omap list_omap]. rewrite Hc.
      by destruct (bool_decide _).
    + intros q Hq. apply not_elem_of_cons in Hq as [Hqp Hql].
      rewrite Hout by done. by apply Hd1.
    + intros q cq Hq Hcq Hst. apply elem_of_cons in Hq as [->|Hq].
      * assert (cq = c) as -> by congruence. rewrite Hout by done.
        by rewrite (Hsame1 Hst).
      * assert (q ≠ p) by (intros ->; done).
        apply Hin; [done| |done]. by rewrite Hd1.
    + congruence.
    + destruct Hr1 as (? & ? & ?), Hr as (? & ? & ?).
      repeat split; congruence.
    + congruence.
    + rewrite Hredo, Hredo1. split.
      * intros [[?|?]|(q & cq & Hq & Hcq & Hn)]; [by left| |].
        -- right. exists p, c. split; [by left|done].
        -- right. exists q, cq. split; [by right|]. split; [|done].
           rewrite <- Hd1; [done|]. intros ->. done.
      * intros [?|(q & cq & Hq & Hcq & Hn)]; [by left; left|].
        apply elem_of_cons in Hq as [->|Hq].
        -- left. right. congruence.
        -- right. exists q, cq. split; [done|]. split; [|done].
           rewrite Hd1; [done|]. intros ->. done.
Qed.

Lemma recovery_work_func_trace E w :
  NoDup (ccw_bus w) →
  bus_valid (ccw_bus w) w →
  0 ≤ recovery_phase w ≤ 2 →
  ∃ w', recovery_work_func E w = Some (tt, w') ∧
    trace w' = trace w ++ verify_events w (ccw_bus w) ∧
    (∀ q, q ∉ ccw_bus w → devs w' !! q = devs w !! q) ∧
    (∀ q c, q ∈ ccw_bus w → devs w !! q = Some c →
       state c ≠ DEV_STATE_DISCONNECTED → devs w' !! q = Some c) ∧
    schs w' = schs w ∧
    (timer_pending (recovery_timer w') = true ↔
     timer_pending (recovery_timer w) = true ∨ some_needs_retry (ccw_bus w) w).
Proof.
  intros Hnd Hv Hph.
  destruct (recovery_scan_trace E (ccw_bus w) w 0 Hnd Hv)
    as (w1 & redo & Hscan & Htr & Hout & Hin & Hs & (Ht & Hp & Hj) & Hb & Hredo).
  unfold recovery_work_func. mstep. rewrite (bind_Some _ _ _ _ _ Hscan).
  destruct (Z.eqb_spec redo 0) as [H0|H0]; cbn [negb].
  - exists w1. split; [done|]. repeat (split; [done|]). rewrite <- Ht.
    split; [by left|]. intros [?|Hn]; [done|].
    exfalso. apply Hredo; [by right|done].
  - assert (Hsome : some_needs_retry (ccw_bus w) w).
    { destruct Hredo as [[?|?] _]; done. }
    mstep. destruct (timer_pending (recovery_timer w1)) eqn:Hpend; cbn [negb].
    + exists w1. split; [done|]. repeat (split; [done|]). rewrite Hpend. tauto.
    + rewrite Hp, (ulong_small _ Hph).
      change (ulong (ARRAY_SIZE recovery_delay - 1)) with 2.
      destruct (Z.ltb_spec (recovery_phase w) 2) as [Hlt|Hge].
      * repeat mstep.
        rewrite (bind_Some _ _ _ _ _
                   (recovery_delay_at_run (recovery_phase w1 + 1) _ ltac:(lia))).
        eexists. split; [reflexivity|]. store_simpl.
        repeat (split; [done|]). cbn. tauto.
      * repeat mstep.
        rewrite (bind_Some _ _ _ _ _
                   (recovery_delay_at_run (recovery_phase w1) _ ltac:(lia))).
        eexists. split; [reflexivity|]. store_simpl.
        repeat (split; [done|]). cbn. tauto.
Qed.

(** X24: what one run of the recovery work does to the devices.  It sends
    a verify event to exactly the devices of the bus in state
    [DISCONNECTED], in bus order; a device in any other state, one that is
    still sensing after a disconnect included, is left as it is, and so
    are the devices off the bus and all subchannels.  The timer is armed
    again afterwards exactly when a device on the bus is waiting in one of
    the two disconnected states, or the timer is pending already. *)
Theorem recovery_work_triggers_disconnected E w :
  NoDup (ccw_bus w) →
  bus_valid (ccw_bus w) w →
  0 ≤ recovery_phase w ≤ 2 →
  ∃ w', recovery_work_func E w = Some (tt, w') ∧
    trace w' = trace w ++ verify_events w (ccw_bus w) ∧
    (∀ q, q ∉ ccw_bus w → devs w' !! q = devs w !! q) ∧
    (∀ q c, q ∈ ccw_bus w → devs w !! q = Some c →
       state c ≠ DEV_STATE_DISCONNECTED → devs w' !! q = Some c) ∧
    schs w' = schs w ∧
    (timer_pending (recovery_timer w') = true ↔
     timer_pending (recovery_timer w) = true ∨ some_needs_retry (ccw_bus w) w).
Proof. apply recovery_work_func_trace. Qed.

Lemma recovery_work_triggers_disconnected_witness :
  ∃ w', recovery_work_func E0 w_sensing = Some (tt, w') ∧
    trace w' = [E_dev_fsm_event 1%positive DEV_EVENT_VERIFY;
                E_dev_fsm_event 2%positive DEV_EVENT_VERIFY] ∧
    devs w' !! 3%positive = devs w_sensing !! 3%positive.
Proof.
  destruct (recovery_work_triggers_disconnected E0 w_sensing)
    as (w' & Hrun & Htr & _ & Hin & _).
  - apply (bool_decide_unpack _). vm_compute. exact I.
  - unfold bus_valid. apply Forall_forall.
    change (ccw_bus w_sensing) with [1%positive; 2%positive; 3%positive].
    repeat (apply List.Forall_cons; [eexists; reflexivity|]). apply List.Forall_nil.
  - change (recovery_phase w_sensing) with 0. lia.
  - exists w'. split; [exact Hrun|]. split; [exact Htr|].
    assert (H3 : 3%positive ∈ ccw_bus w_sensing)
      by (apply (bool_decide_unpack _); vm_compute; exact I).
    apply (Hin 3%positive _ H3 eq_refl). discriminate.
Defined.

(** ** Attaching a replacement device *)




(** ** Forcing a device online *)

Lemma online_store_forced E p buf count w c :
  devs w !! p = Some c →
  onoff c = 0 →
  module_available E c (onoff_taken w p c) →
  strncmp buf force_nl (Z.to_nat count) = 0 →
  online_store E p buf count w =
    (let* rc :=
       let* rc := online_store_handle_online E p 1 in
       if rc =? 0 then ret (to_int count) else ret rc in
     cdev_upd p (set_onoff 0) >> ret rc) (onoff_taken w p c).
Proof.
  intros Hc H0 Hmod Hforce.
  unfold online_store. mstep. rewrite H0. cbn [Z.eqb negb].
  mstep. mstep. fold (onoff_taken w p c).
  assert (Hm : match drv c with
               | Some d => negb (o_try_module_get E (drv_owner d) (onoff_taken w p c))
               | None => false
               end = false).
  { destruct (drv c) as [d|] eqn:Hd; [|done]. by rewrite (Hmod d). }
  rewrite Hm, Hforce. cbn [Z.eqb Pos.eqb negb]. rewrite ?bind_assoc.
  apply bind_ext. intros r w2.
  destruct (r =? 0); rewrite !bind_ret; apply online_store_out.
Qed.

Lemma online_store_handle_online_not_boxed E p force w rc w2 :
  online_store_recog_and_online E p w = Some (rc, w2) →
  (rc ≠ 0 ∨ ∃ c2, devs w2 !! p = Some c2 ∧ state c2 ≠ DEV_STATE_BOXED) →
  online_store_handle_online E p force w = Some (rc, w2).
Proof.
  intros Hrun Hnb. unfold online_store_handle_online.
  rewrite (bind_Some _ _ _ _ _ Hrun).
  destruct (Z.eqb_spec rc 0) as [->|Hrc]; cbn [negb]; [|done].
  destruct Hnb as [?|(c2 & Hc2 & Hst)]; [done|].
  mstep. rewrite (bool_decide_eq_false_2 _ Hst), andb_false_r. done.
Qed.

(** X26: writing force to the online attribute differs from writing 1 only
    for a device that is boxed.  When the first attempt to recognise the
    device and set it online fails to start, or leaves the device in a
    state other than [BOXED], both requests end in the same store, and
    each reports its own byte count (as the [int] it is kept in) or the
    same error code. *)
Theorem online_store_force_only_for_boxed E p buf count fbuf fcount w c rc w2 :
  devs w !! p = Some c →
  onoff c = 0 →
  module_available E c (onoff_taken w p c) →
  strncmp buf force_nl (Z.to_nat count) ≠ 0 →
  o_strict_strtoul E buf 16 (onoff_taken w p c) = (0, 1) →
  strncmp fbuf force_nl (Z.to_nat fcount) = 0 →
  online_store_recog_and_online E p (onoff_taken w p c) = Some (rc, w2) →
  (rc ≠ 0 ∨ ∃ c2, devs w2 !! p = Some c2 ∧ state c2 ≠ DEV_STATE_BOXED) →
  is_Some (devs w2 !! p) →
  ∃ w',
    online_store E p buf count w =
      Some (if rc =? 0 then to_int count else rc, w') ∧
    online_store E p fbuf fcount w =
      Some (if rc =? 0 then to_int fcount else rc, w').
Proof.
  intros Hc H0 Hmod Hbuf Hparse Hforce Hrun Hnb [c2 Hc2].
  exists (onoff_released w2 p c2).
  rewrite (online_store_parsed E p buf count w c 0 1) by done.
  rewrite (online_store_forced E p fbuf fcount w c) by done.
  cbn [Z.eqb Pos.eqb negb].
  rewrite !bind_assoc.
  rewrite !(bind_Some _ _ _ _ _
              (online_store_handle_online_not_boxed E p _ _ _ _ Hrun Hnb)).
  split; destruct (rc =? 0); by repeat mstep.
Qed.

Lemma online_store_force_only_for_boxed_witness :
  ∃ w', online_store E0 1%positive "1" 1 w_off_rej = Some (1, w') ∧
        online_store E0 1%positive force_nl 6 w_off_rej = Some (6, w').
Proof.
  destruct (online_store_force_only_for_boxed E0 1%positive "1" 1 force_nl 6
              w_off_rej _ 0
              (store_after (online_store_recog_and_online E0 1%positive)
                 (onoff_taken w_off_rej 1%positive
                    (mk_cdev false (Some drv_rej) (Some 10%positive) 1
                       (Some 10%positive) 0x3990 DEV_STATE_OFFLINE
                       (mk_dev_id 0 0x1234) (mk_schid 0 10) 0
                       false true false None None)))
              eq_refl eq_refl) as (w' & H1 & H2).
  - intros d _. reflexivity.
  - vm_compute. discriminate.
  - reflexivity.
  - reflexivity.
  - vm_compute. reflexivity.
  - right. eexists. split; [vm_compute; reflexivity|discriminate].
  - eexists. vm_compute. reflexivity.
  - exists w'. split; [exact H1|exact H2].
Defined.

(** ** A kept device is retried *)

(** X27: from the loss of a device to the first retry.  When the evaluator
    finds the subchannel of an online device gone or without path and the
    driver wants to keep the device, the device is disconnected and the
    recovery timer is pending in phase 0.  When that timer fires, the
    recovery work sends the device a verify event and, as the device was
    still disconnected, arms the timer again, now in phase 1. *)
Theorem kept_device_is_retried E sch slow w s p c :
  schs w !! sch = Some s →
  sch_cdev s = Some p →
  devs w !! p = Some c →
  parent c = Some sch →
  needs_retry c = false →
  slow ≠ 0 →
  online c = true →
  p ∈ ccw_bus w →
  NoDup (ccw_bus w) →
  bus_valid (ccw_bus w) w →
  ∀ ev keep,
    io_subchannel_get_status E sch (timer_killed w p c) =
      Some (ev, timer_killed w p c) →
    io_subchannel_notify E sch ev (timer_killed w p c) =
      Some (keep, timer_killed w p c) →
    spec_action ev false (negb (keep =? 0)) = DISC →
    ∃ w1 w2,
      io_subchannel_sch_event E sch slow w = Some (0, w1) ∧
      cdev_field state w1 p = Some DEV_STATE_DISCONNECTED ∧
      timer_pending (recovery_timer w1) = true ∧ recovery_phase w1 = 0 ∧
      recovery_timer_fires E w1 = Some (tt, w2) ∧
      E_dev_fsm_event p DEV_EVENT_VERIFY ∈ trace w2 ∧
      timer_pending (recovery_timer w2) = true ∧ recovery_phase w2 = 1.
Proof.
  intros Hs Hb Hc Hp Hnr Hslow Hon Hbus Hnd Hv ev keep Hev Hn Ha.
  assert (Hkeep : keep = o_ccw_device_notify E p ev (timer_killed w p c)).
  { pose proof (io_subchannel_notify_run E sch ev (timer_killed w p c) s Hs) as Hn'.
    rewrite Hb in Hn'. congruence. }
  subst keep.
  destruct (sch_event_effects_run E sch slow w s p c Hs Hb Hc Hp)
    as (ev' & Hev' & Hact); [by right|].
  assert (ev' = ev) as -> by congruence.
  rewrite Hnr, Ha in Hact.
  destruct Hact as (w1 & Hrun1 & Hd1 & Hs1 & Htr1 & Hrec & _).
  destruct (Hrec Hon) as [Hpend Hph].
  assert (Hc1 : devs w1 !! p =
            Some (set_state DEV_STATE_DISCONNECTED
                    (set_fake_irb false (set_timer false c)))).
  { rewrite Hd1. unfold disconnected. store_simpl. apply lookup_insert_eq. }
  assert (Hbus1 : ccw_bus w1 = ccw_bus w).
  { revert Hrun1. unfold io_subchannel_sch_event, sch_get_cdev.
    destruct (sch_event_accepted E sch slow w s p c Hs Hb Hc)
      as (ev2 & Hev2 & Hrun); [by right|].
    cbv zeta in Hrun. fold (sch_get_cdev sch).
    fold (io_subchannel_sch_event E sch slow). rewrite Hrun.
    assert (ev2 = ev) as -> by congruence.
    rewrite Hnr, Ha. unfold sch_event_perform, device_set_disconnected,
      ccw_device_set_timeout_0, timer_killed.
    repeat mstep'. cbn [online set_state set_fake_irb set_timer]. rewrite Hon.
    match goal with |- context [bind _ _ ?w0] =>
      destruct (ccw_device_schedule_recovery_run E w0)
        as (w' & Hrun' & _ & _ & _ & _ & _ & Hb')
    end.
    rewrite (bind_Some _ _ _ _ _ Hrun').
    rewrite bool_decide_eq_false_2 by done. intros [= <-]. done. }
  set (w1' := set_recovery_timer (mk_timer false (expires (recovery_timer w1))) w1).
  destruct (recovery_work_func_trace E w1') as (w2 & Hrun2 & Htr2 & _ & _ & _ & Harm).
  { unfold w1'. store_simpl. by rewrite Hbus1. }
  { unfold w1', bus_valid. store_simpl. rewrite Hbus1. intros q Hq.
    destruct (decide (q = p)) as [->|Hne]; [by rewrite Hc1|].
    rewrite Hd1. unfold disconnected. store_simpl.
    rewrite lookup_insert_ne by done. by apply Hv. }
  { unfold w1'. store_simpl. lia. }
  exists w1, w2. split; [done|].
  split; [unfold cdev_field; by rewrite Hc1|]. split; [done|]. split; [done|].
  assert (Hsome : some_needs_retry (ccw_bus w1') w1').
  { exists p, (set_state DEV_STATE_DISCONNECTED
                 (set_fake_irb false (set_timer false c))).
    unfold w1'. store_simpl. rewrite Hbus1. done. }
  split.
  { unfold recovery_timer_fires, recovery_func. mstep. exact Hrun2. }
  split.
  { rewrite Htr2. apply elem_of_app. right.
    unfold verify_events. apply list_elem_of_omap. exists p.
    unfold w1' at 1. store_simpl. rewrite Hbus1. split; [done|].
    unfold w1'. store_simpl. rewrite Hc1. done. }
  split; [apply Harm; by right|].
  revert Hrun2. unfold recovery_work_func. mstep.
  destruct (recovery_scan_trace E (ccw_bus w1') w1' 0)
    as (w3 & redo & Hscan & _ & _ & _ & _ & (Ht & Hp3 & Hj) & _ & Hredo).
  { unfold w1'. store_simpl. by rewrite Hbus1. }
  { unfold w1', bus_valid. store_simpl. rewrite Hbus1. intros q Hq.
    destruct (decide (q = p)) as [->|Hne]; [by rewrite Hc1|].
    rewrite Hd1. unfold disconnected. store_simpl.
    rewrite lookup_insert_ne by done. by apply Hv. }
  rewrite (bind_Some _ _ _ _ _ Hscan).
  destruct (Z.eqb_spec redo 0) as [H0|H0]; cbn [negb].
  { exfalso. apply Hredo; [by right|done]. }
  mstep. rewrite Ht. unfold w1' at 1. store_simpl. cbn [timer_pending pending negb].
  rewrite Hp3. unfold w1' at 1. store_simpl. rewrite Hph.
  change (ulong 0 <? ulong (ARRAY_SIZE recovery_delay - 1)) with true.
  lazy beta iota. repeat mstep.
  rewrite (bind_Some _ _ _ _ _
             (recovery_delay_at_run (recovery_phase w3 + 1) _ ltac:(
                rewrite Hp3; unfold w1'; store_simpl; lia))).
  intros [= <-]. store_simpl. rewrite Hp3. unfold w1'. store_simpl. lia.
Qed.

Lemma kept_device_is_retried_witness :
  ∃ w1 w2,
    io_subchannel_sch_event E_lost 10%positive 1 w_on = Some (0, w1) ∧
    recovery_timer_fires E_lost w1 = Some (tt, w2) ∧
    E_dev_fsm_event 1%positive DEV_EVENT_VERIFY ∈ trace w2 ∧
    recovery_phase w2 = 1.
Proof.
  destruct (kept_device_is_retried E_lost 10%positive 1 w_on
              (sample_sch 10 0x1234 (Some 1%positive) [1%positive]) 1%positive
              (set_kref 2 (set_online true
                 (sample_cdev DEV_STATE_ONLINE 10%positive 0x1234 false)))
              eq_refl eq_refl eq_refl eq_refl eq_refl ltac:(discriminate) eq_refl)
    with (ev := CIO_GONE) (keep := 1)
    as (w1 & w2 & Hrun1 & _ & _ & _ & Hrun2 & Hev & _ & Hph).
  - apply (bool_decide_unpack _). vm_compute. exact I.
  - apply (bool_decide_unpack _). vm_compute. exact I.
  - unfold bus_valid. apply Forall_forall.
    change (ccw_bus w_on) with [1%positive].
    apply List.Forall_cons; [eexists; reflexivity|]. apply List.Forall_nil.
  - reflexivity.
  - reflexivity.
  - reflexivity.
  - exists w1, w2. split; [exact Hrun1|]. split; [exact Hrun2|].
    split; [exact Hev|exact Hph].
Defined.
